(** * Workshop board: synchronisation and stage-transition engine

    A shallow embedding of [src/workshop.py] (the Cin7 fetcher, the date
    parser, the pagination loop, the per-order normalisation and
    classification, the grouping done by [api_jobs] and the stage update),
    followed by the properties of the specification that concern them.

    Conventions of the embedding.
    - A decoded JSON document is a value of [json]; Python's [None] is
      [JNull], a [dict] is a finite map from strings to values, an [int] is
      an unbounded [Z] and a [float] is an IEEE-754 binary64 value
      ([spec_float], with the arithmetic of the standard library's
      executable specification).
    - A Python [str] is a [string]: a sequence of 8-bit characters.  Case
      mapping and digit classes are the ASCII ones; text outside ASCII is
      outside the model.
    - A computation that may raise returns a [result]; the network and the
      clock are explicit state ([world]). *)

From Stdlib Require Import ZArith String Ascii List Bool Lia.
From Stdlib Require Import Floats.SpecFloat.
From stdpp Require Import gmap strings list fin_maps pretty.

Set Warnings "-register-all".
Local Open Scope string_scope.
Local Open Scope list_scope.
Local Open Scope Z_scope.

(* ===================================================================== *)
(** * Python values                                                      *)
(* ===================================================================== *)

(** What [resp.json()] can produce. *)
Inductive json : Type :=
| JNull
| JBool (b : bool)
| JInt (z : Z)
| JFloat (f : spec_float)
| JStr (s : string)
| JList (l : list json)
| JDict (m : gmap string json).

(** The exceptions the modelled code can raise. *)
Inductive exn : Type :=
| AttributeError
| IndexError
| TypeError
| ValueError
| OverflowError.

Inductive result (A : Type) : Type :=
| Ok (a : A)
| Raise (e : exn).
Arguments Ok {A} a.
Arguments Raise {A} e.

#[global] Instance result_ret : MRet result := fun _ a => Ok a.
#[global] Instance result_bind : MBind result := fun _ _ k r =>
  match r with
  | Ok a => k a
  | Raise e => Raise e
  end.

(** Binary64 arithmetic, as CPython's [float]. *)
Definition prec : Z := 53.
Definition emax : Z := 1024.
Definition fadd : spec_float -> spec_float -> spec_float := SFadd prec emax.
Definition fmul : spec_float -> spec_float -> spec_float := SFmul prec emax.

(** [float(z)] for an [int]: the nearest binary64 value, [OverflowError]
    when there is none. *)
Definition float_of_int (z : Z) : result spec_float :=
  match binary_normalize prec emax z 0 false with
  | S754_infinity _ => Raise OverflowError
  | f => Ok f
  end.

(** [int(f)] for a [float]: truncation toward zero; [ValueError] on NaN and
    [OverflowError] on an infinity. *)
Definition int_of_float (f : spec_float) : result Z :=
  match f with
  | S754_zero _ => Ok 0
  | S754_infinity _ => Raise OverflowError
  | S754_nan => Raise ValueError
  | S754_finite s m e => Ok (cond_Zopp s (Z.shiftl (Z.pos m) e))
  end.

(** Python truth value of a decoded JSON document. *)
Definition truthy (v : json) : bool :=
  match v with
  | JNull => false
  | JBool b => b
  | JInt z => negb (z =? 0)
  | JFloat f =>
      match f with
      | S754_zero _ => false
      | _ => true
      end
  | JStr s =>
      match s with
      | EmptyString => false
      | String _ _ => true
      end
  | JList l =>
      match l with
      | [] => false
      | _ :: _ => true
      end
  | JDict m => negb (bool_decide (m = ∅))
  end.

(** [a or b] on values. *)
Definition py_or (a b : json) : json := if truthy a then a else b.

(** [d.get(k)]: the value under [k], [None] when the key is absent. *)
Definition dict_get (d : gmap string json) (k : string) : json :=
  default JNull (d !! k).

(** [v.get(k)] on an arbitrary value: only a [dict] has the method. *)
Definition py_get (v : json) (k : string) : result json :=
  match v with
  | JDict d => Ok (dict_get d k)
  | _ => Raise AttributeError
  end.

(** [c.lower()] on one ASCII character. *)
Definition ascii_lower (c : ascii) : ascii :=
  let n := nat_of_ascii c in
  if ((65 <=? n) && (n <=? 90))%nat then ascii_of_nat (n + 32) else c.

(** The helper [gf] of [fetch_kickplate_orders] (line 262):
    [order.get(name) or order.get(name[0].lower() + name[1:])].  The
    right operand is evaluated only when the left one is falsy; [name[0]]
    raises [IndexError] on the empty name. *)
Definition gf (order : gmap string json) (name : string) : result json :=
  let v := dict_get order name in
  if truthy v then Ok v
  else
    match name with
    | EmptyString => Raise IndexError
    | String c rest => Ok (dict_get order (String (ascii_lower c) rest))
    end.

(* ===================================================================== *)
(** * Calendar dates ([datetime] of the Python library)                  *)
(* ===================================================================== *)

Record datetime : Type := mk_datetime {
  year : Z;
  month : Z;
  day : Z;
  hour : Z;
  minute : Z;
  second : Z;
  microsecond : Z
}.

(** A calendar date, what [datetime.date()] returns. *)
Record date : Type := mk_date {
  date_year : Z;
  date_month : Z;
  date_day : Z
}.

Definition date_of (dt : datetime) : date :=
  mk_date (year dt) (month dt) (day dt).

Definition is_leap (y : Z) : bool :=
  (y mod 4 =? 0) && (negb (y mod 100 =? 0) || (y mod 400 =? 0)).

Definition DAYS_IN_MONTH : list Z :=
  [31; 28; 31; 30; 31; 30; 31; 31; 30; 31; 30; 31].

Definition DAYS_BEFORE_MONTH : list Z :=
  [0; 31; 59; 90; 120; 151; 181; 212; 243; 273; 304; 334].

Definition days_in_month (y m : Z) : Z :=
  if (m =? 2) && is_leap y then 29
  else nth (Z.to_nat (m - 1)) DAYS_IN_MONTH 0.

Definition days_before_year (y : Z) : Z :=
  let p := y - 1 in p * 365 + p / 4 - p / 100 + p / 400.

Definition days_before_month (y m : Z) : Z :=
  nth (Z.to_nat (m - 1)) DAYS_BEFORE_MONTH 0
  + (if (2 <? m) && is_leap y then 1 else 0).

(** [date.toordinal()]: day 1 is 0001-01-01. *)
Definition toordinal (d : date) : Z :=
  days_before_year (date_year d)
  + days_before_month (date_year d) (date_month d)
  + date_day d.

(** [(a - b).days] for two dates. *)
Definition days_between (a b : date) : Z := toordinal a - toordinal b.

(** The range checks of the [datetime] constructor ([ValueError] when one
    fails). *)
Definition valid_date (y m d : Z) : bool :=
  (1 <=? y) && (y <=? 9999) && (1 <=? m) && (m <=? 12)
  && (1 <=? d) && (d <=? days_in_month y m).

Definition valid_time (h mi s us : Z) : bool :=
  (0 <=? h) && (h <=? 23) && (0 <=? mi) && (mi <=? 59)
  && (0 <=? s) && (s <=? 59) && (0 <=? us) && (us <=? 999999).

Definition valid_datetime (dt : datetime) : bool :=
  valid_date (year dt) (month dt) (day dt)
  && valid_time (hour dt) (minute dt) (second dt) (microsecond dt).

(* ===================================================================== *)
(** * [datetime.strptime] for the directives of [parse_date]             *)
(* ===================================================================== *)

(** [strptime] turns the format into a regular expression (compiled with
    [IGNORECASE]), matches it at the start of the text with the
    backtracking of [re], rejects the text when the match does not reach
    its end, converts the captured groups and builds the [datetime].  The
    expression of a format is a sequence of literal characters and of
    named groups; a group is an ordered alternation of fixed-length
    sequences of character classes. *)
Inductive cclass : Type :=
| CChar (c : ascii)
| CRange (lo hi : ascii).

Inductive item : Type :=
| Lit (c : ascii)
| Field (name : ascii) (alts : list (list cclass)).

Definition cclass_match (k : cclass) (c : ascii) : bool :=
  match k with
  | CChar x => Ascii.eqb (ascii_lower x) (ascii_lower c)
  | CRange lo hi =>
      ((nat_of_ascii lo <=? nat_of_ascii c)
       && (nat_of_ascii c <=? nat_of_ascii hi))%nat
  end.

(** One alternative against the text: the characters it consumed and the
    rest. *)
Fixpoint match_alt (a : list cclass) (s : list ascii)
  : option (list ascii * list ascii) :=
  match a with
  | [] => Some ([], s)
  | k :: a' =>
      match s with
      | c :: s' =>
          if cclass_match k c then
            match match_alt a' s' with
            | Some (m, r) => Some (c :: m, r)
            | None => None
            end
          else None
      | [] => None
      end
  end.

(** The first element of [l] on which [f] succeeds. *)
Fixpoint first_some {A B : Type} (f : A -> option B) (l : list A)
  : option B :=
  match l with
  | [] => None
  | a :: l' =>
      match f a with
      | Some b => Some b
      | None => first_some f l'
      end
  end.

Definition captures : Type := list (ascii * list ascii).

(** Backtracking match of a compiled format: the alternatives of a group
    are tried in order, and a later one is tried when the rest of the
    expression fails after an earlier one.  The result is the first match
    in that order, with what is left of the text. *)
Fixpoint match_items (items : list item) (s : list ascii) (caps : captures)
  : option (captures * list ascii) :=
  match items with
  | [] => Some (caps, s)
  | Lit c :: items' =>
      match s with
      | c' :: s' =>
          if cclass_match (CChar c) c' then match_items items' s' caps
          else None
      | [] => None
      end
  | Field n alts :: items' =>
      first_some
        (fun a =>
           match match_alt a s with
           | Some (m, r) => match_items items' r ((n, m) :: caps)
           | None => None
           end)
        alts
  end.

Definition digit : cclass := CRange "0" "9".

(** The groups of [_strptime.TimeRE] for the directives that occur in
    [date_formats]:
    [Y] is [\d\d\d\d], [m] is [1[0-2]|0[1-9]|[1-9]],
    [d] is [3[0-1]|[1-2]\d|0[1-9]|[1-9]| [1-9]],
    [H] is [2[0-3]|[0-1]\d|\d], [M] is [[0-5]\d|\d],
    [S] is [6[0-1]|[0-5]\d|\d] and [f] is [[0-9]{1,6}], which is greedy,
    hence the longest alternative first. *)
Definition re_Y : list (list cclass) := [[digit; digit; digit; digit]].

Definition re_m : list (list cclass) :=
  [[CChar "1"; CRange "0" "2"]; [CChar "0"; CRange "1" "9"]; [CRange "1" "9"]].

Definition re_d : list (list cclass) :=
  [[CChar "3"; CRange "0" "1"]; [CRange "1" "2"; digit];
   [CChar "0"; CRange "1" "9"]; [CRange "1" "9"];
   [CChar " "; CRange "1" "9"]].

Definition re_H : list (list cclass) :=
  [[CChar "2"; CRange "0" "3"]; [CRange "0" "1"; digit]; [digit]].

Definition re_M : list (list cclass) := [[CRange "0" "5"; digit]; [digit]].

Definition re_S : list (list cclass) :=
  [[CChar "6"; CRange "0" "1"]; [CRange "0" "5"; digit]; [digit]].

Definition re_f : list (list cclass) :=
  [[digit; digit; digit; digit; digit; digit];
   [digit; digit; digit; digit; digit];
   [digit; digit; digit; digit];
   [digit; digit; digit];
   [digit; digit];
   [digit]].

Definition directive (d : ascii) : option (list (list cclass)) :=
  if Ascii.eqb d "Y" then Some re_Y
  else if Ascii.eqb d "m" then Some re_m
  else if Ascii.eqb d "d" then Some re_d
  else if Ascii.eqb d "H" then Some re_H
  else if Ascii.eqb d "M" then Some re_M
  else if Ascii.eqb d "S" then Some re_S
  else if Ascii.eqb d "f" then Some re_f
  else None.

(** [TimeRE.pattern]: a [%] starts a directive, any other character of
    the formats of [date_formats] stands for itself.  [None] is the
    [ValueError] of a bad or stray directive. *)
Fixpoint compile_format (fmt : list ascii) : option (list item) :=
  match fmt with
  | [] => Some []
  | c :: rest =>
      if Ascii.eqb c "%" then
        match rest with
        | [] => None
        | d :: rest' =>
            match directive d, compile_format rest' with
            | Some alts, Some items => Some (Field d alts :: items)
            | _, _ => None
            end
        end
      else
        match compile_format rest with
        | Some items => Some (Lit c :: items)
        | None => None
        end
  end.

Definition digit_value (c : ascii) : Z := Z.of_nat (nat_of_ascii c) - 48.

Definition is_digit (c : ascii) : bool := cclass_match digit c.

(** [int(s)] on a captured group: decimal digits, with the blank that the
    day group may capture skipped. *)
Definition int_of_group (s : list ascii) : Z :=
  fold_left (fun acc c => if is_digit c then acc * 10 + digit_value c else acc)
            s 0.

(** The value of group [n], [dflt] when the format has no such group. *)
Fixpoint group (caps : captures) (n : ascii) : option (list ascii) :=
  match caps with
  | [] => None
  | (k, v) :: caps' => if Ascii.eqb k n then Some v else group caps' n
  end.

Definition group_int (caps : captures) (n : ascii) (dflt : Z) : Z :=
  match group caps n with
  | Some s => int_of_group s
  | None => dflt
  end.

(** Group [f]: the digits are padded with zeros on the right up to six. *)
Definition fraction (caps : captures) : Z :=
  match group caps "f" with
  | Some s => int_of_group (s ++ repeat "0"%char (6 - length s))
  | None => 0
  end.

(** [datetime.strptime(data, fmt)]; [None] is [ValueError]. *)
Definition strptime (data fmt : list ascii) : option datetime :=
  match compile_format fmt with
  | None => None
  | Some items =>
      match match_items items data [] with
      | None => None
      | Some (caps, rest) =>
          match rest with
          | _ :: _ => None
          | [] =>
              let dt :=
                mk_datetime (group_int caps "Y" 1900) (group_int caps "m" 1)
                  (group_int caps "d" 1) (group_int caps "H" 0)
                  (group_int caps "M" 0) (group_int caps "S" 0)
                  (fraction caps) in
              if valid_datetime dt then Some dt else None
          end
      end
  end.

(** [s.replace(old, "")]: every occurrence of [old], left to right;
    [skip] counts the characters of a match still to be dropped. *)
Fixpoint remove_all (old : list ascii) (skip : nat) (s : list ascii)
  : list ascii :=
  match s with
  | [] => []
  | c :: s' =>
      match skip with
      | S k => remove_all old k s'
      | O =>
          if bool_decide (take (length old) s = old) then
            remove_all old (length old - 1) s'
          else c :: remove_all old O s'
      end
  end.

(** [s.rstrip(c)]. *)
Fixpoint rstrip (c : ascii) (s : list ascii) : list ascii :=
  match s with
  | [] => []
  | x :: s' =>
      match rstrip c s' with
      | [] => if Ascii.eqb x c then [] else [x]
      | r => x :: r
      end
  end.

Definition date_formats : list string :=
  ["%Y-%m-%dT%H:%M:%S"; "%Y-%m-%dT%H:%M:%S.%f";
   "%Y-%m-%dT%H:%M:%SZ"; "%Y-%m-%dT%H:%M:%S.%fZ";
   "%Y-%m-%d"; "%d/%m/%Y"; "%m/%d/%Y"].

(** [parse_date] (line 193). *)
Definition parse_date (date_value : json) : option datetime :=
  match date_value with
  | JStr s =>
      let cleaned :=
        rstrip "Z" (remove_all (list_ascii_of_string "+00:00") O
                      (list_ascii_of_string s)) in
      first_some
        (fun fmt => strptime cleaned (rstrip "Z" (list_ascii_of_string fmt)))
        date_formats
  | _ => None
  end.

(** The formatting side of the round trip of the specification
    ([parseDate(format(d)) == d]), which the source does not contain: the
    text of [dt] in format [fmt] as [strftime] is documented to print it,
    every field zero-padded to its width (four digits for [%Y], six for
    [%f], two for the others). *)
Definition digit_char (k : Z) : ascii := ascii_of_nat (Z.to_nat (48 + k)).

Fixpoint digits (w : nat) (n : Z) : list ascii :=
  match w with
  | O => []
  | S w' => digits w' (n / 10) ++ [digit_char (n mod 10)]
  end.

Definition format_directive (d : ascii) (dt : datetime) : list ascii :=
  if Ascii.eqb d "Y" then digits 4 (year dt)
  else if Ascii.eqb d "m" then digits 2 (month dt)
  else if Ascii.eqb d "d" then digits 2 (day dt)
  else if Ascii.eqb d "H" then digits 2 (hour dt)
  else if Ascii.eqb d "M" then digits 2 (minute dt)
  else if Ascii.eqb d "S" then digits 2 (second dt)
  else if Ascii.eqb d "f" then digits 6 (microsecond dt)
  else ["%"%char; d].

Fixpoint format_chars (fmt : list ascii) (dt : datetime) : list ascii :=
  match fmt with
  | [] => []
  | c :: rest =>
      if Ascii.eqb c "%" then
        match rest with
        | [] => [c]
        | d :: rest' => format_directive d dt ++ format_chars rest' dt
        end
      else c :: format_chars rest dt
  end.

Definition spec_format (fmt : string) (dt : datetime) : string :=
  string_of_list_ascii (format_chars (list_ascii_of_string fmt) dt).

(** The fields a format does not print are zero in a value that the
    format can represent. *)
Definition has_directive (fmt : string) (d : ascii) : bool :=
  bool_decide (d ∈ list_ascii_of_string fmt).

Definition representable (fmt : string) (dt : datetime) : bool :=
  (has_directive fmt "H" || (hour dt =? 0))
  && (has_directive fmt "M" || (minute dt =? 0))
  && (has_directive fmt "S" || (second dt =? 0))
  && (has_directive fmt "f" || (microsecond dt =? 0)).

(* ===================================================================== *)
(** * Configuration                                                      *)
(* ===================================================================== *)

Definition KICKPLATE_STAGES : list string :=
  ["Kickplate - New"; "Kickplate - Processing"; "Kickplate - Job Complete";
   "Kickplate - To Collect"].
Definition KICKPLATE_STAGE_PREFIX : string := "Kickplate - ".
Definition DUE_SOON_DAYS : Z := 7.
Definition API_MAX_RETRIES : Z := 3.
(** [1.0], that is 2^52 * 2^-52. *)
Definition API_RETRY_DELAY : spec_float :=
  S754_finite false 4503599627370496 (-52).

Definition SALES_ORDER_FIELDS : list string :=
  ["Id"; "Reference"; "ProjectName"; "Company"; "FirstName";
   "CreatedDate"; "EstimatedDeliveryDate"; "Stage"; "IsVoid"; "LineItems"].

Definition EXCLUDED_STAGES : list string :=
  ["Fully Dispatched"; "Dispatched"; "Cancelled"; "Declined";
   "To Call"; "Awaiting PO"; "Awaiting Payment";
   "Release To Pick"; "Partially Picked"; "Fully Picked";
   "Fully Picked - Hold"; "On Hold"; "Ready to Invoice";
   "Release To Pick - WMS"; "Ready To Pack - WMS"].

(** [sep.join(l)] *)
Fixpoint join (sep : string) (l : list string) : string :=
  match l with
  | [] => ""
  | [x] => x
  | x :: l' => x +:+ sep +:+ join sep l'
  end.

(** [range(n)] *)
Definition range (n : Z) : list Z := map Z.of_nat (seq 0 (Z.to_nat n)).

(* ===================================================================== *)
(** * The network and the clock                                          *)
(* ===================================================================== *)

Inductive request : Type :=
| Get (path : string) (params : gmap string json)
| Put (path : string) (payload : json).

(** What [resp.json()] does with the body of a response. *)
Inductive body : Type :=
| Json (v : json)
| NotJson (msg : string).

(** The outcome of one [requests.get] or [requests.put]: a response, or
    an exception of [requests.exceptions] with its text [str(e)], sorted
    by the first [except] clause of [cin7_get] that it matches. *)
Inductive http_event : Type :=
| Response (status_code : Z) (text : string) (content : body)
| Timeout (msg : string)
| ConnectionError (msg : string)
| RequestException (msg : string).

(** The remote system: what the n-th request of a run (counted from 0)
    is answered with. *)
Definition server : Type := nat -> request -> http_event.

(** The observable effects of a run so far, oldest first: the requests
    put on the wire and the arguments of [time.sleep]. *)
Record world : Type := mk_world {
  sent : list request;
  slept : list spec_float
}.

Definition world0 : world := mk_world [] [].

Definition send (srv : server) (rq : request) (w : world)
  : http_event * world :=
  (srv (length (sent w)) rq, mk_world (sent w ++ [rq]) (slept w)).

Definition sleep (secs : spec_float) (w : world) : world :=
  mk_world (sent w) (slept w ++ [secs]).

(** [f * z] for a [float] and a small [int]. *)
Definition fmul_int (f : spec_float) (z : Z) : spec_float :=
  fmul f (binary_normalize prec emax z 0 false).

(** [s[:n]] *)
Definition str_take (n : nat) (s : string) : string :=
  string_of_list_ascii (take n (list_ascii_of_string s)).

Definition http_error (status_code : Z) (text : string) : string :=
  "HTTP " +:+ pretty status_code +:+ ": " +:+ str_take 300 text.

(** The sleep that ends a failed attempt that is not the last one
    (lines 135-137 and 185-187). *)
Definition backoff (attempt : Z) (w : world) : world :=
  if attempt <? API_MAX_RETRIES - 1
  then sleep (fmul_int API_RETRY_DELAY (attempt + 1)) w
  else w.

(** The sleep of a rate-limited attempt (lines 125 and 179). *)
Definition rate_limit_delay (attempt : Z) : spec_float :=
  fmul_int (fmul_int API_RETRY_DELAY (attempt + 1)) 2.

Section Fetcher.

Variable srv : server.

(** The loop of [cin7_get] (line 114) over the attempts still to make.
    The result is what the function returns: the decoded body, [None]
    ([JNull]) after the last attempt.  A body that does not decode makes
    [resp.json()] raise the [JSONDecodeError] of [requests], which is a
    [RequestException] and is handled as one.  The log line of line 139
    is not modelled. *)
Fixpoint cin7_get_loop (path : string) (params : gmap string json)
    (attempts : list Z) (last_error : option string) (w : world)
  : json * world :=
  match attempts with
  | [] => (JNull, w)
  | attempt :: more =>
      let '(ev, w1) := send srv (Get path params) w in
      match ev with
      | Response status_code text content =>
          if status_code =? 200 then
            match content with
            | Json v => (v, w1)
            | NotJson msg =>
                cin7_get_loop path params more (Some msg) (backoff attempt w1)
            end
          else if status_code =? 429 then
            cin7_get_loop path params more last_error
              (sleep (rate_limit_delay attempt) w1)
          else
            cin7_get_loop path params more
              (Some (http_error status_code text)) (backoff attempt w1)
      | Timeout _ =>
          cin7_get_loop path params more (Some "Request timed out")
            (backoff attempt w1)
      | ConnectionError _ =>
          cin7_get_loop path params more (Some "Connection error")
            (backoff attempt w1)
      | RequestException msg =>
          cin7_get_loop path params more (Some msg) (backoff attempt w1)
      end
  end.

Definition cin7_get (path : string) (params : gmap string json) (w : world)
  : json * world :=
  cin7_get_loop path params (range API_MAX_RETRIES) None w.

(** The dictionary [cin7_put] returns: [{"success": True}] or
    [{"success": False, "error": last_error}]. *)
Inductive put_result : Type :=
| PutSuccess
| PutFailure (error : option string).

(** [as_str v]: [v] when it is a [str], as [str.join] requires. *)
Definition as_str (v : json) : result string :=
  match v with
  | JStr s => Ok s
  | _ => Raise TypeError
  end.

(** ["; ".join(errors)] for a truthy [errors]: the elements of a list,
    the characters of a string, the keys of a dictionary (here in the
    order of the finite map, not of insertion); a number is not
    iterable. *)
Definition join_errors (errors : json) : result string :=
  match errors with
  | JList l => strs ← mapM as_str l; Ok (join "; " strs)
  | JStr s =>
      Ok (join "; " (map (fun c => String c EmptyString)
                         (list_ascii_of_string s)))
  | JDict m => Ok (join "; " (map fst (map_to_list m)))
  | _ => Raise TypeError
  end.

(** Lines 166-176: the inspection of the body of a 2xx answer.  A body
    that does not decode raises [ValueError], which the [try] swallows;
    nothing else is caught there, and [requests.exceptions] has no class
    that the other exceptions belong to. *)
Definition put_verdict (content : body) : result put_result :=
  match content with
  | NotJson _ => Ok PutSuccess
  | Json (JList (item :: _)) =>
      match item with
      | JDict d =>
          match dict_get d "success" with
          | JBool false =>
              let errors := default (JList []) (d !! "errors") in
              if truthy errors then
                last_error ← join_errors errors;
                Ok (PutFailure (Some last_error))
              else Ok (PutFailure (Some "Cin7 reported failure"))
          | _ => Ok PutSuccess
          end
      | _ => Raise AttributeError
      end
  | Json _ => Ok PutSuccess
  end.

Definition put_success_code (status_code : Z) : bool :=
  (status_code =? 200) || (status_code =? 201) || (status_code =? 204).

(** The loop of [cin7_put] (line 154). *)
Fixpoint cin7_put_loop (path : string) (payload : json)
    (attempts : list Z) (last_error : option string) (w : world)
  : result put_result * world :=
  match attempts with
  | [] => (Ok (PutFailure last_error), w)
  | attempt :: more =>
      let '(ev, w1) := send srv (Put path payload) w in
      match ev with
      | Response status_code text content =>
          if put_success_code status_code then (put_verdict content, w1)
          else if status_code =? 429 then
            cin7_put_loop path payload more last_error
              (sleep (rate_limit_delay attempt) w1)
          else
            cin7_put_loop path payload more
              (Some (http_error status_code text)) (backoff attempt w1)
      | Timeout msg | ConnectionError msg | RequestException msg =>
          cin7_put_loop path payload more (Some msg) (backoff attempt w1)
      end
  end.

(** [cin7_put] (line 143): a [dict] is wrapped in a one-element list. *)
Definition put_payload (data : json) : json :=
  match data with
  | JDict _ => JList [data]
  | _ => data
  end.

Definition cin7_put (path : string) (data : json) (w : world)
  : result put_result * world :=
  cin7_put_loop path (put_payload data) (range API_MAX_RETRIES) None w.

(** [update_order_stage] (line 323), for the stage name that the board
    sends as a text; the two log lines are not modelled. *)
Definition update_order_stage (order_id : Z) (new_stage : string) (w : world)
  : result put_result * world :=
  if bool_decide (new_stage ∈ KICKPLATE_STAGES) then
    cin7_put "/SalesOrders"
      (JDict (<["id" := JInt order_id]> (<["stage" := JStr new_stage]> ∅))) w
  else (Ok (PutFailure (Some ("Invalid stage: " +:+ new_stage))), w).

End Fetcher.

(* ===================================================================== *)
(** * Pagination, normalisation and classification                       *)
(* ===================================================================== *)

(** The normalised order that [fetch_kickplate_orders] appends (line
    304).  The display strings ([reference], [projectName], [firstName],
    the two formatted dates and [cin7Url]) are computed from the same
    lookups by functions that do not raise, and are left out. *)
Record processed : Type := mk_processed {
  id : json;
  stage : string;
  qtyTotal : Z;
  isOverdue : bool;
  isDueSoon : bool;
  isOnTrack : bool;
  daysOverdue : Z
}.

(** A Python number: the accumulator [qty_total] starts as the [int] 0
    and becomes a [float] with the first addition. *)
Inductive number : Type :=
| NInt (z : Z)
| NFloat (f : spec_float).

(** [int(n)] *)
Definition py_int (n : number) : result Z :=
  match n with
  | NInt z => Ok z
  | NFloat f => int_of_float f
  end.

(** [n + f] for a [float] [f]. *)
Definition add_float (n : number) (f : spec_float) : result number :=
  match n with
  | NInt z => g ← float_of_int z; Ok (NFloat (fadd g f))
  | NFloat g => Ok (NFloat (fadd g f))
  end.

(** Lines 284-298: the status flags and [days_overdue]. *)
Definition classify (today : date) (etd : option datetime)
  : bool * bool * bool * Z :=
  match etd with
  | Some dt =>
      let days_until := days_between (date_of dt) today in
      if days_until <? 0 then (true, false, false, Z.abs days_until)
      else if days_until <=? DUE_SOON_DAYS then (false, true, false, 0)
      else (false, false, true, 0)
  | None => (false, false, false, 0)
  end.

(** Line 277: the first truthy value under the four spellings, else 0. *)
Definition line_qty (item : gmap string json) : json :=
  py_or (py_or (py_or (py_or (dict_get item "Qty") (dict_get item "qty"))
                      (dict_get item "UomQtyOrdered"))
               (dict_get item "uomQtyOrdered"))
        (JInt 0).

(** The parameters of the request for one page (lines 221-228). *)
Definition page_params (page : Z) : gmap string json :=
  let fields := join "," SALES_ORDER_FIELDS in
  let where_ :=
    join " AND " (map (fun s => "Stage<>'" +:+ s +:+ "'") EXCLUDED_STAGES) in
  let params :=
    <["fields" := JStr fields]>
      (<["order" := JStr "EstimatedDeliveryDate ASC, CreatedDate ASC"]>
         (<["page" := JInt page]> (<["rows" := JInt 250]> ∅))) in
  if truthy (JStr where_) then <["where" := JStr where_]> params else params.

(** Lines 234-241: the records of a response; [None] is the [break] of
    line 241, taken by a response that is neither a list nor a
    dictionary. *)
Definition orders_of_response (response : json) : option (list json) :=
  match response with
  | JList l => Some l
  | JDict d =>
      let orders :=
        match d !! "data" with
        | Some v => v
        | None => default (JList []) (d !! "Data")
        end in
      match orders with
      | JList l => Some l
      | _ => Some (if truthy (dict_get d "Id") then [response] else [])
      end
  | _ => None
  end.

Section Engine.

(** [float(s)] for a [str] is Python's own parser of decimal text; the
    model takes it as given ([None] is its [ValueError]). *)
Variable float_of_str : string -> option spec_float.
Variable srv : server.

(** [float(v)] *)
Definition py_float (v : json) : result spec_float :=
  match v with
  | JNull => Raise TypeError
  | JBool b => float_of_int (if b then 1 else 0)
  | JInt z => float_of_int z
  | JFloat f => Ok f
  | JStr s =>
      match float_of_str s with
      | Some f => Ok f
      | None => Raise ValueError
      end
  | JList _ | JDict _ => Raise TypeError
  end.

(** Lines 276-281: the loop over the line items; [TypeError] and
    [ValueError] are swallowed, anything else leaves the loop. *)
Fixpoint sum_line_items (items : list json) (qty_total : number)
  : result number :=
  match items with
  | [] => Ok qty_total
  | item :: rest =>
      match item with
      | JDict d =>
          match f ← py_float (line_qty d); add_float qty_total f with
          | Ok total => sum_line_items rest total
          | Raise TypeError | Raise ValueError =>
              sum_line_items rest qty_total
          | Raise e => Raise e
          end
      | _ => Raise AttributeError
      end
  end.

(** The body of the loop of line 256 for one raw record: [None] when the
    record is skipped by one of the two [continue]. *)
Definition process_order (today : date) (order : json)
  : result (option processed) :=
  is_void ← py_get order "IsVoid";
  is_void' ← (if truthy is_void then Ok is_void else py_get order "isVoid");
  if truthy is_void' then Ok None
  else
    match order with
    | JDict o =>
        stage_v ← gf o "Stage";
        match py_or stage_v (JStr "") with
        | JStr stage =>
            if negb (String.prefix KICKPLATE_STAGE_PREFIX stage) then Ok None
            else
              etd_v ← gf o "EstimatedDeliveryDate";
              let etd := parse_date etd_v in
              created_v ← gf o "CreatedDate";
              let created := parse_date created_v in
              items_v ← gf o "LineItems";
              let line_items :=
                match py_or items_v (JList []) with
                | JList l => l
                | _ => []
                end in
              qty_total ← sum_line_items line_items (NInt 0);
              let '(is_overdue, is_due_soon, is_on_track, days_overdue) :=
                classify today etd in
              order_id ← gf o "Id";
              qty ← py_int qty_total;
              Ok (Some (mk_processed order_id stage qty is_overdue
                          is_due_soon is_on_track days_overdue))
        | _ => Raise AttributeError
        end
    | _ => Raise AttributeError
    end.

(** The loop of line 220.  [fuel] bounds the number of iterations; the
    call of [fetch_all] gives it the 100 that the guard allows. *)
Fixpoint fetch_pages (fuel : nat) (page : Z) (all_orders : list json)
    (w : world) : list json * world :=
  match fuel with
  | O => (all_orders, w)
  | S fuel' =>
      if page <=? 100 then
        let '(response, w1) := cin7_get srv "/SalesOrders" (page_params page) w in
        match response with
        | JNull => (all_orders, w1)
        | _ =>
            match orders_of_response response with
            | None => (all_orders, w1)
            | Some [] => (all_orders, w1)
            | Some orders =>
                if (Z.of_nat (length orders) <? 250)
                then (all_orders ++ orders, w1)
                else fetch_pages fuel' (page + 1) (all_orders ++ orders) w1
            end
        end
      else (all_orders, w)
  end.

Definition fetch_all (w : world) : list json * world :=
  fetch_pages 100 1 [] w.

(** The loop of line 256. *)
Fixpoint process_all (today : date) (all_orders : list json)
    (acc : list processed) : result (list processed) :=
  match all_orders with
  | [] => Ok acc
  | order :: rest =>
      p ← process_order today order;
      match p with
      | Some o => process_all today rest (acc ++ [o])
      | None => process_all today rest acc
      end
  end.

(** [fetch_kickplate_orders] (line 211); [today] is the current date in
    the display time zone. *)
Definition fetch_kickplate_orders (today : date) (w : world)
  : result (list processed) * world :=
  let '(all_orders, w1) := fetch_all w in
  (process_all today all_orders [], w1).

(** The answer of [api_jobs] (line 350) without its timestamp: the
    grouped orders and the count, or the 500 of the [except] clause. *)
Inductive jobs_response : Type :=
| Jobs (jobs : gmap string (list processed)) (totalCount : Z)
| ServerError (e : exn).

Definition empty_groups : gmap string (list processed) :=
  list_to_map (map (fun s => (s, [])) KICKPLATE_STAGES).

(** Lines 355-358. *)
Definition group_orders (orders : list processed)
  : gmap string (list processed) :=
  fold_left
    (fun grouped order =>
       match grouped !! stage order with
       | Some l => <[stage order := l ++ [order]]> grouped
       | None => grouped
       end)
    orders empty_groups.

Definition api_jobs (today : date) (w : world) : jobs_response * world :=
  let '(r, w1) := fetch_kickplate_orders today w in
  match r with
  | Ok orders => (Jobs (group_orders orders) (Z.of_nat (length orders)), w1)
  | Raise e => (ServerError e, w1)
  end.

End Engine.

(* ===================================================================== *)
(** * Notions used by the statements                                     *)
(* ===================================================================== *)

(** [name[0].lower() + name[1:]] *)
Definition lcfirst (name : string) : string :=
  match name with
  | EmptyString => EmptyString
  | String c rest => String (ascii_lower c) rest
  end.

(** What [gf] returns for a non-empty name. *)
Definition field (o : gmap string json) (name : string) : json :=
  py_or (dict_get o name) (dict_get o (lcfirst name)).

(** The test of line 258 on a record. *)
Definition is_void (order : json) : bool :=
  match order with
  | JDict o => truthy (py_or (dict_get o "IsVoid") (dict_get o "isVoid"))
  | _ => false
  end.

(** The list that the loop of line 276 runs over. *)
Definition line_items (o : gmap string json) : list json :=
  match py_or (field o "LineItems") (JList []) with
  | JList l => l
  | _ => []
  end.

(** The status of an order among the four of the specification. *)
Definition no_date (etd : option datetime) : bool :=
  match etd with
  | Some _ => false
  | None => true
  end.

Definition flags (p : processed) : bool * bool * bool * Z :=
  (isOverdue p, isDueSoon p, isOnTrack p, daysOverdue p).

(** The records that a response adds to [all_orders]: none for a failed
    fetch ([None]) and for a response that is neither a list nor a
    dictionary. *)
Definition records (response : json) : list json :=
  default [] (orders_of_response response).

(** [n] consecutive page numbers from [page]. *)
Fixpoint pages_from (page : Z) (n : nat) : list Z :=
  match n with
  | O => []
  | S n' => page :: pages_from (page + 1) n'
  end.

(** The calls [cin7_get("/SalesOrders", ...)] for the given pages, one
    after the other: the responses and the world they leave. *)
Fixpoint get_pages (srv : server) (pages : list Z) (w : world)
  : list json * world :=
  match pages with
  | [] => ([], w)
  | page :: more =>
      let '(r, w1) := cin7_get srv "/SalesOrders" (page_params page) w in
      let '(rs, w2) := get_pages srv more w1 in
      (r :: rs, w2)
  end.

(** The page number of a request. *)
Definition page_of (rq : request) : json :=
  match rq with
  | Get _ params => dict_get params "page"
  | Put _ _ => JNull
  end.

(** The normalised order of a raw record, when it has one. *)
Definition normalised (float_of_str : string -> option spec_float)
    (today : date) (raw : json) : option processed :=
  match process_order float_of_str today raw with
  | Ok (Some p) => Some p
  | _ => None
  end.

(** The number of orders on the board: the sum of the sizes of the lists
    of the four stages. *)
Definition grouped_total (jobs : gmap string (list processed)) : nat :=
  sum_list (map (fun st => length (default [] (jobs !! st))) KICKPLATE_STAGES).

(** The quantity of a line item in the words of the specification, with
    "present" read as "truthy": the first truthy value under the four
    spellings, in their order, and 0 when there is none. *)
Definition QTY_KEYS : list string :=
  ["Qty"; "qty"; "UomQtyOrdered"; "uomQtyOrdered"].

Definition first_truthy (d : gmap string json) (keys : list string) : json :=
  default (JInt 0)
    (head (List.filter truthy (map (dict_get d) keys))).

(** What a line item adds to the total: its quantity as a [float], and
    nothing when the quantity cannot be coerced. *)
Definition contribution (float_of_str : string -> option spec_float)
    (item : json) : option spec_float :=
  match item with
  | JDict d =>
      match py_float float_of_str (first_truthy d QTY_KEYS) with
      | Ok f => Some f
      | Raise _ => None
      end
  | _ => None
  end.

(** The sum of the quantities, added in order from [0.0]. *)
Definition float_sum (quantities : list spec_float) : spec_float :=
  fold_left fadd quantities (S754_zero false).

(** The exact value of a finite [float], as a fraction with a positive
    denominator. *)
Definition float_value (f : spec_float) : option (Z * Z) :=
  match f with
  | S754_zero _ => Some (0, 1)
  | S754_finite s m e =>
      Some (cond_Zopp s (Z.pos m) * 2 ^ Z.max e 0, 2 ^ Z.max (- e) 0)
  | _ => None
  end.

(** Zero, a positive number or plus infinity. *)
Definition float_nonneg (f : spec_float) : bool :=
  match f with
  | S754_zero _ => true
  | S754_finite s _ _ => negb s
  | S754_infinity s => negb s
  | S754_nan => false
  end.

(** The accumulator [qty_total] as a [float]. *)
Definition as_float (n : number) : spec_float :=
  match n with
  | NInt z => binary_normalize prec emax z 0 false
  | NFloat f => f
  end.

(** Two checks on the alternatives of a two-digit group at the text
    [c1 c2 ...]: [ate2] says that an alternative matches exactly these two
    characters, [greedy2] that the first alternative to match at all takes
    both of them. *)
Definition ate2 (c1 c2 : ascii) (a : list cclass) : bool :=
  match a with
  | [k1; k2] => cclass_match k1 c1 && cclass_match k2 c2
  | _ => false
  end.

Definition short_alt (a : list cclass) : bool :=
  match a with
  | [_] | [_; _] => true
  | _ => false
  end.

Fixpoint greedy2 (c1 c2 : ascii) (alts : list (list cclass)) : bool :=
  match alts with
  | [] => false
  | a :: alts' =>
      match a with
      | [k1] => if cclass_match k1 c1 then false else greedy2 c1 c2 alts'
      | [k1; k2] =>
          if cclass_match k1 c1 && cclass_match k2 c2 then true
          else greedy2 c1 c2 alts'
      | _ => false
      end
  end.

(** The two digits of [v], as [digits 2 v] prints them. *)
Definition tens (v : Z) : ascii := digit_char (v / 10 mod 10).
Definition units (v : Z) : ascii := digit_char (v mod 10).

(** The formats of [date_formats] by name, and the date with day and
    month exchanged. *)
Definition FMT_SECONDS : string := "%Y-%m-%dT%H:%M:%S".
Definition FMT_FRACTION : string := "%Y-%m-%dT%H:%M:%S.%f".
Definition FMT_SECONDS_Z : string := "%Y-%m-%dT%H:%M:%SZ".
Definition FMT_FRACTION_Z : string := "%Y-%m-%dT%H:%M:%S.%fZ".
Definition FMT_DATE : string := "%Y-%m-%d".
Definition FMT_DAY_FIRST : string := "%d/%m/%Y".
Definition FMT_MONTH_FIRST : string := "%m/%d/%Y".

Definition swap_day_month (dt : datetime) : datetime :=
  mk_datetime (year dt) (day dt) (month dt) (hour dt) (minute dt)
    (second dt) (microsecond dt).

(** The expressions that [compile_format] gives for the formats of
    [date_formats], and the texts that [spec_format] prints, in parts. *)
Definition items_date (items : list item) : list item :=
  Field "Y" re_Y :: Lit "-" :: Field "m" re_m :: Lit "-"
    :: Field "d" re_d :: items.

Definition items_time (items : list item) : list item :=
  Lit "T" :: Field "H" re_H :: Lit ":" :: Field "M" re_M :: Lit ":"
    :: Field "S" re_S :: items.

Definition items_day_first : list item :=
  [Field "d" re_d; Lit "/"; Field "m" re_m; Lit "/"; Field "Y" re_Y].

Definition items_month_first : list item :=
  [Field "m" re_m; Lit "/"; Field "d" re_d; Lit "/"; Field "Y" re_Y].

Definition text_date (dt : datetime) (rest : list ascii) : list ascii :=
  digits 4 (year dt) ++ "-"%char :: digits 2 (month dt) ++ "-"%char
    :: digits 2 (day dt) ++ rest.

Definition text_time (dt : datetime) (rest : list ascii) : list ascii :=
  "T"%char :: digits 2 (hour dt) ++ ":"%char :: digits 2 (minute dt)
    ++ ":"%char :: digits 2 (second dt) ++ rest.

Definition text_fraction (dt : datetime) : list ascii :=
  "."%char :: digits 6 (microsecond dt).

Definition text_slash (dt : datetime) (a b : Z) : list ascii :=
  digits 2 a ++ "/"%char :: digits 2 b ++ "/"%char :: digits 4 (year dt).

(** The groups captured from these texts. *)
Definition caps_date (dt : datetime) (caps : captures) : captures :=
  ("d"%char, digits 2 (day dt)) :: ("m"%char, digits 2 (month dt))
    :: ("Y"%char, digits 4 (year dt)) :: caps.

Definition caps_time (dt : datetime) (caps : captures) : captures :=
  ("S"%char, digits 2 (second dt)) :: ("M"%char, digits 2 (minute dt))
    :: ("H"%char, digits 2 (hour dt)) :: caps.

(* ===================================================================== *)
(** * Sample data                                                        *)
(* ===================================================================== *)

(** A parser of [float(s)] that knows no text: enough for samples whose
    quantities are numbers. *)
Definition no_float_text : string -> option spec_float := fun _ => None.

Definition order_mixed_case : gmap string json :=
  <["Id" := JInt 0]> (<["id" := JInt 7]> ∅).

(** A remote system that gives every request the same answer, and one
    that plays a script and then a default answer. *)
Definition srv_const (ev : http_event) : server := fun _ _ => ev.

Definition srv_script (script : list http_event) (dflt : http_event)
  : server :=
  fun n _ => nth n script dflt.

Definition too_many_requests : http_event :=
  Response 429 "Too Many Requests" (NotJson "").

Definition ok_empty_list : http_event :=
  Response 200 "[]" (Json (JList [])).

(** Three answers 429 and then a 200. *)
Definition srv_three_429 : server :=
  srv_script [too_many_requests; too_many_requests; too_many_requests]
    ok_empty_list.

(** Two answers 429 and then a 200. *)
Definition srv_two_429 : server :=
  srv_script [too_many_requests; too_many_requests] ok_empty_list.

(** A 200 whose body is the JSON text [[5]]. *)
Definition srv_list_of_number : server :=
  srv_const (Response 200 "[5]" (Json (JList [JInt 5]))).

(** A remote system that answers a GET by the page it asks for. *)
Definition srv_pages (answer : Z -> http_event) : server :=
  fun _ rq =>
    match page_of rq with
    | JInt page => answer page
    | _ => ConnectionError "no page"
    end.

Definition sample_record : json :=
  JDict (<["Id" := JInt 1]> (<["Stage" := JStr "Kickplate - New"]> ∅)).

(** Page 1 is full and page 2 cannot be fetched. *)
Definition srv_page2_down : server :=
  srv_pages (fun page =>
    if page =? 1 then Response 200 "" (Json (JList (replicate 250 sample_record)))
    else Response 503 "Service Unavailable" (NotJson "")).

(** Page 1 is full, page 2 has 100 records, and every later page is
    full again. *)
Definition srv_short_page2 : server :=
  srv_pages (fun page =>
    if page =? 2 then Response 200 "" (Json (JList (replicate 100 sample_record)))
    else Response 200 "" (Json (JList (replicate 250 sample_record)))).

(** A board of four raw records: a job in its first stage, a voided
    job, a job in a kickplate stage that is not one of the four, and an
    order outside the kickplate stages. *)
Definition order_new : gmap string json :=
  <["Id" := JInt 5]>
    (<["stage" := JStr "Kickplate - New"]>
       (<["EstimatedDeliveryDate" := JStr "2024-03-05T00:00:00Z"]>
          (<["LineItems" := JList [JDict (<["Qty" := JInt 3]> ∅)]]> ∅))).

Definition raw_new : json := JDict order_new.

Definition raw_void : json :=
  JDict (<["Id" := JInt 6]>
         (<["Stage" := JStr "Kickplate - New"]>
          (<["IsVoid" := JBool true]> ∅))).

Definition raw_archived : json :=
  JDict (<["Id" := JInt 7]> (<["Stage" := JStr "Kickplate - Archived"]> ∅)).

Definition raw_dispatched : json :=
  JDict (<["Id" := JInt 8]> (<["Stage" := JStr "In Production"]> ∅)).

Definition srv_board : server :=
  srv_pages (fun _ =>
    Response 200 ""
      (Json (JList [raw_new; raw_void; raw_archived; raw_dispatched]))).

Definition today_sample : date := mk_date 2024 3 8.

Definition p_new : processed :=
  mk_processed (JInt 5) "Kickplate - New" 3 true false false 3.

Definition p_archived : processed :=
  mk_processed (JInt 7) "Kickplate - Archived" 0 false false false 0.

(** A job with a negative quantity, and one whose line has [Qty] 0 and
    [qty] 5. *)
Definition raw_negative_qty : json :=
  JDict (<["Stage" := JStr "Kickplate - New"]>
         (<["LineItems" := JList [JDict (<["Qty" := JInt (-3)]> ∅)]]> ∅)).

Definition line_qty_zero : gmap string json :=
  <["Qty" := JInt 0]> (<["qty" := JInt 5]> ∅).

Definition raw_qty_zero : json :=
  JDict (<["Stage" := JStr "Kickplate - New"]>
         (<["LineItems" := JList [JDict line_qty_zero]]> ∅)).

Definition date_5_march : datetime := mk_datetime 2024 3 5 0 0 0 0.

Definition date_25_march : datetime := mk_datetime 2024 3 25 0 0 0 0.

(** The status code of an answer. *)
Definition status_of (ev : http_event) : option Z :=
  match ev with
  | Response status_code _ _ => Some status_code
  | _ => None
  end.

(* ===================================================================== *)
(** * Answers, errors and delays of a call                               *)
(* ===================================================================== *)

(** The body that ends [cin7_get] at once: that of a 200 that decodes. *)
Definition json_body (ev : http_event) : option json :=
  match ev with
  | Response status_code _ (Json v) =>
      if status_code =? 200 then Some v else None
  | _ => None
  end.

(** The body that ends [cin7_put] at once: that of a 200, 201 or 204. *)
Definition put_final (ev : http_event) : option body :=
  match ev with
  | Response status_code _ content =>
      if put_success_code status_code then Some content else None
  | _ => None
  end.

(** The text that an answer leaves in [last_error] of [cin7_put]; a 429
    leaves none. *)
Definition put_error (ev : http_event) : option string :=
  match ev with
  | Response status_code text _ =>
      if put_success_code status_code then None
      else if status_code =? 429 then None
      else Some (http_error status_code text)
  | Timeout msg | ConnectionError msg | RequestException msg => Some msg
  end.

(** The last text of a list of optional texts, [start] when there is
    none. *)
Definition last_some (start : option string) (l : list (option string))
  : option string :=
  fold_left (fun acc o => match o with Some m => Some m | None => acc end)
            l start.

(** The answers to [k] successive sendings of [rq], the first one being
    request number [n0] of the run. *)
Definition answers (srv : server) (n0 : nat) (rq : request) (k : nat)
  : list http_event :=
  map (fun i => srv (n0 + i)%nat rq) (seq 0 k).

(** [6.0], the longest sleep of the fetcher. *)
Definition SIX_SECONDS : spec_float := S754_finite false 6755399441055744 (-50).

(* ===================================================================== *)
(** * The stage endpoint                                                 *)
(* ===================================================================== *)

(** What [api_update_stage] (line 373) hands back: a JSON object with its
    status code, or an exception that leaves the view. *)
Inductive stage_response : Type :=
| StageAnswer (status : Z) (answer : gmap string json)
| StageCrash (e : exn).

(** [needle in s] for two [str]. *)
Definition str_contains (needle s : string) : bool :=
  match String.index 0 needle s with
  | Some _ => true
  | None => false
  end.

(** ['stage' in data] (line 377) for a decoded body: a key of a [dict],
    an element of a [list], a part of a [str]; a number is not
    iterable. *)
Definition stage_in (data : json) : result bool :=
  match data with
  | JDict d => Ok (bool_decide (is_Some (d !! "stage")))
  | JList l =>
      Ok (existsb (fun v => match v with
                            | JStr s => String.eqb s "stage"
                            | _ => false
                            end) l)
  | JStr s => Ok (str_contains "stage" s)
  | _ => Raise TypeError
  end.

Definition MISSING_STAGE : stage_response :=
  StageAnswer 400
    (<["success" := JBool false]>
       (<["error" := JStr "Missing 'stage' in request body"]> ∅)).

(** The stage of a body that asks for a move the server accepts. *)
Definition valid_move (data : json) : option string :=
  match data with
  | JDict d =>
      match d !! "stage" with
      | Some (JStr s) =>
          if bool_decide (s ∈ KICKPLATE_STAGES) then Some s else None
      | _ => None
      end
  | _ => None
  end.

Definition stage_status (r : stage_response) : option Z :=
  match r with
  | StageAnswer status _ => Some status
  | StageCrash _ => None
  end.

Section StageEndpoint.

(** [str(v)] for a value that is not a [str], as the f-string of line
    326 prints it; the model takes it as given. *)
Variable py_str : json -> string.
Variable srv : server.

(** [update_order_stage] (line 323) for any decoded value: one that is
    not a [str] is equal to none of the stage names. *)
Definition update_order_stage_value (order_id : Z) (new_stage : json)
    (w : world) : result put_result * world :=
  match new_stage with
  | JStr s => update_order_stage srv order_id s w
  | v => (Ok (PutFailure (Some ("Invalid stage: " +:+ py_str v))), w)
  end.

(** [api_update_stage] (line 373) on the decoded body of the request.
    [data['stage']] raises [TypeError] on a [list] and on a [str]. *)
Definition api_update_stage (order_id : Z) (data : json) (w : world)
  : stage_response * world :=
  if negb (truthy data) then (MISSING_STAGE, w)
  else
    match stage_in data with
    | Raise e => (StageCrash e, w)
    | Ok false => (MISSING_STAGE, w)
    | Ok true =>
        match data with
        | JDict d =>
            let new_stage := dict_get d "stage" in
            let '(result, w1) := update_order_stage_value order_id new_stage w in
            match result with
            | Ok PutSuccess =>
                (StageAnswer 200
                   (<["success" := JBool true]>
                      (<["orderId" := JInt order_id]>
                         (<["newStage" := new_stage]> ∅))), w1)
            | Ok (PutFailure error) =>
                (StageAnswer 500
                   (<["success" := JBool false]>
                      (<["error" := match error with
                                    | Some msg => JStr msg
                                    | None => JNull
                                    end]>
                         (<["orderId" := JInt order_id]> ∅))), w1)
            | Raise e => (StageCrash e, w1)
            end
        | _ => (StageCrash TypeError, w)
        end
    end.

End StageEndpoint.

(** The request that a move of order [order_id] to [new_stage] puts on
    the wire. *)
Definition stage_request (order_id : Z) (new_stage : string) : request :=
  Put "/SalesOrders"
    (JList [JDict (<["id" := JInt order_id]>
                     (<["stage" := JStr new_stage]> ∅))]).

(** Sample data for the endpoint and the board: a printer of values
    that prints nothing, enough for samples whose stage is a text, and
    two bodies of a request. *)
Definition no_str : json -> string := fun _ => "".

Definition move_to_processing : json :=
  JDict (<["stage" := JStr "Kickplate - Processing"]> ∅).

Definition move_to_unknown : json :=
  JDict (<["stage" := JStr "Kickplate - Archived"]> ∅).

(** A job whose only line item is a number, and a page that holds it
    after a well-formed job. *)
Definition raw_bad_item : json :=
  JDict (<["Id" := JInt 9]>
         (<["Stage" := JStr "Kickplate - New"]>
          (<["LineItems" := JList [JInt 5]]> ∅))).

Definition srv_bad_item : server :=
  srv_pages (fun _ => Response 200 "" (Json (JList [raw_new; raw_bad_item]))).

Definition service_unavailable : http_event :=
  Response 503 "Service Unavailable" (NotJson "").

(** The formats of [date_formats] without the two that end in [Z]. *)
Definition date_formats_without_Z : list string :=
  [FMT_SECONDS; FMT_FRACTION; FMT_DATE; FMT_DAY_FIRST; FMT_MONTH_FIRST].

(** What [parse_date] does with the text before it tries the formats. *)
Definition cleaned (s : string) : list ascii :=
  rstrip "Z" (remove_all (list_ascii_of_string "+00:00") O
                (list_ascii_of_string s)).

(* ===================================================================== *)
(** * The board in the browser                                           *)
(* ===================================================================== *)

(** The script of the page (lines 807-1050) lets the user drag a card
    from one of the four lists of lines 777-798 to another, asks the
    server for the change and puts the card back when the server does
    not confirm it.  A card element is known by the number of its node;
    its place is the list it is a child of and its index there.  The
    toasts and the class [updating] are not modelled; the counters are
    those that [loadJobs] sets. *)
Inductive card_list : Type :=
| ListNew
| ListProcessing
| ListComplete
| ListCollect.

#[global] Instance card_list_eq_dec : EqDecision card_list.
Proof. solve_decision. Defined.

(** The attribute [data-stage] of a list. *)
Definition list_stage (k : card_list) : string :=
  match k with
  | ListNew => "Kickplate - New"
  | ListProcessing => "Kickplate - Processing"
  | ListComplete => "Kickplate - Job Complete"
  | ListCollect => "Kickplate - To Collect"
  end.

(** The lists in the order of the document. *)
Definition CARD_LISTS : list card_list :=
  [ListNew; ListProcessing; ListComplete; ListCollect].

(** The children of each list, top to bottom. *)
Definition board : Type := card_list -> list nat.

Definition set_children (k : card_list) (l : list nat) (b : board) : board :=
  fun k' => if decide (k' = k) then l else b k'.

(** [el.parentNode], [None] for an element that is in no list. *)
Definition parent_node (b : board) (el : nat) : option card_list :=
  List.find (fun k => bool_decide (el ∈ b k)) CARD_LISTS.

(** [parent.removeChild(el)] on the children of [parent]. *)
Fixpoint remove_child (el : nat) (l : list nat) : list nat :=
  match l with
  | [] => []
  | x :: l' => if decide (x = el) then l' else x :: remove_child el l'
  end.

(** [parent.insertBefore(el, ref)] on the children of [parent], for a
    child [ref]. *)
Fixpoint insert_before (el ref : nat) (l : list nat) : list nat :=
  match l with
  | [] => [el]
  | x :: l' =>
      if decide (x = ref) then el :: l else x :: insert_before el ref l'
  end.

(** [revertCard] (line 933); [fromList.children[oldIndex] || null] is
    [null] past the last child, and [insertBefore(el, null)] appends. *)
Definition revertCard (cardEl : nat) (fromList : card_list) (oldIndex : nat)
    (b : board) : board :=
  let b1 :=
    match parent_node b cardEl with
    | Some parent => set_children parent (remove_child cardEl (b parent)) b
    | None => b
    end in
  let children := b1 fromList in
  set_children fromList
    (match children !! oldIndex with
     | Some refNode => insert_before cardEl refNode children
     | None => children ++ [cardEl]
     end) b1.

(** The page as the script sees it: the lists and the attribute
    [data-stage] of the cards. *)
Record page : Type := mk_page {
  lists : board;
  data_stage : gmap nat string
}.

(** What [resp.json()] gives the handler of line 911: the decoded body,
    or a rejection for a body that is not JSON and for a request that
    got no answer. *)
Inductive reply : Type :=
| Body (data : json)
| NoBody.

(** The truth value of a decoded body in the script; an array and an
    object are true even when empty. *)
Definition js_truthy (v : json) : bool :=
  match v with
  | JNull => false
  | JBool b => b
  | JInt z => negb (z =? 0)
  | JFloat f =>
      match f with
      | S754_zero _ | S754_nan => false
      | _ => true
      end
  | JStr s =>
      match s with
      | EmptyString => false
      | String _ _ => true
      end
  | JList _ | JDict _ => true
  end.

(** [data.success]: the entry of an object, [undefined] (here [JNull],
    as false as it) for a missing entry and for a value that is not an
    object, and a [TypeError] for [null]. *)
Definition js_prop (data : json) (k : string) : result json :=
  match data with
  | JNull => Raise TypeError
  | JDict d => Ok (default JNull (d !! k))
  | _ => Ok JNull
  end.

(** The two handlers of [updateStage] (lines 911-930): what becomes of
    the page once the request is settled.  An exception in the first
    handler is caught by the second. *)
Definition settle (r : reply) (newStage : string) (cardEl : nat)
    (fromList : card_list) (oldIndex : nat) (p : page) : page :=
  let reverted :=
    mk_page (revertCard cardEl fromList oldIndex (lists p)) (data_stage p) in
  match r with
  | NoBody => reverted
  | Body data =>
      match js_prop data "success" with
      | Ok success =>
          if js_truthy success
          then mk_page (lists p) (<[cardEl := newStage]> (data_stage p))
          else reverted
      | Raise _ => reverted
      end
  end.

(** The body of the request of line 908. *)
Definition client_request (newStage : string) : json :=
  JDict (<["stage" := JStr newStage]> ∅).

(** What the browser makes of the answer of the server: [jsonify] sends
    a JSON body with any status, an exception that leaves the view an
    HTML page. *)
Definition reply_of (r : stage_response) : reply :=
  match r with
  | StageAnswer _ answer => Body (JDict answer)
  | StageCrash _ => NoBody
  end.

Section Drag.

Variable py_str : json -> string.
Variable srv : server.

(** [onEnd] (line 1011) with the request answered by [api_update_stage];
    [orderId] is the number that [parseInt] reads off [data-id], one that
    the route of line 373 accepts.  A request that does not reach the
    server is not modelled. *)
Definition onEnd (orderId : Z) (from to : card_list) (item : nat)
    (oldIndex : nat) (p : page) (w : world) : page * world :=
  if decide (from = to) then (p, w)
  else
    let newStage := list_stage to in
    let '(r, w1) :=
      api_update_stage py_str srv orderId (client_request newStage) w in
    (settle (reply_of r) newStage item from oldIndex p, w1).

End Drag.

(** What the Sortable library has done to the lists when it calls
    [onEnd]: the item has left index [oldIndex] of [evt.from] and sits at
    index [newIndex] of [evt.to]. *)
Definition drop_card (item : nat) (from : card_list) (oldIndex : nat)
    (to : card_list) (newIndex : nat) (b : board) : board :=
  set_children to (take newIndex (b to) ++ item :: drop newIndex (b to))
    (set_children from (delete oldIndex (b from)) b).

(** A board with three cards in the first list. *)
Definition board_sample : board :=
  fun k => match k with
           | ListNew => [1; 2; 3]%nat
           | _ => []
           end.

(** The card that [createCardHTML] (line 831) builds for a job: the
    class of its status, its two data attributes and the number of its
    quantity badge, if it has one.  The texts are left out, as they are
    in [processed]. *)
Record card_html : Type := mk_card_html {
  status_class : string;
  card_data_id : json;
  card_data_stage : string;
  kp_badge : option Z
}.

Definition createCardHTML (job : processed) : card_html :=
  let statusClass :=
    if isOverdue job then "overdue"
    else if isDueSoon job then "due-soon"
    else if isOnTrack job then "on-track"
    else "no-date" in
  mk_card_html statusClass (id job) (stage job)
    (if 0 <? qtyTotal job then Some (qtyTotal job) else None).

(** What the user sees of the board: the cards of each list, the
    counter in the head of each column, and the text of the error banner
    when it is shown. *)
Record screen : Type := mk_screen {
  columns : card_list -> list card_html;
  counts : card_list -> Z;
  error_banner : option string
}.

(** [loadJobs] (line 865) on the answer of [api_jobs]: a 500 makes the
    first handler throw, and the second one shows the banner and leaves
    the lists alone.  [STAGE_TO_LIST] sends each stage to the list that
    has it as [data-stage]; the loading overlay and the time stamp are
    not modelled. *)
Definition loadJobs (resp : jobs_response) (s : screen) : screen :=
  match resp with
  | Jobs jobs _ =>
      let shown := fun k => default [] (jobs !! list_stage k) in
      mk_screen (fun k => map createCardHTML (shown k))
                (fun k => Z.of_nat (length (shown k)))
                None
  | ServerError _ =>
      mk_screen (columns s) (counts s)
                (Some "Failed to load jobs. Will retry...")
  end.

(** A screen that shows one card. *)
Definition screen_sample : screen :=
  mk_screen (fun k => match k with
                      | ListNew => [createCardHTML p_new]
                      | _ => []
                      end)
            (fun k => match k with
                      | ListNew => 1
                      | _ => 0
                      end)
            None.

(* ===================================================================== *)
(** * Field resolution                                                   *)
(* ===================================================================== *)

Lemma gf_field (o : gmap string json) (c : ascii) (rest : string) :
  gf o (String c rest) = Ok (field o (String c rest)).
Proof.
  unfold gf, field, py_or, lcfirst.
  destruct (truthy (dict_get o (String c rest))); reflexivity.
Qed.

(** C5 as the specification states it fails: with [Id] present and
    falsy, the value under [id] is returned. *)
Lemma gf_pascal_present_not_returned :
  order_mixed_case !! "Id" = Some (JInt 0)
  /\ gf order_mixed_case "Id" = Ok (JInt 7).
Proof. split; vm_compute; reflexivity. Qed.

(** C5, amended: for every record and every non-empty field name, [gf]
    returns the value under the exact name when that value is truthy, and
    otherwise the value under the name with its first character
    lower-cased ([None] when that key is absent); the two values are never
    merged. *)
Theorem gf_first_truthy (o : gmap string json) (c : ascii) (rest : string) :
  gf o (String c rest) =
  Ok (match o !! String c rest with
      | Some v =>
          if truthy v then v
          else default JNull (o !! String (ascii_lower c) rest)
      | None => default JNull (o !! String (ascii_lower c) rest)
      end).
Proof.
  unfold gf, dict_get.
  destruct (o !! String c rest) as [v|]; simpl; [|reflexivity].
  destruct (truthy v); reflexivity.
Qed.

(* ===================================================================== *)
(** * Normalisation of one record                                        *)
(* ===================================================================== *)

Section Normalisation.

Variable float_of_str : string -> option spec_float.

Lemma process_order_Some (today : date) (order : json) (p : processed) :
  process_order float_of_str today order = Ok (Some p) ->
  exists o,
    order = JDict o
    /\ is_void order = false
    /\ py_or (field o "Stage") (JStr "") = JStr (stage p)
    /\ String.prefix KICKPLATE_STAGE_PREFIX (stage p) = true
    /\ flags p = classify today (parse_date (field o "EstimatedDeliveryDate"))
    /\ id p = field o "Id"
    /\ exists n,
         sum_line_items float_of_str (line_items o) (NInt 0) = Ok n
         /\ py_int n = Ok (qtyTotal p).
Proof.
  intros H. destruct order as [| | | | | |o]; try discriminate H.
  exists o. split; [reflexivity|].
  unfold process_order in H. simpl in H.
  unfold is_void, py_or.
  destruct (truthy (dict_get o "IsVoid")) eqn:Hv1; simpl in H.
  { rewrite Hv1 in H. discriminate H. }
  destruct (truthy (dict_get o "isVoid")) eqn:Hv2; [discriminate H|].
  split; [reflexivity|].
  rewrite !gf_field in H. simpl in H.
  fold (line_items o) in H.
  destruct (py_or (field o "Stage") (JStr "")) as [| | | |st| |] eqn:Hst;
    try discriminate H.
  destruct (String.prefix KICKPLATE_STAGE_PREFIX st) eqn:Hp;
    simpl in H; [|discriminate H].
  destruct (sum_line_items float_of_str (line_items o) (NInt 0)) as [n|e] eqn:Hs;
    simpl in H; [|discriminate H].
  destruct (classify today (parse_date (field o "EstimatedDeliveryDate")))
    as [[[a b] c0] d] eqn:Hc.
  simpl in H.
  destruct (py_int n) as [q|e] eqn:Hq; simpl in H; [|discriminate H].
  injection H as <-. simpl. unfold flags. simpl.
  repeat split; try assumption; try reflexivity.
  exists n. split; [reflexivity | assumption].
Qed.

End Normalisation.

(* ===================================================================== *)
(** * Due-date classification                                            *)
(* ===================================================================== *)

Lemma classify_cases (today : date) (etd : option datetime) :
  match etd with
  | None => classify today etd = (false, false, false, 0)
  | Some dt =>
      let days_until := days_between (date_of dt) today in
      (days_until < 0 ->
       classify today etd = (true, false, false, Z.abs days_until))
      /\ (0 <= days_until <= 7 ->
          classify today etd = (false, true, false, 0))
      /\ (7 < days_until -> classify today etd = (false, false, true, 0))
  end.
Proof.
  destruct etd as [dt|]; [|reflexivity].
  unfold classify, DUE_SOON_DAYS. cbv zeta.
  repeat split; intros H.
  - destruct (Z.ltb_spec (days_between (date_of dt) today) 0); [reflexivity|lia].
  - destruct (Z.ltb_spec (days_between (date_of dt) today) 0); [lia|].
    destruct (Z.leb_spec (days_between (date_of dt) today) 7); [reflexivity|lia].
  - destruct (Z.ltb_spec (days_between (date_of dt) today) 0); [lia|].
    destruct (Z.leb_spec (days_between (date_of dt) today) 7); [lia|reflexivity].
Qed.

(** C2: every normalised order is in exactly one of the four classes
    overdue, due-soon, on-track and no-date.  With
    [days_until = due date - today] in whole days, a negative value gives
    overdue with [daysOverdue = |days_until|], a value from 0 to 7 gives
    due-soon, a larger one on-track; a due date that is absent or does not
    parse gives no-date, with the three flags false. *)
Theorem classification_partition
    (float_of_str : string -> option spec_float) (today : date)
    (o : gmap string json) (p : processed) :
  process_order float_of_str today (JDict o) = Ok (Some p) ->
  let etd := parse_date (field o "EstimatedDeliveryDate") in
  (Nat.b2n (isOverdue p) + Nat.b2n (isDueSoon p) + Nat.b2n (isOnTrack p)
   + Nat.b2n (no_date etd) = 1)%nat
  /\ match etd with
     | None =>
         isOverdue p = false /\ isDueSoon p = false /\ isOnTrack p = false
     | Some dt =>
         let days_until := days_between (date_of dt) today in
         (days_until < 0 ->
          isOverdue p = true /\ daysOverdue p = Z.abs days_until)
         /\ (0 <= days_until <= 7 -> isDueSoon p = true)
         /\ (7 < days_until -> isOnTrack p = true)
     end.
Proof.
  intros H etd.
  apply process_order_Some in H as (o' & Ho & _ & _ & _ & Hf & _).
  injection Ho as <-. fold etd in Hf.
  pose proof (classify_cases today etd) as Hc.
  unfold flags in Hf.
  destruct etd as [dt|].
  - cbv zeta in Hc. destruct Hc as (Hneg & Hsoon & Hlate).
    set (days_until := days_between (date_of dt) today) in *.
    assert (Hcase : days_until < 0 \/ 0 <= days_until <= 7 \/ 7 < days_until)
      by lia.
    split.
    + destruct Hcase as [Hd | [Hd | Hd]];
        [rewrite (Hneg Hd) in Hf | rewrite (Hsoon Hd) in Hf
         | rewrite (Hlate Hd) in Hf];
        injection Hf as -> -> -> _; reflexivity.
    + split; [|split]; intros Hd;
        [rewrite (Hneg Hd) in Hf | rewrite (Hsoon Hd) in Hf
         | rewrite (Hlate Hd) in Hf];
        injection Hf as ? ? ? ?; auto.
  - rewrite Hc in Hf. injection Hf as -> -> -> _.
    split; [reflexivity | repeat split].
Qed.

Lemma classification_partition_witness :
  isOverdue p_new = true /\ daysOverdue p_new = 3.
Proof.
  pose proof (classification_partition no_float_text today_sample order_new
                p_new) as H.
  assert (Hetd : parse_date (field order_new "EstimatedDeliveryDate")
                 = Some (mk_datetime 2024 3 5 0 0 0 0))
    by (vm_compute; reflexivity).
  rewrite Hetd in H. cbv zeta in H.
  destruct H as (_ & Hneg & _); [vm_compute; reflexivity|].
  apply Hneg. vm_compute. reflexivity.
Defined.

(* ===================================================================== *)
(** * The fetcher                                                        *)
(* ===================================================================== *)

Section FetcherFacts.

Variable srv : server.

Lemma sent_backoff (attempt : Z) (w : world) :
  sent (backoff attempt w) = sent w.
Proof. unfold backoff. destruct (attempt <? API_MAX_RETRIES - 1); reflexivity. Qed.

(** Every attempt of [cin7_put] puts the same request on the wire, and
    there is at least one and at most one per attempt. *)
Lemma cin7_put_loop_sent (path : string) (payload : json)
    (attempts : list Z) (last_error : option string) (w : world) :
  exists n : nat,
    (n <= length attempts)%nat
    /\ (attempts <> [] -> (1 <= n)%nat)
    /\ sent (cin7_put_loop srv path payload attempts last_error w).2
       = sent w ++ replicate n (Put path payload).
Proof.
  revert last_error w.
  induction attempts as [|attempt more IH]; intros last_error w.
  - exists 0%nat. simpl. rewrite app_nil_r. repeat split; [lia | congruence].
  - assert (Hstep : forall le w1, sent w1 = sent w ++ [Put path payload] ->
        exists n : nat,
          (n <= length (attempt :: more))%nat
          /\ (attempt :: more <> [] -> (1 <= n)%nat)
          /\ sent (cin7_put_loop srv path payload more le w1).2
             = sent w ++ replicate n (Put path payload)).
    { intros le w1 Hw1. destruct (IH le w1) as (n & Hn & _ & Hs).
      exists (S n). simpl. repeat split; [lia | lia |].
      rewrite Hs, Hw1, <- app_assoc. reflexivity. }
    simpl.
    destruct (srv (length (sent w)) (Put path payload))
      as [status_code text content | msg | msg | msg].
    + destruct (put_success_code status_code).
      * exists 1%nat. simpl. repeat split; lia.
      * destruct (status_code =? 429); apply Hstep;
          [reflexivity | apply sent_backoff].
    + apply Hstep, sent_backoff.
    + apply Hstep, sent_backoff.
    + apply Hstep, sent_backoff.
Qed.

(** C9: a PUT whose body is a single record object goes on the wire as
    the one-element array holding that object, on every attempt; a body
    that is already a sequence goes unwrapped; and the object of a stage
    transition has exactly the keys [id] and [stage]. *)
Theorem put_payload_on_the_wire (path : string) (w : world) :
  (forall d : gmap string json,
      exists n : nat,
        (1 <= n <= 3)%nat
        /\ sent (cin7_put srv path (JDict d) w).2
           = sent w ++ replicate n (Put path (JList [JDict d])))
  /\ (forall l : list json,
        exists n : nat,
          (1 <= n <= 3)%nat
          /\ sent (cin7_put srv path (JList l) w).2
             = sent w ++ replicate n (Put path (JList l)))
  /\ (forall (order_id : Z) (new_stage : string),
        new_stage ∈ KICKPLATE_STAGES ->
        exists (n : nat) (m : gmap string json),
          (1 <= n <= 3)%nat
          /\ sent (update_order_stage srv order_id new_stage w).2
             = sent w ++ replicate n (Put "/SalesOrders" (JList [JDict m]))
          /\ dom m = {["id"; "stage"]}
          /\ m !! "id" = Some (JInt order_id)
          /\ m !! "stage" = Some (JStr new_stage)).
Proof.
  assert (Hput : forall path data, exists n : nat,
             (1 <= n <= 3)%nat
             /\ sent (cin7_put srv path data w).2
                = sent w ++ replicate n (Put path (put_payload data))).
  { intros path' data. unfold cin7_put.
    destruct (cin7_put_loop_sent path' (put_payload data)
                (range API_MAX_RETRIES) None w) as (n & Hn & Hpos & Hs).
    exists n. split; [|exact Hs].
    split; [apply Hpos; discriminate | exact Hn]. }
  split; [|split].
  - intros d. apply (Hput path (JDict d)).
  - intros l. apply (Hput path (JList l)).
  - intros order_id new_stage Hin. unfold update_order_stage.
    rewrite bool_decide_eq_true_2 by exact Hin.
    destruct (Hput "/SalesOrders"
                (JDict (<["id" := JInt order_id]>
                          (<["stage" := JStr new_stage]> ∅))))
      as (n & Hn & Hs).
    exists n, (<["id" := JInt order_id]> (<["stage" := JStr new_stage]> ∅)).
    split; [exact Hn|]. split; [exact Hs|].
    split; [|split].
    + rewrite !dom_insert_L, dom_empty_L. set_solver.
    + apply lookup_insert_eq.
    + rewrite lookup_insert_ne by discriminate. apply lookup_insert_eq.
Qed.

End FetcherFacts.

Lemma put_payload_on_the_wire_witness :
  exists (n : nat) (m : gmap string json),
    (1 <= n <= 3)%nat
    /\ sent (update_order_stage srv_list_of_number 42
               "Kickplate - Processing" world0).2
       = sent world0 ++ replicate n (Put "/SalesOrders" (JList [JDict m]))
    /\ dom m = {["id"; "stage"]}
    /\ m !! "id" = Some (JInt 42)
    /\ m !! "stage" = Some (JStr "Kickplate - Processing").
Proof.
  destruct (put_payload_on_the_wire srv_list_of_number "/SalesOrders" world0)
    as (_ & _ & H).
  apply H. unfold KICKPLATE_STAGES.
  repeat first [apply list_elem_of_here | apply list_elem_of_further].
Defined.

(** C4 fails on the code at a 2xx answer whose body is a list with a
    first element that is not an object: [item.get] raises
    [AttributeError], which neither [except] clause of [cin7_put]
    catches, so the call returns neither success nor failure. *)
Theorem cin7_put_list_of_number_raises :
  (cin7_put srv_list_of_number "/SalesOrders"
     (JDict (<["id" := JInt 42]> (<["stage" := JStr "Kickplate - New"]> ∅)))
     world0).1
  = Raise AttributeError
  /\ (update_order_stage srv_list_of_number 42 "Kickplate - New" world0).1
     = Raise AttributeError.
Proof. split; vm_compute; reflexivity. Qed.

Section PutVerdict.

Variable srv : server.

Lemma join_errors_strings (errs : list string) :
  join_errors (JList (map JStr errs)) = Ok (join "; " errs).
Proof.
  unfold join_errors.
  assert (H : mapM as_str (map JStr errs) = Ok errs).
  { induction errs as [|e errs IH]; [reflexivity|].
    simpl. simpl in IH. rewrite IH. reflexivity. }
  rewrite H. reflexivity.
Qed.

(** The part of C4 that holds: a 2xx answer whose body is a list with a
    first object marked [success: false] ends the call at once, with the
    texts of [errors] joined by ["; "], or with the fixed message when
    [errors] is absent or empty; a body that is not JSON, or that is no
    list, or an empty list, or whose first object has no such mark, is a
    success. *)
Lemma put_verdict_cases :
  (forall (d : gmap string json) (rest : list json) (errs : list string),
      dict_get d "success" = JBool false ->
      d !! "errors" = Some (JList (map JStr errs)) ->
      errs <> [] ->
      put_verdict (Json (JList (JDict d :: rest)))
      = Ok (PutFailure (Some (join "; " errs))))
  /\ (forall (d : gmap string json) (rest : list json),
        dict_get d "success" = JBool false ->
        (d !! "errors" = None \/ d !! "errors" = Some (JList [])) ->
        put_verdict (Json (JList (JDict d :: rest)))
        = Ok (PutFailure (Some "Cin7 reported failure")))
  /\ (forall (d : gmap string json) (rest : list json),
        dict_get d "success" <> JBool false ->
        put_verdict (Json (JList (JDict d :: rest))) = Ok PutSuccess)
  /\ (forall msg, put_verdict (NotJson msg) = Ok PutSuccess)
  /\ put_verdict (Json (JList [])) = Ok PutSuccess
  /\ (forall v, (forall l, v <> JList l) -> put_verdict (Json v) = Ok PutSuccess).
Proof.
  repeat split.
  - intros d rest errs Hs He Hne. unfold put_verdict. rewrite Hs, He.
    cbv [default from_option Datatypes.id]. rewrite join_errors_strings.
    destruct errs as [|e errs]; [congruence | reflexivity].
  - intros d rest Hs [He|He]; simpl; rewrite Hs, He; reflexivity.
  - intros d rest Hs. simpl.
    destruct (dict_get d "success") as [|[|]| | | | |]; try reflexivity.
    congruence.
  - intros v Hv. destruct v; try reflexivity. exfalso. eapply Hv. reflexivity.
Qed.

(** A 2xx answer is final: [cin7_put] sends nothing more after it. *)
Lemma cin7_put_2xx_not_retried (path : string) (data : json) (w : world)
    (status_code : Z) (text : string) (content : body) :
  srv (length (sent w)) (Put path (put_payload data))
  = Response status_code text content ->
  put_success_code status_code = true ->
  cin7_put srv path data w
  = (put_verdict content,
     mk_world (sent w ++ [Put path (put_payload data)]) (slept w)).
Proof.
  intros Hev Hok. unfold cin7_put. simpl. rewrite Hev, Hok. reflexivity.
Qed.

End PutVerdict.

(* ===================================================================== *)
(** * Rate limiting                                                      *)
(* ===================================================================== *)

(** C1 as the specification states it fails: after three answers 429 the
    three attempts are used up; the fourth request is never sent and both
    calls report a failure. *)
Lemma three_429_then_200_fails :
  (cin7_get srv_three_429 "/SalesOrders" ∅ world0).1 = JNull
  /\ length (sent (cin7_get srv_three_429 "/SalesOrders" ∅ world0).2) = 3%nat
  /\ (cin7_put srv_three_429 "/SalesOrders" (JList []) world0).1
     = Ok (PutFailure None)
  /\ length (sent (cin7_put srv_three_429 "/SalesOrders" (JList []) world0).2)
     = 3%nat.
Proof. repeat split; vm_compute; reflexivity. Qed.

Section RateLimit.

Variable srv : server.

Lemma cin7_get_loop_429 (path : string) (params : gmap string json)
    (attempt : Z) (more : list Z) (last_error : option string) (w : world)
    (n : nat) :
  n = length (sent w) ->
  status_of (srv n (Get path params)) = Some 429 ->
  cin7_get_loop srv path params (attempt :: more) last_error w
  = cin7_get_loop srv path params more last_error
      (mk_world (sent w ++ [Get path params])
                (slept w ++ [rate_limit_delay attempt])).
Proof.
  intros -> H. simpl.
  destruct (srv (length (sent w)) (Get path params)); try discriminate H.
  injection H as ->. reflexivity.
Qed.

Lemma cin7_get_loop_200 (path : string) (params : gmap string json)
    (attempt : Z) (more : list Z) (last_error : option string) (w : world)
    (n : nat) (text : string) (v : json) :
  n = length (sent w) ->
  srv n (Get path params) = Response 200 text (Json v) ->
  cin7_get_loop srv path params (attempt :: more) last_error w
  = (v, mk_world (sent w ++ [Get path params]) (slept w)).
Proof. intros -> H. simpl. rewrite H. reflexivity. Qed.

Lemma cin7_put_loop_429 (path : string) (payload : json)
    (attempt : Z) (more : list Z) (last_error : option string) (w : world)
    (n : nat) :
  n = length (sent w) ->
  status_of (srv n (Put path payload)) = Some 429 ->
  cin7_put_loop srv path payload (attempt :: more) last_error w
  = cin7_put_loop srv path payload more last_error
      (mk_world (sent w ++ [Put path payload])
                (slept w ++ [rate_limit_delay attempt])).
Proof.
  intros -> H. simpl.
  destruct (srv (length (sent w)) (Put path payload)); try discriminate H.
  injection H as ->. reflexivity.
Qed.

Lemma cin7_put_loop_200 (path : string) (payload : json)
    (attempt : Z) (more : list Z) (last_error : option string) (w : world)
    (n : nat) (text : string) (content : body) :
  n = length (sent w) ->
  srv n (Put path payload) = Response 200 text content ->
  cin7_put_loop srv path payload (attempt :: more) last_error w
  = (put_verdict content, mk_world (sent w ++ [Put path payload]) (slept w)).
Proof. intros -> H. simpl. rewrite H. reflexivity. Qed.

Ltac index_eq := simpl; rewrite ?length_app; simpl; lia.

Ltac step_429 H i :=
  first
    [ erewrite cin7_get_loop_429; [| | apply (H i); lia]; [|index_eq]
    | erewrite cin7_put_loop_429; [| | apply (H i); lia]; [|index_eq] ].

Ltac step_200 H :=
  first
    [ erewrite cin7_get_loop_200; [| | apply H]; [|index_eq]
    | erewrite cin7_put_loop_200; [| | apply H]; [|index_eq] ].

(** C1, amended: an answer 429 uses up one of the three attempts.  A GET
    or a PUT that meets [k] answers 429 in a row and then a 200 succeeds
    when [k] is at most 2, after exactly [k] delayed retries; with three
    answers 429 it fails after exactly three requests and never sends the
    fourth.  The sleep after the 429 of attempt [a] (counted from 1) is
    [API_RETRY_DELAY * a * 2], so the delays are 2, 4 and 6 seconds,
    strictly increasing. *)
Theorem rate_limit_retries (path : string) (params : gmap string json)
    (data : json) (w : world) (k : nat) :
  (k <= 3)%nat ->
  (forall (text : string) (v : json),
      (forall i : nat, (i < k)%nat ->
         status_of (srv (length (sent w) + i)%nat (Get path params)) = Some 429) ->
      srv (length (sent w) + k)%nat (Get path params)
      = Response 200 text (Json v) ->
      cin7_get srv path params w
      = (if (k <? 3)%nat then v else JNull,
         mk_world (sent w ++ replicate (Nat.min (k + 1) 3) (Get path params))
                  (slept w ++ map rate_limit_delay (range (Z.of_nat k)))))
  /\ (forall (text : string) (content : body),
        (forall i : nat, (i < k)%nat ->
           status_of (srv (length (sent w) + i)%nat (Put path (put_payload data)))
           = Some 429) ->
        srv (length (sent w) + k)%nat (Put path (put_payload data))
        = Response 200 text content ->
        cin7_put srv path data w
        = (if (k <? 3)%nat then put_verdict content else Ok (PutFailure None),
           mk_world (sent w ++ replicate (Nat.min (k + 1) 3)
                                 (Put path (put_payload data)))
                    (slept w ++ map rate_limit_delay (range (Z.of_nat k)))))
  /\ map rate_limit_delay (range 3)
     = [S754_finite false 4503599627370496 (-51);
        S754_finite false 4503599627370496 (-50);
        S754_finite false 6755399441055744 (-50)]
  /\ SFltb (rate_limit_delay 0) (rate_limit_delay 1) = true
  /\ SFltb (rate_limit_delay 1) (rate_limit_delay 2) = true.
Proof.
  intros Hk. unfold cin7_get, cin7_put.
  change (range API_MAX_RETRIES) with [0; 1; 2].
  split; [|split; [|repeat split; vm_compute; reflexivity]].
  - intros text v H429 H200.
    destruct k as [|[|[|[|k]]]]; [| | | |lia].
    + step_200 H200. rewrite app_nil_r. reflexivity.
    + step_429 H429 0%nat. step_200 H200.
      simpl. rewrite <- !app_assoc. reflexivity.
    + step_429 H429 0%nat. step_429 H429 1%nat. step_200 H200.
      simpl. rewrite <- !app_assoc. reflexivity.
    + step_429 H429 0%nat. step_429 H429 1%nat. step_429 H429 2%nat.
      simpl. rewrite <- !app_assoc. reflexivity.
  - intros text content H429 H200.
    destruct k as [|[|[|[|k]]]]; [| | | |lia].
    + step_200 H200. rewrite app_nil_r. reflexivity.
    + step_429 H429 0%nat. step_200 H200.
      simpl. rewrite <- !app_assoc. reflexivity.
    + step_429 H429 0%nat. step_429 H429 1%nat. step_200 H200.
      simpl. rewrite <- !app_assoc. reflexivity.
    + step_429 H429 0%nat. step_429 H429 1%nat. step_429 H429 2%nat.
      simpl. rewrite <- !app_assoc. reflexivity.
Qed.

End RateLimit.

Lemma rate_limit_retries_witness :
  cin7_get srv_two_429 "/SalesOrders" ∅ world0
  = (JList [],
     mk_world (replicate 3 (Get "/SalesOrders" ∅))
              (map rate_limit_delay [0; 1]))
  /\ cin7_get srv_three_429 "/SalesOrders" ∅ world0
     = (JNull,
        mk_world (replicate 3 (Get "/SalesOrders" ∅))
                 (map rate_limit_delay [0; 1; 2])).
Proof.
  split.
  - destruct (rate_limit_retries srv_two_429 "/SalesOrders" ∅ (JList [])
                world0 2) as (Hget & _); [lia|].
    apply (Hget "[]" (JList [])).
    + intros i Hi. destruct i as [|[|i]]; [reflexivity | reflexivity | lia].
    + reflexivity.
  - destruct (rate_limit_retries srv_three_429 "/SalesOrders" ∅ (JList [])
                world0 3) as (Hget & _); [lia|].
    apply (Hget "[]" (JList [])).
    + intros i Hi.
      destruct i as [|[|[|i]]]; [reflexivity | reflexivity | reflexivity | lia].
    + reflexivity.
Defined.

(* ===================================================================== *)
(** * Pagination                                                         *)
(* ===================================================================== *)

Section Pagination.

Variable srv : server.

Lemma fetch_pages_step (fuel : nat) (page : Z) (all_orders : list json)
    (w w1 : world) (r : json) :
  page <= 100 ->
  cin7_get srv "/SalesOrders" (page_params page) w = (r, w1) ->
  fetch_pages srv (S fuel) page all_orders w
  = if Z.of_nat (length (records r)) <? 250
    then (all_orders ++ records r, w1)
    else fetch_pages srv fuel (page + 1) (all_orders ++ records r) w1.
Proof.
  intros Hpage Hget. cbn [fetch_pages].
  rewrite (proj2 (Z.leb_le page 100) Hpage), Hget.
  unfold records.
  destruct r as [| | | | |l|d];
    try (simpl; rewrite app_nil_r; reflexivity).
  - simpl. destruct l as [|x l]; [simpl; rewrite app_nil_r; reflexivity|].
    reflexivity.
  - destruct (orders_of_response (JDict d)) as [[|x l]|] eqn:Ho;
      try (simpl; rewrite app_nil_r; reflexivity).
    reflexivity.
Qed.

Lemma fetch_pages_run (fuel : nat) :
  forall (page : Z) (all_orders : list json) (w : world),
    (0 < fuel)%nat ->
    page + Z.of_nat fuel = 101 ->
    exists (n : nat) (responses : list json),
      (1 <= n <= fuel)%nat
      /\ length responses = n
      /\ get_pages srv (pages_from page n) w
         = (responses, (fetch_pages srv fuel page all_orders w).2)
      /\ (fetch_pages srv fuel page all_orders w).1
         = all_orders ++ concat (map records responses)
      /\ (forall (i : nat) (r : json),
            (i < n - 1)%nat -> responses !! i = Some r ->
            r <> JNull /\ 250 <= Z.of_nat (length (records r)))
      /\ (exists r : json,
            responses !! (n - 1)%nat = Some r
            /\ (r = JNull \/ records r = []
                \/ Z.of_nat (length (records r)) < 250
                \/ page + Z.of_nat n - 1 = 100)).
Proof.
  induction fuel as [|fuel IH]; intros page all_orders w Hfuel Hsum; [lia|].
  destruct (cin7_get srv "/SalesOrders" (page_params page) w) as [r w1] eqn:Hget.
  rewrite (fetch_pages_step fuel page all_orders w w1 r) by (lia || exact Hget).
  destruct (Z.ltb_spec (Z.of_nat (length (records r))) 250) as [Hshort|Hfull].
  - exists 1%nat, [r]. simpl. rewrite Hget, app_nil_r.
    split; [lia|]. do 3 (split; [reflexivity|]). split.
    + intros i r' Hi. lia.
    + exists r. split; [reflexivity|]. right. right. left. exact Hshort.
  - destruct fuel as [|fuel'].
    + exists 1%nat, [r]. simpl. rewrite Hget, app_nil_r.
      split; [lia|]. do 3 (split; [reflexivity|]). split.
      * intros i r' Hi. lia.
      * exists r. split; [reflexivity|]. right. right. right. lia.
    + destruct (IH (page + 1) (all_orders ++ records r) w1)
        as (n & rs & Hn & Hlen & Hrun & Hres & Hcont & r' & Hlast & Hstop);
        [lia | lia |].
      exists (S n), (r :: rs).
      split; [lia|]. split; [simpl; lia|].
      split; [|split; [|split]].
      * cbn [pages_from get_pages]. rewrite Hget, Hrun. reflexivity.
      * rewrite Hres. simpl. rewrite <- app_assoc. reflexivity.
      * intros i r0 Hi Hr0. destruct i as [|i].
        -- injection Hr0 as <-. split; [|exact Hfull].
           intros ->. simpl in Hfull. lia.
        -- apply (Hcont i r0); [lia | exact Hr0].
      * exists r'. split.
        -- replace (S n - 1)%nat with (S (n - 1)) by lia. exact Hlast.
        -- destruct Hstop as [H|[H|[H|H]]]; auto. right. right. right. lia.
Qed.

(** The bound on the iterations is the guard [page <= 100] itself: more
    fuel than the 100 of [fetch_all] changes nothing. *)
Lemma fetch_pages_fuel (fuel extra : nat) :
  forall (page : Z) (all_orders : list json) (w : world),
    page + Z.of_nat fuel = 101 ->
    fetch_pages srv (fuel + extra) page all_orders w
    = fetch_pages srv fuel page all_orders w.
Proof.
  induction fuel as [|fuel IH]; intros page all_orders w Hsum.
  - destruct extra as [|extra]; [reflexivity|].
    cbn [fetch_pages Nat.add].
    destruct (Z.leb_spec page 100); [lia | reflexivity].
  - destruct (cin7_get srv "/SalesOrders" (page_params page) w)
      as [r w1] eqn:Hget.
    change (S fuel + extra)%nat with (S (fuel + extra)).
    rewrite !(fetch_pages_step _ page all_orders w w1 r) by (lia || exact Hget).
    rewrite IH by lia. reflexivity.
Qed.

(** C3: the aggregator asks for the pages 1, 2, ... in order, each with
    250 rows, and goes on exactly as long as a page brings at least 250
    records.  It stops at the first page whose fetch fails, or that has no
    record (a response of no known shape counts as having none), or that
    has fewer than 250, and in any case at page 100; what the pages
    brought until then, the last one included, is returned. *)
Theorem pagination_stops (w : world) :
  exists (n : nat) (responses : list json),
    (1 <= n <= 100)%nat
    /\ length responses = n
    /\ get_pages srv (pages_from 1 n) w = (responses, (fetch_all srv w).2)
    /\ (fetch_all srv w).1 = concat (map records responses)
    /\ (forall page : Z,
          page_params page !! "page" = Some (JInt page)
          /\ page_params page !! "rows" = Some (JInt 250))
    /\ (forall (i : nat) (r : json),
          (i < n - 1)%nat -> responses !! i = Some r ->
          r <> JNull /\ 250 <= Z.of_nat (length (records r)))
    /\ (exists r : json,
          responses !! (n - 1)%nat = Some r
          /\ (r = JNull \/ records r = []
              \/ Z.of_nat (length (records r)) < 250
              \/ n = 100%nat)).
Proof.
  destruct (fetch_pages_run 100 1 [] w)
    as (n & rs & Hn & Hlen & Hrun & Hres & Hcont & r & Hlast & Hstop);
    [lia | lia |].
  exists n, rs. unfold fetch_all.
  split; [lia|]. split; [exact Hlen|]. split; [exact Hrun|].
  split; [exact Hres|]. split; [|split; [exact Hcont|]].
  - intros page. split; reflexivity.
  - exists r. split; [exact Hlast|].
    destruct Hstop as [H|[H|[H|H]]]; auto. right. right. right. lia.
Qed.

End Pagination.

(** A failure on page 2 keeps the 250 records of page 1: page 2 is asked
    for three times and nothing after it. *)
Lemma page2_failure_keeps_page1 :
  (fetch_all srv_page2_down world0).1 = replicate 250 sample_record
  /\ map page_of (sent (fetch_all srv_page2_down world0).2)
     = [JInt 1; JInt 2; JInt 2; JInt 2].
Proof. split; vm_compute; reflexivity. Qed.

(** A page 2 of 100 records ends the run: page 3 is never asked for. *)
Lemma short_page_is_last :
  (fetch_all srv_short_page2 world0).1 = replicate 350 sample_record
  /\ map page_of (sent (fetch_all srv_short_page2 world0).2)
     = [JInt 1; JInt 2].
Proof. split; vm_compute; reflexivity. Qed.

(* ===================================================================== *)
(** * Grouping by stage                                                  *)
(* ===================================================================== *)

Lemma empty_groups_lookup (st : string) :
  empty_groups !! st
  = if decide (st ∈ KICKPLATE_STAGES) then Some [] else None.
Proof.
  unfold empty_groups, KICKPLATE_STAGES. simpl.
  destruct (decide (st ∈ _)) as [Hin|Hnin].
  - repeat (apply elem_of_cons in Hin as [->|Hin]; [reflexivity|]).
    inversion Hin.
  - rewrite !lookup_insert_ne; [apply lookup_empty|..];
      intros <-; apply Hnin; set_solver.
Qed.

Lemma group_fold (orders : list processed) :
  forall (g : gmap string (list processed)) (L : string -> list processed),
    (forall st, g !! st
                = if decide (st ∈ KICKPLATE_STAGES) then Some (L st) else None) ->
    forall st,
      fold_left
        (fun grouped order =>
           match grouped !! stage order with
           | Some l => <[stage order := l ++ [order]]> grouped
           | None => grouped
           end)
        orders g !! st
      = if decide (st ∈ KICKPLATE_STAGES)
        then Some (L st ++ filter (fun p => stage p = st) orders)
        else None.
Proof.
  induction orders as [|p orders IH]; intros g L Hg st.
  - simpl. rewrite Hg. destruct (decide _); [|reflexivity].
    rewrite app_nil_r. reflexivity.
  - simpl fold_left.
    rewrite (IH _ (fun st' => if decide (stage p = st')
                              then L st' ++ [p] else L st')).
    + destruct (decide (st ∈ KICKPLATE_STAGES)); [|reflexivity].
      f_equal. destruct (decide (stage p = st)) as [Heq|Hne].
      * rewrite filter_cons_True by exact Heq.
        rewrite <- app_assoc. reflexivity.
      * rewrite filter_cons_False by exact Hne. reflexivity.
    + intros st'. rewrite (Hg (stage p)).
      destruct (decide (stage p ∈ KICKPLATE_STAGES)) as [Hin|Hnin].
      * destruct (decide (stage p = st')) as [<-|Hne].
        -- rewrite lookup_insert_eq.
           destruct (decide _); [reflexivity | contradiction].
        -- rewrite lookup_insert_ne by exact Hne. apply Hg.
      * rewrite Hg. destruct (decide (st' ∈ KICKPLATE_STAGES)) as [Hin'|];
          [|reflexivity].
        destruct (decide (stage p = st')) as [<-|]; [contradiction|reflexivity].
Qed.

(** The board has the four stages and nothing else; the list of a stage
    holds the orders of that stage, in the order of arrival. *)
Lemma group_orders_lookup (orders : list processed) (st : string) :
  group_orders orders !! st
  = if decide (st ∈ KICKPLATE_STAGES)
    then Some (filter (fun p => stage p = st) orders)
    else None.
Proof.
  unfold group_orders.
  rewrite (group_fold orders empty_groups (fun _ => [])); [reflexivity|].
  apply empty_groups_lookup.
Qed.

Lemma grouped_total_count (orders : list processed) :
  (grouped_total (group_orders orders)
   + length (filter (fun p => stage p ∉ KICKPLATE_STAGES) orders)
   = length orders)%nat.
Proof.
  unfold grouped_total.
  assert (H : forall st, st ∈ KICKPLATE_STAGES ->
             length (default [] (group_orders orders !! st))
             = length (filter (fun p => stage p = st) orders)).
  { intros st Hin. rewrite group_orders_lookup.
    destruct (decide _); [reflexivity | contradiction]. }
  unfold KICKPLATE_STAGES in *. simpl.
  rewrite !H by set_solver. clear H.
  induction orders as [|p orders IH]; [reflexivity|].
  destruct (decide (stage p ∈ ["Kickplate - New"; "Kickplate - Processing";
                               "Kickplate - Job Complete";
                               "Kickplate - To Collect"])) as [Hin|Hnin].
  - rewrite (filter_cons_False (fun p => stage p ∉ _)) by (intros ?; contradiction).
    repeat (apply elem_of_cons in Hin as [Heq|Hin];
            [match type of Heq with
             | _ = ?s =>
                 rewrite (filter_cons_True (fun q => stage q = s)) by exact Heq
             end;
             rewrite !filter_cons_False by (rewrite Heq; discriminate);
             simpl in *; lia|]).
    inversion Hin.
  - rewrite (filter_cons_True (fun p => stage p ∉ _)) by exact Hnin.
    rewrite !(filter_cons_False (fun p0 => stage p0 = _))
      by (intros Heq; apply Hnin; rewrite Heq; set_solver).
    simpl in *. lia.
Qed.

(* ===================================================================== *)
(** * The board                                                          *)
(* ===================================================================== *)

Section Board.

Variable float_of_str : string -> option spec_float.
Variable srv : server.
Variable today : date.

Lemma process_order_void (raw : json) :
  is_void raw = true -> process_order float_of_str today raw = Ok None.
Proof.
  destruct raw as [| | | | | |o]; try discriminate.
  unfold is_void, py_or, process_order. simpl.
  destruct (truthy (dict_get o "IsVoid")) eqn:Hv1; simpl; intros Hv.
  - rewrite Hv1. reflexivity.
  - rewrite Hv. reflexivity.
Qed.

(** A record that is not void and whose stage has the kickplate prefix
    is normalised whenever the loop gets past it. *)
Lemma process_order_kept (o : gmap string json) (s : string)
    (r : option processed) :
  process_order float_of_str today (JDict o) = Ok r ->
  is_void (JDict o) = false ->
  py_or (field o "Stage") (JStr "") = JStr s ->
  String.prefix KICKPLATE_STAGE_PREFIX s = true ->
  exists p, r = Some p /\ stage p = s.
Proof.
  intros H Hvoid Hstage Hprefix.
  unfold process_order in H. simpl in H.
  unfold is_void, py_or in Hvoid.
  destruct (truthy (dict_get o "IsVoid")) eqn:Hv1; simpl in H.
  { congruence. }
  rewrite Hvoid in H.
  rewrite !gf_field in H. simpl in H.
  rewrite Hstage, Hprefix in H. simpl in H.
  fold (line_items o) in H.
  destruct (sum_line_items float_of_str (line_items o) (NInt 0)) as [n|e];
    simpl in H; [|discriminate H].
  destruct (classify today (parse_date (field o "EstimatedDeliveryDate")))
    as [[[a b] c0] d].
  simpl in H.
  destruct (py_int n) as [q|e]; simpl in H; [|discriminate H].
  injection H as <-. eexists. split; reflexivity.
Qed.

Lemma process_all_spec (raws : list json) :
  forall acc res,
    process_all float_of_str today raws acc = Ok res ->
    res = acc ++ omap (normalised float_of_str today) raws
    /\ forall raw, raw ∈ raws ->
         exists r, process_order float_of_str today raw = Ok r.
Proof.
  induction raws as [|raw raws IH]; intros acc res H.
  - injection H as <-. simpl. rewrite app_nil_r.
    split; [reflexivity|]. intros raw Hin. inversion Hin.
  - simpl in H. cbn [omap list_omap]. unfold normalised at 1.
    destruct (process_order float_of_str today raw) as [[p|]|e] eqn:Hp;
      simpl in H; [| |discriminate H].
    + destruct (IH _ _ H) as [-> Hall]. rewrite <- app_assoc.
      split; [reflexivity|].
      intros raw' Hin. apply elem_of_cons in Hin as [->|Hin]; eauto.
    + destruct (IH _ _ H) as [-> Hall].
      split; [reflexivity|].
      intros raw' Hin. apply elem_of_cons in Hin as [->|Hin]; eauto.
Qed.

Lemma api_jobs_Jobs (w w' : world) (jobs : gmap string (list processed))
    (total : Z) :
  api_jobs float_of_str srv today w = (Jobs jobs total, w') ->
  let orders := omap (normalised float_of_str today) (fetch_all srv w).1 in
  jobs = group_orders orders
  /\ total = Z.of_nat (length orders)
  /\ forall raw, raw ∈ (fetch_all srv w).1 ->
       exists r, process_order float_of_str today raw = Ok r.
Proof.
  unfold api_jobs, fetch_kickplate_orders.
  destruct (fetch_all srv w) as [all_orders w1]. simpl.
  destruct (process_all float_of_str today all_orders []) as [orders|e] eqn:Hp;
    intros H; [|discriminate H].
  injection H as <- <- _.
  apply process_all_spec in Hp as [-> Hall].
  simpl. repeat split. exact Hall.
Qed.

Lemma elem_of_normalised (raws : list json) (p : processed) :
  p ∈ omap (normalised float_of_str today) raws ->
  exists raw, raw ∈ raws /\ process_order float_of_str today raw = Ok (Some p).
Proof.
  intros Hin. apply list_elem_of_omap in Hin as (raw & Hraw & Hn).
  exists raw. split; [exact Hraw|].
  unfold normalised in Hn.
  destruct (process_order float_of_str today raw) as [[q|]|e];
    try discriminate Hn.
  injection Hn as ->. reflexivity.
Qed.

(** C8: every order in a list of the board has the stage of that list,
    which is one of the four known stages, and is the normalisation of a
    fetched record that is not void.  A voided record is dropped before
    it is classified, and a normalised order whose stage has the prefix
    but is not one of the four is in no list. *)
Theorem board_orders_known_stage_not_void (w w' : world)
    (jobs : gmap string (list processed)) (total : Z) :
  api_jobs float_of_str srv today w = (Jobs jobs total, w') ->
  (forall (st : string) (l : list processed),
      jobs !! st = Some l ->
      st ∈ KICKPLATE_STAGES
      /\ forall p, p ∈ l ->
           stage p = st
           /\ exists raw,
                raw ∈ (fetch_all srv w).1
                /\ is_void raw = false
                /\ process_order float_of_str today raw = Ok (Some p))
  /\ (forall raw, raw ∈ (fetch_all srv w).1 -> is_void raw = true ->
        process_order float_of_str today raw = Ok None)
  /\ (forall raw p,
        raw ∈ (fetch_all srv w).1 ->
        process_order float_of_str today raw = Ok (Some p) ->
        stage p ∉ KICKPLATE_STAGES ->
        String.prefix KICKPLATE_STAGE_PREFIX (stage p) = true
        /\ forall st l, jobs !! st = Some l -> p ∉ l).
Proof.
  intros H. apply api_jobs_Jobs in H as (Hjobs & _ & _).
  cbv zeta in Hjobs.
  assert (Hgroup : forall st l, jobs !! st = Some l ->
            st ∈ KICKPLATE_STAGES
            /\ l = filter (fun p => stage p = st)
                     (omap (normalised float_of_str today) (fetch_all srv w).1)).
  { intros st l Hl. rewrite Hjobs, group_orders_lookup in Hl.
    destruct (decide (st ∈ KICKPLATE_STAGES)); [|discriminate Hl].
    injection Hl as <-. split; [assumption | reflexivity]. }
  split; [|split].
  - intros st l Hl. destruct (Hgroup st l Hl) as [Hst ->].
    split; [exact Hst|].
    intros p Hp. apply list_elem_of_filter in Hp as [Hstage Hp].
    split; [exact Hstage|].
    apply elem_of_normalised in Hp as (raw & Hraw & Hproc).
    exists raw. split; [exact Hraw|]. split; [|exact Hproc].
    apply process_order_Some in Hproc as (o & -> & Hvoid & _). exact Hvoid.
  - intros raw _ Hvoid. apply process_order_void, Hvoid.
  - intros raw p Hraw Hproc Hstage. split.
    + apply process_order_Some in Hproc as (o & _ & _ & _ & Hprefix & _).
      exact Hprefix.
    + intros st l Hl Hin. destruct (Hgroup st l Hl) as [Hst ->].
      apply list_elem_of_filter in Hin as [Heq _].
      apply Hstage. rewrite Heq. exact Hst.
Qed.

(** C10: [totalCount] is the number of normalised orders, those of a
    kickplate stage outside the four included, so it is at least the
    number of orders on the board, and it is larger as soon as a fetched
    record that is not void has such a stage. *)
Theorem total_count_covers_groups (w w' : world)
    (jobs : gmap string (list processed)) (total : Z) :
  api_jobs float_of_str srv today w = (Jobs jobs total, w') ->
  total
  = Z.of_nat (length (omap (normalised float_of_str today) (fetch_all srv w).1))
  /\ Z.of_nat (grouped_total jobs) <= total
  /\ (forall (o : gmap string json) (s : string),
        JDict o ∈ (fetch_all srv w).1 ->
        is_void (JDict o) = false ->
        py_or (field o "Stage") (JStr "") = JStr s ->
        String.prefix KICKPLATE_STAGE_PREFIX s = true ->
        s ∉ KICKPLATE_STAGES ->
        Z.of_nat (grouped_total jobs) < total).
Proof.
  intros H. apply api_jobs_Jobs in H as (Hjobs & Htotal & Hall).
  cbv zeta in Hjobs, Htotal.
  set (orders := omap (normalised float_of_str today) (fetch_all srv w).1) in *.
  pose proof (grouped_total_count orders) as Hcount.
  rewrite <- Hjobs in Hcount.
  split; [exact Htotal|]. split; [lia|].
  intros o s Hraw Hvoid Hstage Hprefix Hunknown.
  destruct (Hall _ Hraw) as [r Hr].
  destruct (process_order_kept o s r Hr Hvoid Hstage Hprefix) as (p & -> & Hp).
  assert (Hin : p ∈ filter (fun p => stage p ∉ KICKPLATE_STAGES) orders).
  { apply list_elem_of_filter. split; [rewrite Hp; exact Hunknown|].
    unfold orders. apply list_elem_of_omap.
    exists (JDict o). split; [exact Hraw|].
    unfold normalised. rewrite Hr. reflexivity. }
  destruct (filter (fun p => stage p ∉ KICKPLATE_STAGES) orders) as [|x l];
    [inversion Hin|].
  simpl in Hcount. lia.
Qed.

End Board.

Ltac list_mem :=
  repeat first [apply list_elem_of_here | apply list_elem_of_further].

Ltac list_not_mem :=
  let H := fresh in
  intros H;
  repeat (apply elem_of_cons in H as [H|H]; [discriminate H|]);
  inversion H.

Lemma api_jobs_sample :
  api_jobs no_float_text srv_board today_sample world0
  = (Jobs (group_orders [p_new; p_archived]) 2,
     (api_jobs no_float_text srv_board today_sample world0).2).
Proof. vm_compute. reflexivity. Qed.

Lemma fetch_all_sample :
  (fetch_all srv_board world0).1
  = [raw_new; raw_void; raw_archived; raw_dispatched].
Proof. vm_compute. reflexivity. Qed.

Lemma board_orders_known_stage_not_void_witness :
  "Kickplate - New" ∈ KICKPLATE_STAGES
  /\ stage p_new = "Kickplate - New"
  /\ (exists raw,
        raw ∈ (fetch_all srv_board world0).1
        /\ is_void raw = false
        /\ process_order no_float_text today_sample raw = Ok (Some p_new))
  /\ process_order no_float_text today_sample raw_void = Ok None.
Proof.
  destruct (board_orders_known_stage_not_void no_float_text srv_board
              today_sample world0 _ _ _ api_jobs_sample) as (Hin & Hvoid & _).
  destruct (Hin "Kickplate - New" [p_new]) as [Hst Hp];
    [vm_compute; reflexivity|].
  destruct (Hp p_new) as [Hstage Hraw]; [list_mem|].
  split; [exact Hst|]. split; [exact Hstage|]. split; [exact Hraw|].
  apply Hvoid; [|reflexivity].
  rewrite fetch_all_sample. list_mem.
Defined.

Lemma total_count_covers_groups_witness :
  Z.of_nat (grouped_total (group_orders [p_new; p_archived])) < 2.
Proof.
  destruct (total_count_covers_groups no_float_text srv_board
              today_sample world0 _ _ _ api_jobs_sample) as (_ & _ & Hlt).
  apply (Hlt (<["Id" := JInt 7]> (<["Stage" := JStr "Kickplate - Archived"]> ∅))
             "Kickplate - Archived").
  - rewrite fetch_all_sample. unfold raw_archived. list_mem.
  - reflexivity.
  - reflexivity.
  - reflexivity.
  - unfold KICKPLATE_STAGES. list_not_mem.
Defined.

(* ===================================================================== *)
(** * Quantities                                                         *)
(* ===================================================================== *)

(** C7 as the specification states it fails twice: a negative line
    quantity gives a negative total, and a [Qty] that is present but 0
    gives way to [qty]. *)
Lemma qty_total_negative_or_not_first_present :
  (exists p, process_order no_float_text today_sample raw_negative_qty
             = Ok (Some p) /\ qtyTotal p = -3)
  /\ line_qty_zero !! "Qty" = Some (JInt 0)
  /\ (exists p, process_order no_float_text today_sample raw_qty_zero
                = Ok (Some p) /\ qtyTotal p = 5).
Proof.
  split; [|split].
  - eexists. split; vm_compute; reflexivity.
  - reflexivity.
  - eexists. split; vm_compute; reflexivity.
Qed.

Lemma line_qty_first_truthy (d : gmap string json) :
  line_qty d = first_truthy d QTY_KEYS.
Proof.
  unfold line_qty, first_truthy, QTY_KEYS, py_or. cbn [map List.filter].
  destruct (truthy (dict_get d "Qty")) eqn:Ha;
    repeat (rewrite Ha; cbv iota); [reflexivity|].
  destruct (truthy (dict_get d "qty")) eqn:Hb;
    repeat (rewrite Hb; cbv iota); [reflexivity|].
  destruct (truthy (dict_get d "UomQtyOrdered")) eqn:Hc;
    repeat (rewrite Hc; cbv iota); [reflexivity|].
  destruct (truthy (dict_get d "uomQtyOrdered")) eqn:He;
    repeat (rewrite He; cbv iota); reflexivity.
Qed.

(** [int] of a [float] is the quotient of its exact value truncated
    toward zero. *)
Lemma int_of_float_quot (f : spec_float) (z : Z) :
  int_of_float f = Ok z ->
  exists num den,
    float_value f = Some (num, den) /\ 0 < den /\ z = Z.quot num den.
Proof.
  destruct f as [s|s| |s m e]; try discriminate; intros H; injection H as <-.
  - exists 0, 1. repeat split.
  - eexists _, _. split; [reflexivity|].
    destruct (Z.le_gt_cases 0 e) as [He|He].
    + rewrite (Z.max_l e 0), (Z.max_r (- e) 0) by lia.
      split; [reflexivity|]. simpl (2 ^ 0). rewrite Z.quot_1_r.
      rewrite Z.shiftl_mul_pow2 by exact He.
      destruct s; simpl; lia.
    + rewrite (Z.max_r e 0), (Z.max_l (- e) 0) by lia.
      split; [apply Z.pow_pos_nonneg; lia|].
      rewrite Z.mul_1_r.
      rewrite Z.shiftl_div_pow2 by lia.
      assert (Hd : 0 < 2 ^ (- e)) by (apply Z.pow_pos_nonneg; lia).
      destruct s; cbn [cond_Zopp].
      * change (- Z.pos m) with (- (Z.pos m)).
        rewrite Z.quot_opp_l by lia.
        rewrite Z.quot_div_nonneg by lia. reflexivity.
      * rewrite Z.quot_div_nonneg by lia. reflexivity.
Qed.

(** Rounding keeps the sign: the sum of two floats that are not negative
    is not negative. *)
Lemma shr_1_nonneg (mrs : shr_record) :
  0 <= shr_m mrs -> 0 <= shr_m (shr_1 mrs).
Proof.
  destruct mrs as [m r s]. destruct m as [|p|p]; simpl; intros H;
    try lia; destruct p; simpl; lia.
Qed.

Lemma iter_shr_1_nonneg (p : positive) :
  forall mrs, 0 <= shr_m mrs -> 0 <= shr_m (SpecFloat.iter_pos shr_1 p mrs).
Proof.
  induction p as [p IH|p IH|]; intros mrs H; simpl.
  - apply IH, IH, shr_1_nonneg, H.
  - apply IH, IH, H.
  - apply shr_1_nonneg, H.
Qed.

Lemma shr_fexp_nonneg (m e : Z) (l : location) :
  0 <= m -> 0 <= shr_m (shr_fexp prec emax m e l).1.
Proof.
  intros H. unfold shr_fexp, shr.
  assert (H0 : 0 <= shr_m (shr_record_of_loc m l)).
  { destruct l as [|[| |]]; exact H. }
  destruct (fexp prec emax (Zdigits2 m + e) - e) as [|p|p]; simpl;
    try exact H0.
  apply iter_shr_1_nonneg, H0.
Qed.

Lemma round_nearest_even_nonneg (m : Z) (l : location) :
  0 <= m -> 0 <= round_nearest_even m l.
Proof.
  intros H. destruct l as [|[| |]]; simpl; try lia.
  destruct (Z.even m); lia.
Qed.

Lemma binary_round_aux_nonneg (mx ex : Z) (lx : location) :
  0 <= mx -> float_nonneg (binary_round_aux prec emax false mx ex lx) = true.
Proof.
  intros H. unfold binary_round_aux.
  pose proof (shr_fexp_nonneg mx ex lx H) as H1.
  destruct (shr_fexp prec emax mx ex lx) as [mrs' e'].
  simpl in H1.
  pose proof (shr_fexp_nonneg _ e' loc_Exact
                (round_nearest_even_nonneg _ (loc_of_shr_record mrs') H1)) as H2.
  destruct (shr_fexp prec emax
              (round_nearest_even (shr_m mrs') (loc_of_shr_record mrs')) e'
              loc_Exact) as [mrs'' e''].
  simpl in H2.
  destruct (shr_m mrs'') as [|m|m]; [reflexivity| |lia].
  destruct (e'' <=? emax - prec); reflexivity.
Qed.

Lemma fadd_nonneg (x y : spec_float) :
  float_nonneg x = true -> float_nonneg y = true ->
  float_nonneg (fadd x y) = true.
Proof.
  destruct x as [sx|sx| |sx mx ex], y as [sy|sy| |sy my ey];
    simpl; intros Hx Hy; try discriminate; try reflexivity; try assumption.
  - destruct sx, sy; reflexivity.
  - destruct sx, sy; try discriminate; reflexivity.
  - destruct sx, sy; try discriminate.
    unfold fadd, SFadd, cond_Zopp.
    match goal with
    | |- context [binary_normalize _ _ (Z.pos ?a + Z.pos ?b) ?e _] =>
        change (Z.pos a + Z.pos b) with (Z.pos (a + b));
        unfold binary_normalize, binary_round;
        destruct (shl_align (a + b) e
                    (fexp prec emax (Z.pos (digits2_pos (a + b)) + e)))
          as [mz ez]
    end.
    apply binary_round_aux_nonneg. lia.
Qed.

Lemma float_sum_nonneg (quantities : list spec_float) :
  Forall (fun f => float_nonneg f = true) quantities ->
  float_nonneg (float_sum quantities) = true.
Proof.
  unfold float_sum.
  assert (H : forall acc, float_nonneg acc = true ->
             Forall (fun f => float_nonneg f = true) quantities ->
             float_nonneg (fold_left fadd quantities acc) = true).
  { induction quantities as [|f fs IH]; intros acc Hacc Hall; [exact Hacc|].
    inversion Hall as [|? ? Hf Hfs]; subst. simpl.
    apply IH; [apply fadd_nonneg; assumption | exact Hfs]. }
  apply H. reflexivity.
Qed.

Lemma int_of_float_nonneg (f : spec_float) (z : Z) :
  float_nonneg f = true -> int_of_float f = Ok z -> 0 <= z.
Proof.
  destruct f as [s|s| |s m e]; simpl; intros Hf H; try discriminate;
    injection H as <-; [lia|].
  destruct s; [discriminate|]. simpl. apply Z.shiftl_nonneg. lia.
Qed.

Section Quantities.

Variable float_of_str : string -> option spec_float.

(** The loop of line 276 adds up the contributions of the line items. *)
Lemma sum_line_items_spec (items : list json) :
  forall (acc n : number),
    match acc with NInt z => z = 0 | NFloat _ => True end ->
    sum_line_items float_of_str items acc = Ok n ->
    match n with NInt z => z = 0 | NFloat _ => True end
    /\ as_float n
       = fold_left fadd (omap (contribution float_of_str) items) (as_float acc).
Proof.
  induction items as [|item items IH]; intros acc n Hacc H.
  - injection H as <-. split; [exact Hacc | reflexivity].
  - destruct item as [| | | | | |d]; try discriminate H.
    cbn [sum_line_items] in H. rewrite line_qty_first_truthy in H.
    cbn [omap list_omap]. unfold contribution at 1.
    destruct (py_float float_of_str (first_truthy d QTY_KEYS)) as [f|e].
    + destruct acc as [z|g]; [subst z|]; simpl in H;
        apply IH in H as [Hn ->]; try exact I; split; auto.
    + destruct e; try discriminate H; simpl in H; apply IH in H; auto.
Qed.

(** A line item that is an object never stops the loop unless its
    quantity is an integer too large for a [float]. *)
Lemma sum_line_items_total (items : list json) :
  forall acc : number,
    match acc with NInt z => z = 0 | NFloat _ => True end ->
    (forall item, item ∈ items ->
       exists d, item = JDict d
                 /\ py_float float_of_str (line_qty d) <> Raise OverflowError) ->
    exists n, sum_line_items float_of_str items acc = Ok n.
Proof.
  induction items as [|item items IH]; intros acc Hacc Hitems.
  - eexists. reflexivity.
  - destruct (Hitems item) as (d & -> & Hq); [apply list_elem_of_here|].
    assert (Hrest : forall item, item ∈ items ->
              exists d, item = JDict d
                /\ py_float float_of_str (line_qty d) <> Raise OverflowError).
    { intros item Hin. apply Hitems, list_elem_of_further, Hin. }
    cbn [sum_line_items].
    destruct (py_float float_of_str (line_qty d)) as [f|e] eqn:Hf.
    + destruct acc as [z|g]; [subst z|]; simpl; apply IH; auto.
    + assert (He : e = TypeError \/ e = ValueError).
      { unfold py_float, float_of_int in Hf.
        destruct (line_qty d) as [|b|z|g|s|l|m]; try (injection Hf as <-; auto);
          try discriminate Hf.
        - destruct (binary_normalize prec emax (if b then 1 else 0) 0 false);
            try discriminate Hf. injection Hf as <-. congruence.
        - destruct (binary_normalize prec emax z 0 false);
            try discriminate Hf. injection Hf as <-. congruence.
        - destruct (float_of_str s); [discriminate Hf|].
          injection Hf as <-. auto. }
      destruct He as [-> | ->]; simpl; apply IH; auto.
Qed.

(** C7, amended: [qtyTotal] is an integer, the sum of the per-line
    quantities truncated toward zero, where the quantity of a line is the
    first truthy value under [Qty], [qty], [UomQtyOrdered],
    [uomQtyOrdered] (0 when there is none) coerced to a [float], and a
    value whose coercion raises [TypeError] or [ValueError] adds nothing.
    The total is not negative when no quantity is. *)
Theorem qty_total_truncated_sum (today : date) (o : gmap string json)
    (p : processed) :
  process_order float_of_str today (JDict o) = Ok (Some p) ->
  let quantities := omap (contribution float_of_str) (line_items o) in
  int_of_float (float_sum quantities) = Ok (qtyTotal p)
  /\ (exists num den,
        float_value (float_sum quantities) = Some (num, den)
        /\ 0 < den
        /\ qtyTotal p = Z.quot num den)
  /\ (Forall (fun f => float_nonneg f = true) quantities -> 0 <= qtyTotal p).
Proof.
  intros H quantities.
  apply process_order_Some in H as (o' & Ho & _ & _ & _ & _ & _ & n & Hsum & Hint).
  injection Ho as <-.
  apply sum_line_items_spec in Hsum as [Hn Hfloat]; [|reflexivity].
  assert (Hq : int_of_float (float_sum quantities) = Ok (qtyTotal p)).
  { unfold float_sum, quantities.
    change (S754_zero false) with (as_float (NInt 0)). rewrite <- Hfloat.
    destruct n as [z|f]; [subst z|]; exact Hint. }
  split; [exact Hq|]. split.
  - apply int_of_float_quot, Hq.
  - intros Hall. eapply int_of_float_nonneg; [|exact Hq].
    apply float_sum_nonneg, Hall.
Qed.

End Quantities.

Lemma qty_total_truncated_sum_witness :
  (exists num den,
      float_value
        (float_sum (omap (contribution no_float_text) (line_items order_new)))
      = Some (num, den)
      /\ 0 < den
      /\ qtyTotal p_new = Z.quot num den)
  /\ 0 <= qtyTotal p_new.
Proof.
  destruct (qty_total_truncated_sum no_float_text today_sample order_new p_new)
    as (_ & Hquot & Hpos); [vm_compute; reflexivity|].
  split; [exact Hquot|].
  apply Hpos. vm_compute. repeat constructor.
Defined.


(* ===================================================================== *)
(** * Parsing what was formatted                                         *)
(* ===================================================================== *)

(** A property of every number from [lo] up to [lo + n - 1] follows from
    a check on the list of these numbers. *)
Lemma forallb_range (P : Z -> bool) (lo : Z) (n : nat) :
  forallb P (map (fun i => lo + Z.of_nat i) (seq 0 n)) = true ->
  forall v, lo <= v < lo + Z.of_nat n -> P v = true.
Proof.
  intros H v Hv. rewrite forallb_forall in H. apply H.
  apply in_map_iff. exists (Z.to_nat (v - lo)). split; [lia|].
  apply in_seq. lia.
Qed.

Lemma digit_char_facts (k : Z) :
  0 <= k < 10 ->
  is_digit (digit_char k) = true
  /\ digit_value (digit_char k) = k
  /\ digit_char k <> "+"%char
  /\ digit_char k <> "Z"%char.
Proof.
  intros Hk.
  assert (H : (is_digit (digit_char k)
               && (digit_value (digit_char k) =? k)
               && negb (Ascii.eqb (digit_char k) "+")
               && negb (Ascii.eqb (digit_char k) "Z")) = true).
  { revert k Hk.
    apply (forallb_range
             (fun k => is_digit (digit_char k)
                       && (digit_value (digit_char k) =? k)
                       && negb (Ascii.eqb (digit_char k) "+")
                       && negb (Ascii.eqb (digit_char k) "Z")) 0 10).
    vm_compute. reflexivity. }
  apply andb_prop in H as [H H4]. apply andb_prop in H as [H H3].
  apply andb_prop in H as [H1 H2].
  split; [exact H1|]. split; [apply Z.eqb_eq, H2|].
  split; intros E; rewrite E in *; discriminate.
Qed.

Lemma is_digit_units (v : Z) : is_digit (units v) = true.
Proof. apply digit_char_facts, Z.mod_pos_bound. lia. Qed.

Lemma is_digit_tens (v : Z) : is_digit (tens v) = true.
Proof. apply digit_char_facts, Z.mod_pos_bound. lia. Qed.

Lemma digits_2 (v : Z) : digits 2 v = [tens v; units v].
Proof. reflexivity. Qed.

Lemma int_of_group_app (s : list ascii) (c : ascii) :
  is_digit c = true ->
  int_of_group (s ++ [c]) = int_of_group s * 10 + digit_value c.
Proof.
  intros Hc. unfold int_of_group. rewrite fold_left_app. simpl.
  rewrite Hc. reflexivity.
Qed.

(** Reading back the [w] digits printed for [n]. *)
Lemma int_of_group_digits (w : nat) :
  forall n, 0 <= n -> int_of_group (digits w n) = n mod 10 ^ Z.of_nat w.
Proof.
  induction w as [|w IH]; intros n Hn.
  - simpl. rewrite Z.mod_1_r. reflexivity.
  - cbn [digits].
    destruct (digit_char_facts (n mod 10)) as (Hd & Hv & _);
      [apply Z.mod_pos_bound; lia|].
    rewrite int_of_group_app by exact Hd.
    rewrite Hv, IH by (apply Z.div_pos; lia).
    rewrite Nat2Z.inj_succ, Z.pow_succ_r by lia.
    rewrite (Z.rem_mul_r n 10 (10 ^ Z.of_nat w)) by lia. lia.
Qed.

Lemma int_of_group_digits_small (w : nat) (n : Z) :
  0 <= n < 10 ^ Z.of_nat w -> int_of_group (digits w n) = n.
Proof.
  intros Hn. rewrite int_of_group_digits by lia. apply Z.mod_small, Hn.
Qed.

(** ** One group of the expression *)

Lemma match_items_field (n : ascii) (alts : list (list cclass))
    (items : list item) (s : list ascii) (caps : captures) :
  match_items (Field n alts :: items) s caps
  = first_some
      (fun a =>
         match match_alt a s with
         | Some (m, r) => match_items items r ((n, m) :: caps)
         | None => None
         end)
      alts.
Proof. reflexivity. Qed.

(** A two-digit group followed by a literal that the second digit is
    not: the group takes both digits or the match fails. *)
Lemma match_field_then_lit (n sep : ascii) (alts : list (list cclass))
    (items : list item) (c1 c2 : ascii) (rest : list ascii) (caps : captures) :
  forallb short_alt alts = true ->
  cclass_match (CChar sep) c2 = false ->
  match_items (Field n alts :: Lit sep :: items) (c1 :: c2 :: rest) caps
  = if existsb (ate2 c1 c2) alts
    then match_items (Lit sep :: items) rest ((n, [c1; c2]) :: caps)
    else None.
Proof.
  intros Hshort Hsep. rewrite match_items_field.
  induction alts as [|a alts IH]; [reflexivity|].
  cbn [forallb] in Hshort. apply andb_prop in Hshort as [Ha Hshort].
  specialize (IH Hshort). cbn [first_some existsb].
  destruct a as [|k1 [|k2 [|k3 a]]]; try discriminate Ha.
  - cbn [match_alt ate2]. destruct (cclass_match k1 c1).
    + cbn [match_items]. rewrite Hsep. exact IH.
    + exact IH.
  - cbn [match_alt ate2].
    destruct (cclass_match k1 c1); [|exact IH].
    destruct (cclass_match k2 c2); [|exact IH].
    cbn [andb orb].
    destruct (match_items (Lit sep :: items) rest ((n, [c1; c2]) :: caps))
      as [res|] eqn:Hk; [reflexivity|].
    rewrite IH. destruct (existsb (ate2 c1 c2) alts); reflexivity.
Qed.

(** A two-digit group at the end of the expression. *)
Lemma match_field_last (n : ascii) (alts : list (list cclass))
    (c1 c2 : ascii) (rest : list ascii) (caps : captures) :
  greedy2 c1 c2 alts = true ->
  match_items [Field n alts] (c1 :: c2 :: rest) caps
  = Some ((n, [c1; c2]) :: caps, rest).
Proof.
  rewrite match_items_field.
  induction alts as [|a alts IH]; [discriminate|].
  cbn [greedy2 first_some].
  destruct a as [|k1 [|k2 [|k3 a]]]; try discriminate.
  - cbn [match_alt]. destruct (cclass_match k1 c1); [discriminate|exact IH].
  - cbn [match_alt].
    destruct (cclass_match k1 c1); [|exact IH].
    destruct (cclass_match k2 c2); [|exact IH].
    reflexivity.
Qed.

Lemma match_year (items : list item) (a b c d : ascii) (rest : list ascii)
    (caps : captures) :
  is_digit a = true -> is_digit b = true ->
  is_digit c = true -> is_digit d = true ->
  match_items (Field "Y" re_Y :: items) (a :: b :: c :: d :: rest) caps
  = match_items items rest (("Y"%char, [a; b; c; d]) :: caps).
Proof.
  unfold is_digit. intros Ha Hb Hc Hd.
  rewrite match_items_field. unfold re_Y. cbn [first_some match_alt].
  rewrite Ha, Hb, Hc, Hd.
  destruct (match_items items rest (("Y"%char, [a; b; c; d]) :: caps));
    reflexivity.
Qed.

(** A text whose third character is a slash has no year in front. *)
Lemma match_year_slash (items : list item) (a b : ascii) (rest : list ascii)
    (caps : captures) :
  match_items (Field "Y" re_Y :: items) (a :: b :: "/"%char :: rest) caps
  = None.
Proof.
  rewrite match_items_field. unfold re_Y. cbn [first_some match_alt].
  destruct (cclass_match digit a); [|reflexivity].
  destruct (cclass_match digit b); reflexivity.
Qed.

Lemma match_fraction (c1 c2 c3 c4 c5 c6 : ascii) (caps : captures) :
  is_digit c1 = true -> is_digit c2 = true -> is_digit c3 = true ->
  is_digit c4 = true -> is_digit c5 = true -> is_digit c6 = true ->
  match_items [Field "f" re_f] [c1; c2; c3; c4; c5; c6] caps
  = Some (("f"%char, [c1; c2; c3; c4; c5; c6]) :: caps, []).
Proof.
  unfold is_digit. intros H1 H2 H3 H4 H5 H6.
  rewrite match_items_field. unfold re_f. cbn [first_some match_alt].
  rewrite H1, H2, H3, H4, H5, H6. reflexivity.
Qed.

Lemma match_lit (c : ascii) (items : list item) (rest : list ascii)
    (caps : captures) :
  cclass_match (CChar c) c = true ->
  match_items (Lit c :: items) (c :: rest) caps = match_items items rest caps.
Proof. intros H. cbn [match_items]. rewrite H. reflexivity. Qed.

(** ** The digits of the fields of a valid date *)

Ltac by_range lo n :=
  let v := fresh "v" in
  let Hv := fresh "Hv" in
  intros v Hv;
  match goal with
  | |- ?P = true =>
      pattern v;
      match goal with
      | |- (fun x => @?Q x = true) v =>
          apply (forallb_range Q lo n); [vm_compute; reflexivity | lia]
      end
  end.

Lemma month_two_digits :
  forall v, 1 <= v <= 12 -> existsb (ate2 (tens v) (units v)) re_m = true.
Proof. by_range 1 12%nat. Qed.

Lemma not_month_two_digits :
  forall v, 13 <= v <= 31 ->
            negb (existsb (ate2 (tens v) (units v)) re_m) = true.
Proof. by_range 13 19%nat. Qed.

Lemma day_two_digits :
  forall v, 1 <= v <= 31 ->
            existsb (ate2 (tens v) (units v)) re_d
            && greedy2 (tens v) (units v) re_d = true.
Proof. by_range 1 31%nat. Qed.

Lemma hour_two_digits :
  forall v, 0 <= v <= 23 -> existsb (ate2 (tens v) (units v)) re_H = true.
Proof. by_range 0 24%nat. Qed.

Lemma minute_two_digits :
  forall v, 0 <= v <= 59 -> existsb (ate2 (tens v) (units v)) re_M = true.
Proof. by_range 0 60%nat. Qed.

Lemma second_two_digits :
  forall v, 0 <= v <= 59 ->
            existsb (ate2 (tens v) (units v)) re_S
            && greedy2 (tens v) (units v) re_S = true.
Proof. by_range 0 60%nat. Qed.

(** No digit is one of the separators of the formats. *)
Lemma digit_not_separator :
  forall k, 0 <= k <= 9 ->
    negb (cclass_match (CChar "-") (digit_char k))
    && negb (cclass_match (CChar "T") (digit_char k))
    && negb (cclass_match (CChar ":") (digit_char k))
    && negb (cclass_match (CChar "/") (digit_char k))
    && negb (cclass_match (CChar ".") (digit_char k)) = true.
Proof. by_range 0 10%nat. Qed.

Lemma units_not_separator (v : Z) :
  cclass_match (CChar "-") (units v) = false
  /\ cclass_match (CChar "T") (units v) = false
  /\ cclass_match (CChar ":") (units v) = false
  /\ cclass_match (CChar "/") (units v) = false
  /\ cclass_match (CChar ".") (units v) = false.
Proof.
  pose proof (Z.mod_pos_bound v 10 ltac:(lia)) as Hb.
  pose proof (digit_not_separator (v mod 10) ltac:(lia)) as H.
  fold (units v) in H.
  repeat (apply andb_prop in H as [H ?]).
  repeat split; apply negb_true_iff; assumption.
Qed.

Lemma days_in_month_bounds (y m : Z) :
  1 <= m <= 12 -> 28 <= days_in_month y m <= 31.
Proof.
  intros Hm. unfold days_in_month.
  destruct ((m =? 2) && is_leap y); [lia|].
  assert (H : m = 1 \/ m = 2 \/ m = 3 \/ m = 4 \/ m = 5 \/ m = 6 \/ m = 7
              \/ m = 8 \/ m = 9 \/ m = 10 \/ m = 11 \/ m = 12) by lia.
  repeat (destruct H as [->|H]; [simpl; lia|]). subst m. simpl. lia.
Qed.

Lemma valid_datetime_bounds (dt : datetime) :
  valid_datetime dt = true ->
  1 <= year dt <= 9999 /\ 1 <= month dt <= 12
  /\ 1 <= day dt <= days_in_month (year dt) (month dt)
  /\ 0 <= hour dt <= 23 /\ 0 <= minute dt <= 59 /\ 0 <= second dt <= 59
  /\ 0 <= microsecond dt <= 999999.
Proof.
  unfold valid_datetime, valid_date, valid_time. intros H.
  repeat (apply andb_prop in H as [H ?]).
  repeat match goal with
         | H : (_ <=? _) = true |- _ => apply Z.leb_le in H
         end.
  lia.
Qed.

Lemma valid_datetime_intro (dt : datetime) :
  1 <= year dt <= 9999 -> 1 <= month dt <= 12 ->
  1 <= day dt <= days_in_month (year dt) (month dt) ->
  0 <= hour dt <= 23 -> 0 <= minute dt <= 59 -> 0 <= second dt <= 59 ->
  0 <= microsecond dt <= 999999 ->
  valid_datetime dt = true.
Proof.
  intros. unfold valid_datetime, valid_date, valid_time.
  repeat (apply andb_true_intro; split); apply Z.leb_le; lia.
Qed.

(** ** The groups on the printed fields *)

Lemma match_year_digits (y : Z) (items : list item) (rest : list ascii)
    (caps : captures) :
  match_items (Field "Y" re_Y :: items) (digits 4 y ++ rest) caps
  = match_items items rest (("Y"%char, digits 4 y) :: caps).
Proof.
  change (digits 4 y)
    with [digit_char (y / 10 / 10 / 10 mod 10); digit_char (y / 10 / 10 mod 10);
          digit_char (y / 10 mod 10); digit_char (y mod 10)].
  apply match_year; apply digit_char_facts, Z.mod_pos_bound; lia.
Qed.

Lemma match_two_then_lit (n sep : ascii) (alts : list (list cclass))
    (v : Z) (items : list item) (rest : list ascii) (caps : captures) :
  forallb short_alt alts = true ->
  cclass_match (CChar sep) (units v) = false ->
  existsb (ate2 (tens v) (units v)) alts = true ->
  match_items (Field n alts :: Lit sep :: items) (digits 2 v ++ rest) caps
  = match_items (Lit sep :: items) rest ((n, digits 2 v) :: caps).
Proof.
  intros Hshort Hsep Hex. change (digits 2 v ++ rest) with (tens v :: units v :: rest).
  rewrite match_field_then_lit by assumption. rewrite Hex. reflexivity.
Qed.

Lemma match_two_last (n : ascii) (alts : list (list cclass)) (v : Z)
    (rest : list ascii) (caps : captures) :
  greedy2 (tens v) (units v) alts = true ->
  match_items [Field n alts] (digits 2 v ++ rest) caps
  = Some ((n, digits 2 v) :: caps, rest).
Proof. intros H. apply match_field_last, H. Qed.

Lemma match_fraction_digits (us : Z) (caps : captures) :
  match_items [Field "f" re_f] (digits 6 us) caps
  = Some (("f"%char, digits 6 us) :: caps, []).
Proof.
  change (digits 6 us)
    with [digit_char (us / 10 / 10 / 10 / 10 / 10 mod 10);
          digit_char (us / 10 / 10 / 10 / 10 mod 10);
          digit_char (us / 10 / 10 / 10 mod 10);
          digit_char (us / 10 / 10 mod 10);
          digit_char (us / 10 mod 10); digit_char (us mod 10)].
  apply match_fraction; apply digit_char_facts, Z.mod_pos_bound; lia.
Qed.

Lemma fraction_digits (us : Z) (caps : captures) :
  0 <= us <= 999999 -> fraction (("f"%char, digits 6 us) :: caps) = us.
Proof.
  intros H. unfold fraction. cbn [group].
  change (Ascii.eqb "f" "f") with true. cbv iota.
  change (length (digits 6 us)) with 6%nat. cbn [Nat.sub repeat].
  rewrite app_nil_r. apply int_of_group_digits_small. simpl. lia.
Qed.

Section ValidDate.

Variable dt : datetime.
Hypothesis Hvalid : valid_datetime dt = true.







Ltac two_then_lit H :=
  rewrite match_two_then_lit;
  [ | reflexivity | apply units_not_separator | apply H; lia ].

Ltac lit := rewrite match_lit by reflexivity.

(** The date part, with more of the expression to come. *)
Lemma match_date_then (sep : ascii) (items : list item) (rest : list ascii)
    (caps : captures) :
  cclass_match (CChar sep) (units (day dt)) = false ->
  match_items (items_date (Lit sep :: items)) (text_date dt rest) caps
  = match_items (Lit sep :: items) rest (caps_date dt caps).
Proof.
  intros Hsep.
  destruct (valid_datetime_bounds dt Hvalid) as (Hy & Hm & Hd & _).
  pose proof (days_in_month_bounds (year dt) (month dt) Hm) as Hdim.
  unfold items_date, text_date, caps_date.
  rewrite match_year_digits. lit.
  two_then_lit month_two_digits. lit.
  rewrite match_two_then_lit; [reflexivity | reflexivity | exact Hsep |].
  pose proof (day_two_digits (day dt) ltac:(lia)) as H.
  apply andb_prop in H as [H _]. exact H.
Qed.

(** The date part at the end of the expression. *)
Lemma match_date_last (rest : list ascii) (caps : captures) :
  match_items (items_date []) (text_date dt rest) caps
  = Some (caps_date dt caps, rest).
Proof.
  destruct (valid_datetime_bounds dt Hvalid) as (Hy & Hm & Hd & _).
  pose proof (days_in_month_bounds (year dt) (month dt) Hm) as Hdim.
  unfold items_date, text_date, caps_date.
  rewrite match_year_digits. lit.
  two_then_lit month_two_digits. lit.
  apply match_two_last.
  pose proof (day_two_digits (day dt) ltac:(lia)) as H.
  apply andb_prop in H as [_ H]. exact H.
Qed.

(** The time part at the end of the expression. *)
Lemma match_time_last (rest : list ascii) (caps : captures) :
  match_items (items_time []) (text_time dt rest) caps
  = Some (caps_time dt caps, rest).
Proof.
  destruct (valid_datetime_bounds dt Hvalid) as (_ & _ & _ & Hh & Hmi & Hs & _).
  unfold items_time, text_time, caps_time.
  lit. two_then_lit hour_two_digits. lit.
  two_then_lit minute_two_digits. lit.
  apply match_two_last.
  pose proof (second_two_digits (second dt) ltac:(lia)) as H.
  apply andb_prop in H as [_ H]. exact H.
Qed.

(** The time part followed by the fraction. *)
Lemma match_time_fraction (caps : captures) :
  match_items (items_time [Lit "."; Field "f" re_f])
    (text_time dt (text_fraction dt)) caps
  = Some (("f"%char, digits 6 (microsecond dt)) :: caps_time dt caps, []).
Proof.
  destruct (valid_datetime_bounds dt Hvalid) as (_ & _ & _ & Hh & Hmi & Hs & _).
  unfold items_time, text_time, text_fraction, caps_time.
  lit. two_then_lit hour_two_digits. lit.
  two_then_lit minute_two_digits. lit.
  rewrite match_two_then_lit;
    [ | reflexivity | apply units_not_separator | ].
  - lit. apply match_fraction_digits.
  - pose proof (second_two_digits (second dt) ltac:(lia)) as H.
    apply andb_prop in H as [H _]. exact H.
Qed.





(** ** [strptime] on the printed texts *)

Lemma strptime_found (data fmt : list ascii) (items : list item)
    (caps : captures) :
  compile_format fmt = Some items ->
  match_items items data [] = Some (caps, []) ->
  mk_datetime (group_int caps "Y" 1900) (group_int caps "m" 1)
    (group_int caps "d" 1) (group_int caps "H" 0) (group_int caps "M" 0)
    (group_int caps "S" 0) (fraction caps) = dt ->
  strptime data fmt = Some dt.
Proof.
  intros Hc Hm Hdt. unfold strptime. rewrite Hc, Hm, Hdt, Hvalid. reflexivity.
Qed.

Lemma strptime_unconverted (data fmt : list ascii) (items : list item)
    (caps : captures) (c : ascii) (rest : list ascii) :
  compile_format fmt = Some items ->
  match_items items data [] = Some (caps, c :: rest) ->
  strptime data fmt = None.
Proof. intros Hc Hm. unfold strptime. rewrite Hc, Hm. reflexivity. Qed.

Lemma strptime_no_match (data fmt : list ascii) (items : list item) :
  compile_format fmt = Some items ->
  match_items items data [] = None ->
  strptime data fmt = None.
Proof. intros Hc Hm. unfold strptime. rewrite Hc, Hm. reflexivity. Qed.

Ltac read_back :=
  unfold caps_time, caps_date, group_int;
  cbn [group Ascii.eqb Bool.eqb andb];
  rewrite ?fraction_digits by lia;
  rewrite ?int_of_group_digits_small by (simpl; lia).

Lemma dt_eta :
  mk_datetime (year dt) (month dt) (day dt) (hour dt) (minute dt)
    (second dt) (microsecond dt) = dt.
Proof. destruct dt. reflexivity. Qed.

Lemma strptime_seconds :
  microsecond dt = 0 ->
  strptime (text_date dt (text_time dt [])) (list_ascii_of_string FMT_SECONDS)
  = Some dt.
Proof.
  intros Hus.
  destruct (valid_datetime_bounds dt Hvalid)
    as (Hy & Hm & Hd & Hh & Hmi & Hs & _).
  pose proof (days_in_month_bounds (year dt) (month dt) Hm) as Hdim.
  apply (strptime_found _ _ (items_date (items_time []))
           (caps_time dt (caps_date dt []))); [reflexivity | |].
  - unfold items_time at 1.
    rewrite match_date_then by apply units_not_separator.
    apply match_time_last.
  - read_back. change (fraction _) with 0.
    etransitivity; [|exact dt_eta]. rewrite Hus. reflexivity.
Qed.

Lemma strptime_seconds_on_fraction :
  strptime (text_date dt (text_time dt (text_fraction dt)))
    (list_ascii_of_string FMT_SECONDS)
  = None.
Proof.
  apply (strptime_unconverted _ _ (items_date (items_time []))
           (caps_time dt (caps_date dt [])) "." (digits 6 (microsecond dt)));
    [reflexivity|].
  unfold items_time at 1.
  rewrite match_date_then by apply units_not_separator.
  apply match_time_last.
Qed.

Lemma strptime_fraction :
  strptime (text_date dt (text_time dt (text_fraction dt)))
    (list_ascii_of_string FMT_FRACTION)
  = Some dt.
Proof.
  destruct (valid_datetime_bounds dt Hvalid)
    as (Hy & Hm & Hd & Hh & Hmi & Hs & Hus).
  pose proof (days_in_month_bounds (year dt) (month dt) Hm) as Hdim.
  apply (strptime_found _ _
           (items_date (items_time [Lit "."; Field "f" re_f]))
           (("f"%char, digits 6 (microsecond dt)) :: caps_time dt (caps_date dt [])));
    [reflexivity | |].
  - unfold items_time at 1.
    rewrite match_date_then by apply units_not_separator.
    apply match_time_fraction.
  - read_back. apply dt_eta.
Qed.

(** A bare date has no time part. *)
Lemma strptime_time_on_date (items : list item) (fmt : list ascii) :
  compile_format fmt = Some (items_date (items_time items)) ->
  strptime (text_date dt []) fmt = None.
Proof.
  intros Hc. apply (strptime_no_match _ _ _ Hc).
  unfold items_time.
  rewrite match_date_then by apply units_not_separator.
  reflexivity.
Qed.

Lemma strptime_date :
  hour dt = 0 -> minute dt = 0 -> second dt = 0 -> microsecond dt = 0 ->
  strptime (text_date dt []) (list_ascii_of_string FMT_DATE) = Some dt.
Proof.
  intros Hh Hmi Hs Hus.
  destruct (valid_datetime_bounds dt Hvalid) as (Hy & Hm & Hd & _).
  pose proof (days_in_month_bounds (year dt) (month dt) Hm) as Hdim.
  apply (strptime_found _ _ (items_date []) (caps_date dt []));
    [reflexivity | apply match_date_last |].
  read_back. change (fraction _) with 0.
  etransitivity; [|exact dt_eta]. rewrite Hh, Hmi, Hs, Hus. reflexivity.
Qed.

(** A text with slashes has no year in front. *)
Lemma strptime_date_on_slash (items : list item) (fmt : list ascii)
    (a b : Z) :
  compile_format fmt = Some (items_date items) ->
  strptime (text_slash dt a b) fmt = None.
Proof.
  intros Hc. apply (strptime_no_match _ _ _ Hc).
  apply match_year_slash.
Qed.

Lemma match_slash (n1 n2 : ascii) (alts1 alts2 : list (list cclass))
    (a b : Z) :
  forallb short_alt alts1 = true -> forallb short_alt alts2 = true ->
  existsb (ate2 (tens a) (units a)) alts1 = true ->
  existsb (ate2 (tens b) (units b)) alts2 = true ->
  match_items [Field n1 alts1; Lit "/"; Field n2 alts2; Lit "/";
               Field "Y" re_Y] (text_slash dt a b) []
  = Some ([("Y"%char, digits 4 (year dt)); (n2, digits 2 b);
           (n1, digits 2 a)], []).
Proof.
  intros Hs1 Hs2 H1 H2. unfold text_slash.
  rewrite match_two_then_lit;
    [ | exact Hs1 | apply units_not_separator | exact H1 ].
  lit.
  rewrite match_two_then_lit;
    [ | exact Hs2 | apply units_not_separator | exact H2 ].
  lit.
  rewrite <- (app_nil_r (digits 4 (year dt))).
  rewrite match_year_digits. reflexivity.
Qed.

Lemma strptime_day_first :
  hour dt = 0 -> minute dt = 0 -> second dt = 0 -> microsecond dt = 0 ->
  strptime (text_slash dt (day dt) (month dt))
    (list_ascii_of_string FMT_DAY_FIRST) = Some dt.
Proof.
  intros Hh Hmi Hs Hus.
  destruct (valid_datetime_bounds dt Hvalid) as (Hy & Hm & Hd & _).
  pose proof (days_in_month_bounds (year dt) (month dt) Hm) as Hdim.
  pose proof (day_two_digits (day dt) ltac:(lia)) as Hday.
  apply andb_prop in Hday as [Hday _].
  eapply (strptime_found _ _ items_day_first); [reflexivity | |].
  - apply match_slash;
      [reflexivity | reflexivity | exact Hday | apply month_two_digits; lia].
  - read_back. change (fraction _) with 0.
    etransitivity; [|exact dt_eta]. rewrite Hh, Hmi, Hs, Hus. reflexivity.
Qed.

Lemma strptime_month_first :
  hour dt = 0 -> minute dt = 0 -> second dt = 0 -> microsecond dt = 0 ->
  strptime (text_slash dt (month dt) (day dt))
    (list_ascii_of_string FMT_MONTH_FIRST) = Some dt.
Proof.
  intros Hh Hmi Hs Hus.
  destruct (valid_datetime_bounds dt Hvalid) as (Hy & Hm & Hd & _).
  pose proof (days_in_month_bounds (year dt) (month dt) Hm) as Hdim.
  pose proof (day_two_digits (day dt) ltac:(lia)) as Hday.
  apply andb_prop in Hday as [Hday _].
  eapply (strptime_found _ _ items_month_first); [reflexivity | |].
  - apply match_slash;
      [reflexivity | reflexivity | apply month_two_digits; lia | exact Hday].
  - read_back. change (fraction _) with 0.
    etransitivity; [|exact dt_eta]. rewrite Hh, Hmi, Hs, Hus. reflexivity.
Qed.

(** The month-first text read day first: it fails when the day is no
    month. *)
Lemma strptime_day_first_on_month_first_late :
  12 < day dt ->
  strptime (text_slash dt (month dt) (day dt))
    (list_ascii_of_string FMT_DAY_FIRST) = None.
Proof.
  intros Hlate.
  destruct (valid_datetime_bounds dt Hvalid) as (Hy & Hm & Hd & _).
  pose proof (days_in_month_bounds (year dt) (month dt) Hm) as Hdim.
  pose proof (day_two_digits (month dt) ltac:(lia)) as Hday.
  apply andb_prop in Hday as [Hday _].
  apply (strptime_no_match _ _ items_day_first); [reflexivity|].
  unfold items_day_first, text_slash.
  rewrite match_two_then_lit;
    [ | reflexivity | apply units_not_separator | exact Hday ].
  lit.
  change (digits 2 (day dt) ++ "/"%char :: digits 4 (year dt))
    with (tens (day dt) :: units (day dt) :: "/"%char :: digits 4 (year dt)).
  rewrite match_field_then_lit;
    [ | reflexivity | apply units_not_separator ].
  pose proof (not_month_two_digits (day dt) ltac:(lia)) as H.
  apply negb_true_iff in H. rewrite H. reflexivity.
Qed.

End ValidDate.

(** The month-first text of a date whose day is a month number reads,
    day first, as the date with day and month exchanged. *)
Lemma strptime_day_first_on_month_first_early (dt : datetime) :
  valid_datetime dt = true ->
  hour dt = 0 -> minute dt = 0 -> second dt = 0 -> microsecond dt = 0 ->
  day dt <= 12 ->
  strptime (text_slash dt (month dt) (day dt))
    (list_ascii_of_string FMT_DAY_FIRST)
  = Some (swap_day_month dt).
Proof.
  intros Hvalid Hh Hmi Hs Hus Hearly.
  destruct (valid_datetime_bounds dt Hvalid) as (Hy & Hm & Hd & _).
  apply (strptime_day_first (swap_day_month dt)); try assumption.
  apply valid_datetime_intro; simpl; try lia.
  pose proof (days_in_month_bounds (year dt) (day dt) ltac:(lia)). lia.
Qed.

(** ** Cleaning the printed texts *)

Lemma Forall_digits (P : ascii -> Prop) (w : nat) :
  (forall k, 0 <= k < 10 -> P (digit_char k)) ->
  forall v, Forall P (digits w v).
Proof.
  intros HP. induction w as [|w IH]; intros v; [constructor|].
  cbn [digits]. apply Forall_app_2; [apply IH|].
  constructor; [|constructor]. apply HP, Z.mod_pos_bound. lia.
Qed.

Lemma remove_all_no_plus (s : list ascii) :
  Forall (fun c => c <> "+"%char) s ->
  remove_all (list_ascii_of_string "+00:00") 0 s = s.
Proof.
  induction 1 as [|c s Hc Hs IH]; [reflexivity|].
  cbn [remove_all]. rewrite bool_decide_eq_false_2.
  - rewrite IH. reflexivity.
  - simpl. intros E. injection E as E _. contradiction.
Qed.

Lemma rstrip_no_Z (s : list ascii) :
  Forall (fun c => c <> "Z"%char) s -> rstrip "Z" s = s.
Proof.
  induction 1 as [|c s Hc Hs IH]; [reflexivity|].
  cbn [rstrip]. rewrite IH. destruct s; [|reflexivity].
  apply Ascii.eqb_neq in Hc. rewrite Hc. reflexivity.
Qed.

Lemma rstrip_app_Z (s : list ascii) :
  rstrip "Z" (s ++ ["Z"%char]) = rstrip "Z" s.
Proof.
  induction s as [|c s IH]; [reflexivity|].
  cbn [rstrip app]. rewrite IH. reflexivity.
Qed.

Lemma digits_no_plus (w : nat) (v : Z) :
  Forall (fun c => c <> "+"%char) (digits w v).
Proof. apply Forall_digits. intros k Hk. apply (digit_char_facts k Hk). Qed.

Lemma digits_no_Z (w : nat) (v : Z) :
  Forall (fun c => c <> "Z"%char) (digits w v).
Proof. apply Forall_digits. intros k Hk. apply (digit_char_facts k Hk). Qed.

Ltac plain_text :=
  unfold text_date, text_time, text_fraction, text_slash;
  repeat match goal with
         | |- Forall _ (digits _ _) =>
             first [apply digits_no_plus | apply digits_no_Z]
         | |- Forall _ (_ ++ _) => apply Forall_app_2
         | |- Forall _ (_ :: _) => apply Forall_cons_2; [discriminate|]
         | |- Forall _ [] => apply List.Forall_nil
         end.

Lemma first_some_map {A B C : Type} (g : B -> option C) (h : A -> B)
    (l : list A) :
  first_some (fun a => g (h a)) l = first_some g (map h l).
Proof.
  induction l as [|a l IH]; [reflexivity|].
  simpl. rewrite IH. reflexivity.
Qed.

(** The formats that [parse_date] tries, with their [Z] stripped. *)
Lemma parse_date_formatted (s core : list ascii) :
  rstrip "Z" (remove_all (list_ascii_of_string "+00:00") 0 s) = core ->
  parse_date (JStr (string_of_list_ascii s))
  = first_some (strptime core)
      (map list_ascii_of_string
         [FMT_SECONDS; FMT_FRACTION; FMT_SECONDS; FMT_FRACTION; FMT_DATE;
          FMT_DAY_FIRST; FMT_MONTH_FIRST]).
Proof.
  intros <-. unfold parse_date.
  rewrite list_ascii_of_string_of_list_ascii.
  rewrite (first_some_map
             (strptime (rstrip "Z" (remove_all (list_ascii_of_string "+00:00")
                                      0 s)))
             (fun fmt => rstrip "Z" (list_ascii_of_string fmt))).
  reflexivity.
Qed.

Lemma clean_plain (s : list ascii) :
  Forall (fun c => c <> "+"%char) s -> Forall (fun c => c <> "Z"%char) s ->
  rstrip "Z" (remove_all (list_ascii_of_string "+00:00") 0 s) = s.
Proof. intros Hp Hz. rewrite remove_all_no_plus, rstrip_no_Z; auto. Qed.

Lemma clean_plain_Z (s : list ascii) :
  Forall (fun c => c <> "+"%char) s -> Forall (fun c => c <> "Z"%char) s ->
  rstrip "Z" (remove_all (list_ascii_of_string "+00:00") 0 (s ++ ["Z"%char]))
  = s.
Proof.
  intros Hp Hz. rewrite remove_all_no_plus.
  - rewrite rstrip_app_Z. apply rstrip_no_Z, Hz.
  - apply Forall_app_2; [exact Hp|]. constructor; [discriminate|constructor].
Qed.

Section RoundTrip.

Variable dt : datetime.
Hypothesis Hvalid : valid_datetime dt = true.





Lemma round_trip_seconds :
  microsecond dt = 0 ->
  parse_date (JStr (spec_format FMT_SECONDS dt)) = Some dt
  /\ parse_date (JStr (spec_format FMT_SECONDS_Z dt)) = Some dt.
Proof.
  intros Hus.
  assert (Hparse : first_some (strptime (text_date dt (text_time dt [])))
            (map list_ascii_of_string
               [FMT_SECONDS; FMT_FRACTION; FMT_SECONDS; FMT_FRACTION;
                FMT_DATE; FMT_DAY_FIRST; FMT_MONTH_FIRST]) = Some dt).
  { cbn [map first_some].
    rewrite (strptime_seconds dt Hvalid Hus). reflexivity. }
  split; unfold spec_format.
  - rewrite (parse_date_formatted _ (text_date dt (text_time dt []))); [exact Hparse|].
    apply clean_plain; plain_text.
  - rewrite (parse_date_formatted _ (text_date dt (text_time dt []))); [exact Hparse|].
    apply (clean_plain_Z (text_date dt (text_time dt []))); plain_text.
Qed.

Lemma round_trip_fraction :
  parse_date (JStr (spec_format FMT_FRACTION dt)) = Some dt
  /\ parse_date (JStr (spec_format FMT_FRACTION_Z dt)) = Some dt.
Proof.
  assert (Hparse : first_some (strptime (text_date dt (text_time dt (text_fraction dt))))
            (map list_ascii_of_string
               [FMT_SECONDS; FMT_FRACTION; FMT_SECONDS; FMT_FRACTION;
                FMT_DATE; FMT_DAY_FIRST; FMT_MONTH_FIRST]) = Some dt).
  { cbn [map first_some].
    rewrite (strptime_seconds_on_fraction dt Hvalid).
    rewrite (strptime_fraction dt Hvalid). reflexivity. }
  split; unfold spec_format.
  - rewrite (parse_date_formatted _
               (text_date dt (text_time dt (text_fraction dt)))); [exact Hparse|].
    apply clean_plain; plain_text.
  - rewrite (parse_date_formatted _
               (text_date dt (text_time dt (text_fraction dt)))); [exact Hparse|].
    apply (clean_plain_Z (text_date dt (text_time dt (text_fraction dt))));
      plain_text.
Qed.

Hypothesis Hh : hour dt = 0.
Hypothesis Hmi : minute dt = 0.
Hypothesis Hs : second dt = 0.
Hypothesis Hus : microsecond dt = 0.

Lemma round_trip_date :
  parse_date (JStr (spec_format FMT_DATE dt)) = Some dt.
Proof.
  unfold spec_format.
  rewrite (parse_date_formatted _ (text_date dt [])).
  - cbn [map first_some].
    rewrite !(strptime_time_on_date dt Hvalid []) by reflexivity.
    rewrite !(strptime_time_on_date dt Hvalid [Lit "."; Field "f" re_f])
      by reflexivity.
    rewrite (strptime_date dt Hvalid Hh Hmi Hs Hus). reflexivity.
  - apply clean_plain; plain_text.
Qed.

Lemma parse_slash (a b : Z) :
  first_some (strptime (text_slash dt a b))
    (map list_ascii_of_string
       [FMT_SECONDS; FMT_FRACTION; FMT_SECONDS; FMT_FRACTION; FMT_DATE;
        FMT_DAY_FIRST; FMT_MONTH_FIRST])
  = match strptime (text_slash dt a b) (list_ascii_of_string FMT_DAY_FIRST) with
    | Some r => Some r
    | None => strptime (text_slash dt a b) (list_ascii_of_string FMT_MONTH_FIRST)
    end.
Proof.
  cbn [map first_some].
  rewrite !(strptime_date_on_slash dt
              [Lit "T"; Field "H" re_H; Lit ":"; Field "M" re_M; Lit ":";
               Field "S" re_S]) by reflexivity.
  rewrite !(strptime_date_on_slash dt
              [Lit "T"; Field "H" re_H; Lit ":"; Field "M" re_M; Lit ":";
               Field "S" re_S; Lit "."; Field "f" re_f]) by reflexivity.
  rewrite (strptime_date_on_slash dt []) by reflexivity.
  destruct (strptime _ (list_ascii_of_string FMT_DAY_FIRST)); [reflexivity|].
  destruct (strptime _ (list_ascii_of_string FMT_MONTH_FIRST)); reflexivity.
Qed.

Lemma round_trip_day_first :
  parse_date (JStr (spec_format FMT_DAY_FIRST dt)) = Some dt.
Proof.
  unfold spec_format.
  rewrite (parse_date_formatted _ (text_slash dt (day dt) (month dt))).
  - rewrite parse_slash.
    rewrite (strptime_day_first dt Hvalid Hh Hmi Hs Hus). reflexivity.
  - apply clean_plain; plain_text.
Qed.

Lemma parse_month_first :
  parse_date (JStr (spec_format FMT_MONTH_FIRST dt))
  = if day dt <=? 12 then Some (swap_day_month dt) else Some dt.
Proof.
  unfold spec_format.
  rewrite (parse_date_formatted _ (text_slash dt (month dt) (day dt))).
  - rewrite parse_slash.
    destruct (Z.leb_spec (day dt) 12) as [Hearly|Hlate].
    + rewrite (strptime_day_first_on_month_first_early dt Hvalid Hh Hmi Hs
                 Hus Hearly). reflexivity.
    + rewrite (strptime_day_first_on_month_first_late dt Hvalid Hlate).
      apply (strptime_month_first dt Hvalid Hh Hmi Hs Hus).
  - apply clean_plain; plain_text.
Qed.

End RoundTrip.

Lemma swap_day_month_same (dt : datetime) :
  day dt = month dt -> swap_day_month dt = dt.
Proof. destruct dt. unfold swap_day_month. simpl. intros ->. reflexivity. Qed.

Ltac unpack_representable H :=
  unfold representable in H;
  repeat match type of H with
         | context [has_directive ?f ?d] =>
             let b := eval vm_compute in (has_directive f d) in
             change (has_directive f d) with b in H
         end;
  cbn [orb] in H;
  repeat match type of H with
         | (_ && _) = true =>
             let H' := fresh H in apply andb_prop in H as [H H']
         end;
  repeat match goal with
         | E : (_ =? 0) = true |- _ => apply Z.eqb_eq in E
         end.

(** C6 as the specification states it fails for the month-first format:
    5 March 2024 is printed [03/05/2024], which the day-first format,
    tried before, reads as 3 May. *)
Lemma month_first_round_trip_fails :
  FMT_MONTH_FIRST ∈ date_formats
  /\ valid_datetime date_5_march = true
  /\ spec_format FMT_MONTH_FIRST date_5_march = "03/05/2024"
  /\ parse_date (JStr (spec_format FMT_MONTH_FIRST date_5_march))
     = Some (mk_datetime 2024 5 3 0 0 0 0)
  /\ parse_date (JStr (spec_format FMT_MONTH_FIRST date_5_march))
     <> Some date_5_march.
Proof.
  split; [unfold date_formats, FMT_MONTH_FIRST; list_mem|].
  split; [reflexivity|]. split; [reflexivity|].
  split; [vm_compute; reflexivity|].
  vm_compute. discriminate.
Qed.

(** C6, amended: for every valid date (year 1 to 9999) and every format
    of [date_formats] that can represent it (the fields that the format
    does not print are zero), parsing the formatted text gives the date
    back, except in the month-first format when the day is at most 12 and
    differs from the month: the day-first format is tried first, and the
    result is the date with day and month exchanged. *)
Theorem parse_format_round_trip (fmt : string) (dt : datetime) :
  fmt ∈ date_formats ->
  valid_datetime dt = true ->
  representable fmt dt = true ->
  (fmt <> FMT_MONTH_FIRST \/ 12 < day dt \/ day dt = month dt ->
   parse_date (JStr (spec_format fmt dt)) = Some dt)
  /\ (fmt = FMT_MONTH_FIRST -> day dt <= 12 ->
      parse_date (JStr (spec_format fmt dt)) = Some (swap_day_month dt)).
Proof.
  intros Hfmt Hvalid Hrep. unfold date_formats in Hfmt.
  repeat (apply elem_of_cons in Hfmt as [->|Hfmt]);
    [ | | | | | | | inversion Hfmt].
  - split; [|discriminate]. intros _. unpack_representable Hrep.
    destruct (round_trip_seconds dt Hvalid) as [H _]; [assumption|exact H].
  - split; [|discriminate]. intros _.
    destruct (round_trip_fraction dt Hvalid) as [H _]. exact H.
  - split; [|discriminate]. intros _. unpack_representable Hrep.
    destruct (round_trip_seconds dt Hvalid) as [_ H]; [assumption|exact H].
  - split; [|discriminate]. intros _.
    destruct (round_trip_fraction dt Hvalid) as [_ H]. exact H.
  - split; [|discriminate]. intros _. unpack_representable Hrep.
    exact (round_trip_date dt Hvalid ltac:(assumption) ltac:(assumption)
             ltac:(assumption) ltac:(assumption)).
  - split; [|discriminate]. intros _. unpack_representable Hrep.
    exact (round_trip_day_first dt Hvalid ltac:(assumption) ltac:(assumption)
             ltac:(assumption) ltac:(assumption)).
  - unpack_representable Hrep.
    change "%m/%d/%Y" with FMT_MONTH_FIRST.
    rewrite (parse_month_first dt Hvalid ltac:(assumption) ltac:(assumption)
               ltac:(assumption) ltac:(assumption)).
    split.
    + intros [Hne|[Hlate|Hsame]]; [congruence| |].
      * destruct (Z.leb_spec (day dt) 12); [lia|reflexivity].
      * rewrite (swap_day_month_same dt Hsame).
        destruct (day dt <=? 12); reflexivity.
    + intros _ Hearly.
      destruct (Z.leb_spec (day dt) 12); [reflexivity|lia].
Qed.

Lemma parse_format_round_trip_witness :
  parse_date (JStr (spec_format FMT_MONTH_FIRST date_25_march))
  = Some date_25_march
  /\ parse_date (JStr (spec_format FMT_FRACTION_Z date_25_march))
     = Some date_25_march
  /\ parse_date (JStr (spec_format FMT_MONTH_FIRST date_5_march))
     = Some (swap_day_month date_5_march).
Proof.
  split; [|split].
  - destruct (parse_format_round_trip FMT_MONTH_FIRST date_25_march)
      as [H _];
      [unfold date_formats, FMT_MONTH_FIRST; list_mem
      | reflexivity | reflexivity |].
    apply H. right. left. reflexivity.
  - destruct (parse_format_round_trip FMT_FRACTION_Z date_25_march)
      as [H _];
      [unfold date_formats, FMT_FRACTION_Z; list_mem
      | reflexivity | reflexivity |].
    apply H. left. discriminate.
  - destruct (parse_format_round_trip FMT_MONTH_FIRST date_5_march)
      as [_ H];
      [unfold date_formats, FMT_MONTH_FIRST; list_mem
      | reflexivity | reflexivity |].
    apply H; [reflexivity | discriminate].
Defined.

(* ===================================================================== *)
(** * More on the fetcher                                                *)
(* ===================================================================== *)

Section FetcherRuns.

Variable srv : server.

Lemma delays_small (attempt : Z) :
  0 <= attempt <= 2 ->
  SFleb (rate_limit_delay attempt) SIX_SECONDS = true
  /\ SFleb (fmul_int API_RETRY_DELAY (attempt + 1)) SIX_SECONDS = true.
Proof.
  intros H.
  assert (Hc : attempt = 0 \/ attempt = 1 \/ attempt = 2) by lia.
  destruct Hc as [->|[->| ->]]; split; vm_compute; reflexivity.
Qed.

(** One attempt of [cin7_get] that does not end the call. *)
Lemma cin7_get_loop_next (path : string) (params : gmap string json)
    (attempt : Z) (more : list Z) (last_error : option string) (w : world) :
  0 <= attempt <= 2 ->
  json_body (srv (length (sent w)) (Get path params)) = None ->
  exists le' w1,
    cin7_get_loop srv path params (attempt :: more) last_error w
    = cin7_get_loop srv path params more le' w1
    /\ sent w1 = sent w ++ [Get path params]
    /\ exists ds, slept w1 = slept w ++ ds
                  /\ (length ds <= 1)%nat
                  /\ Forall (fun d => SFleb d SIX_SECONDS = true) ds.
Proof.
  intros Ha Hev. cbn [cin7_get_loop send].
  destruct (delays_small attempt Ha) as [Hrate Hback].
  assert (Hb : forall le' w0,
             sent w0 = sent w ++ [Get path params] -> slept w0 = slept w ->
             exists le'' w1,
               cin7_get_loop srv path params more le' (backoff attempt w0)
               = cin7_get_loop srv path params more le'' w1
               /\ sent w1 = sent w ++ [Get path params]
               /\ exists ds, slept w1 = slept w ++ ds
                             /\ (length ds <= 1)%nat
                             /\ Forall (fun d => SFleb d SIX_SECONDS = true) ds).
  { intros le' w0 Hs Hsl. exists le', (backoff attempt w0).
    split; [reflexivity|]. split; [rewrite sent_backoff; exact Hs|].
    unfold backoff. destruct (attempt <? API_MAX_RETRIES - 1).
    - exists [fmul_int API_RETRY_DELAY (attempt + 1)]. simpl. rewrite Hsl.
      repeat split; [lia | constructor; [exact Hback | constructor]].
    - exists []. rewrite app_nil_r. repeat split; [exact Hsl | simpl; lia | constructor]. }
  destruct (srv (length (sent w)) (Get path params))
    as [status_code text content | msg | msg | msg]; try (apply Hb; reflexivity).
  simpl in Hev. destruct (status_code =? 200).
  - destruct content as [v|msg]; [discriminate Hev|]. apply Hb; reflexivity.
  - destruct (status_code =? 429); [|apply Hb; reflexivity].
    eexists _, _. split; [reflexivity|]. split; [reflexivity|].
    exists [rate_limit_delay attempt]. simpl.
    repeat split; [lia | constructor; [exact Hrate | constructor]].
Qed.

Lemma cin7_get_loop_done (path : string) (params : gmap string json)
    (attempt : Z) (more : list Z) (last_error : option string) (w : world)
    (v : json) :
  json_body (srv (length (sent w)) (Get path params)) = Some v ->
  cin7_get_loop srv path params (attempt :: more) last_error w
  = (v, mk_world (sent w ++ [Get path params]) (slept w)).
Proof.
  intros Hev. cbn [cin7_get_loop send].
  destruct (srv (length (sent w)) (Get path params))
    as [status_code text content | msg | msg | msg]; try discriminate Hev.
  simpl in Hev. destruct content as [v'|msg]; [|discriminate Hev].
  destruct (status_code =? 200); [|discriminate Hev].
  injection Hev as ->. reflexivity.
Qed.

Lemma cin7_get_loop_run (path : string) (params : gmap string json)
    (attempts : list Z) :
  forall (last_error : option string) (w : world),
    attempts <> [] ->
    Forall (fun a => 0 <= a <= 2) attempts ->
    exists (n : nat) (ds : list spec_float),
      (1 <= n <= length attempts)%nat
      /\ sent (cin7_get_loop srv path params attempts last_error w).2
         = sent w ++ replicate n (Get path params)
      /\ slept (cin7_get_loop srv path params attempts last_error w).2
         = slept w ++ ds
      /\ (length ds <= n)%nat
      /\ Forall (fun d => SFleb d SIX_SECONDS = true) ds
      /\ (forall i : nat, (i < n - 1)%nat ->
            json_body (srv (length (sent w) + i)%nat (Get path params)) = None)
      /\ match json_body (srv (length (sent w) + (n - 1))%nat
                            (Get path params)) with
         | Some v => (cin7_get_loop srv path params attempts last_error w).1 = v
         | None =>
             n = length attempts
             /\ (cin7_get_loop srv path params attempts last_error w).1 = JNull
         end.
Proof.
  induction attempts as [|attempt more IH]; intros last_error w Hne Hall;
    [congruence|].
  inversion Hall as [|? ? Ha Hmore]; subst.
  destruct (json_body (srv (length (sent w)) (Get path params)))
    as [v|] eqn:Hev.
  - rewrite (cin7_get_loop_done _ _ _ _ _ _ v Hev).
    exists 1%nat, []. simpl. rewrite app_nil_r, Nat.add_0_r, Hev.
    repeat split; try lia; try constructor.
  - destruct (cin7_get_loop_next path params attempt more last_error w Ha Hev)
      as (le' & w1 & -> & Hs & ds1 & Hsl & Hlen1 & Hsmall1).
    destruct more as [|a2 more'].
    + exists 1%nat, ds1. simpl. rewrite Nat.add_0_r, Hev, Hs, Hsl.
      repeat split; try lia; try assumption.
    + destruct (IH le' w1) as (n & ds & Hn & Hsent & Hslept & Hlen & Hsmall
                              & Hbefore & Hlast); [discriminate | exact Hmore |].
      assert (Hlen1' : length (sent w1) = (length (sent w) + 1)%nat)
        by (rewrite Hs, length_app; reflexivity).
      rewrite Hlen1' in Hbefore, Hlast.
      exists (S n), (ds1 ++ ds).
      split; [simpl in *; lia|].
      split; [rewrite Hsent, Hs, <- app_assoc; reflexivity|].
      split; [rewrite Hslept, Hsl, <- app_assoc; reflexivity|].
      split; [rewrite length_app; lia|].
      split; [apply Forall_app_2; assumption|].
      split.
      * intros i Hi. destruct i as [|i]; [rewrite Nat.add_0_r; exact Hev|].
        replace (length (sent w) + S i)%nat
          with (length (sent w) + 1 + i)%nat by lia.
        apply Hbefore. lia.
      * replace (length (sent w) + (S n - 1))%nat
          with (length (sent w) + 1 + (n - 1))%nat by lia.
        destruct (json_body (srv (length (sent w) + 1 + (n - 1))%nat
                                 (Get path params))); [exact Hlast|].
        destruct Hlast as [-> Hres]. split; [reflexivity | exact Hres].
Qed.

(** X1: a GET ends with the first answer that is a 200 with a body that
    decodes, and returns that body; it sends the same request once per
    attempt, at most three times, and returns [None] only after three
    answers of another kind (or when the body itself is [null]). *)
Theorem cin7_get_first_ok (path : string) (params : gmap string json)
    (w : world) :
  exists n : nat,
    (1 <= n <= 3)%nat
    /\ sent (cin7_get srv path params w).2
       = sent w ++ replicate n (Get path params)
    /\ (forall i : nat, (i < n - 1)%nat ->
          json_body (srv (length (sent w) + i)%nat (Get path params)) = None)
    /\ match json_body (srv (length (sent w) + (n - 1))%nat
                          (Get path params)) with
       | Some v => (cin7_get srv path params w).1 = v
       | None => n = 3%nat /\ (cin7_get srv path params w).1 = JNull
       end.
Proof.
  unfold cin7_get.
  destruct (cin7_get_loop_run path params (range API_MAX_RETRIES) None w)
    as (n & ds & Hn & Hsent & _ & _ & _ & Hbefore & Hlast).
  - discriminate.
  - repeat constructor; lia.
  - exists n. split; [exact Hn|]. split; [exact Hsent|].
    split; [exact Hbefore | exact Hlast].
Qed.


Lemma answers_S (n0 : nat) (rq : request) (k : nat) :
  answers srv n0 rq (S k) = srv n0 rq :: answers srv (n0 + 1) rq k.
Proof.
  unfold answers. cbn [seq map]. rewrite Nat.add_0_r. f_equal.
  rewrite <- seq_shift, map_map. apply map_ext. intros i. f_equal. lia.
Qed.

(** One attempt of [cin7_put] that does not end the call: what it leaves
    in [last_error]. *)
Lemma cin7_put_loop_next (path : string) (payload : json)
    (attempt : Z) (more : list Z) (last_error : option string) (w : world) :
  0 <= attempt <= 2 ->
  put_final (srv (length (sent w)) (Put path payload)) = None ->
  exists w1,
    cin7_put_loop srv path payload (attempt :: more) last_error w
    = cin7_put_loop srv path payload more
        (match put_error (srv (length (sent w)) (Put path payload)) with
         | Some m => Some m
         | None => last_error
         end) w1
    /\ sent w1 = sent w ++ [Put path payload]
    /\ exists ds, slept w1 = slept w ++ ds
                  /\ (length ds <= 1)%nat
                  /\ Forall (fun d => SFleb d SIX_SECONDS = true) ds.
Proof.
  intros Ha Hev. cbn [cin7_put_loop send].
  destruct (delays_small attempt Ha) as [Hrate Hback].
  assert (Hb : forall w0,
             sent w0 = sent w ++ [Put path payload] -> slept w0 = slept w ->
             sent (backoff attempt w0) = sent w ++ [Put path payload]
             /\ exists ds, slept (backoff attempt w0) = slept w ++ ds
                           /\ (length ds <= 1)%nat
                           /\ Forall (fun d => SFleb d SIX_SECONDS = true) ds).
  { intros w0 Hs Hsl. split; [rewrite sent_backoff; exact Hs|].
    unfold backoff. destruct (attempt <? API_MAX_RETRIES - 1).
    - exists [fmul_int API_RETRY_DELAY (attempt + 1)]. simpl. rewrite Hsl.
      repeat split; [lia | constructor; [exact Hback | constructor]].
    - exists []. rewrite app_nil_r.
      repeat split; [exact Hsl | simpl; lia | constructor]. }
  destruct (srv (length (sent w)) (Put path payload))
    as [status_code text content | msg | msg | msg];
    try (eexists; split; [reflexivity | apply Hb; reflexivity]).
  simpl in Hev |- *. destruct (put_success_code status_code); [discriminate Hev|].
  destruct (status_code =? 429).
  - eexists. split; [reflexivity|]. split; [reflexivity|].
    exists [rate_limit_delay attempt]. simpl.
    repeat split; [lia | constructor; [exact Hrate | constructor]].
  - eexists. split; [reflexivity | apply Hb; reflexivity].
Qed.

Lemma cin7_put_loop_done (path : string) (payload : json)
    (attempt : Z) (more : list Z) (last_error : option string) (w : world)
    (content : body) :
  put_final (srv (length (sent w)) (Put path payload)) = Some content ->
  cin7_put_loop srv path payload (attempt :: more) last_error w
  = (put_verdict content, mk_world (sent w ++ [Put path payload]) (slept w)).
Proof.
  intros Hev. cbn [cin7_put_loop send].
  destruct (srv (length (sent w)) (Put path payload))
    as [status_code text content' | msg | msg | msg]; try discriminate Hev.
  simpl in Hev. destruct (put_success_code status_code); [|discriminate Hev].
  injection Hev as ->. reflexivity.
Qed.

Lemma cin7_put_loop_run (path : string) (payload : json)
    (attempts : list Z) :
  forall (last_error : option string) (w : world),
    attempts <> [] ->
    Forall (fun a => 0 <= a <= 2) attempts ->
    exists (n : nat) (ds : list spec_float),
      (1 <= n <= length attempts)%nat
      /\ sent (cin7_put_loop srv path payload attempts last_error w).2
         = sent w ++ replicate n (Put path payload)
      /\ slept (cin7_put_loop srv path payload attempts last_error w).2
         = slept w ++ ds
      /\ (length ds <= n)%nat
      /\ Forall (fun d => SFleb d SIX_SECONDS = true) ds
      /\ (forall i : nat, (i < n - 1)%nat ->
            put_final (srv (length (sent w) + i)%nat (Put path payload)) = None)
      /\ match put_final (srv (length (sent w) + (n - 1))%nat
                            (Put path payload)) with
         | Some content =>
             (cin7_put_loop srv path payload attempts last_error w).1
             = put_verdict content
         | None =>
             n = length attempts
             /\ (cin7_put_loop srv path payload attempts last_error w).1
                = Ok (PutFailure
                        (last_some last_error
                           (map put_error
                              (answers srv (length (sent w))
                                 (Put path payload) n))))
         end.
Proof.
  induction attempts as [|attempt more IH]; intros last_error w Hne Hall;
    [congruence|].
  inversion Hall as [|? ? Ha Hmore]; subst.
  destruct (put_final (srv (length (sent w)) (Put path payload)))
    as [content|] eqn:Hev.
  - rewrite (cin7_put_loop_done _ _ _ _ _ _ content Hev).
    exists 1%nat, []. simpl. rewrite app_nil_r, Nat.add_0_r, Hev.
    repeat split; try lia; try constructor.
  - destruct (cin7_put_loop_next path payload attempt more last_error w Ha Hev)
      as (w1 & -> & Hs & ds1 & Hsl & Hlen1 & Hsmall1).
    destruct more as [|a2 more'].
    + exists 1%nat, ds1. cbn [cin7_put_loop fst snd length Nat.sub].
      rewrite Nat.add_0_r, Hev, Hs, Hsl.
      repeat split; try lia; try assumption.
      unfold answers, last_some. simpl. rewrite Nat.add_0_r. reflexivity.
    + destruct (IH (match put_error (srv (length (sent w)) (Put path payload)) with
                    | Some m => Some m
                    | None => last_error
                    end) w1)
        as (n & ds & Hn & Hsent & Hslept & Hlen & Hsmall & Hbefore & Hlast);
        [discriminate | exact Hmore |].
      assert (Hlen1' : length (sent w1) = (length (sent w) + 1)%nat)
        by (rewrite Hs, length_app; reflexivity).
      rewrite Hlen1' in Hbefore, Hlast.
      exists (S n), (ds1 ++ ds).
      split; [simpl in *; lia|].
      split; [rewrite Hsent, Hs, <- app_assoc; reflexivity|].
      split; [rewrite Hslept, Hsl, <- app_assoc; reflexivity|].
      split; [rewrite length_app; lia|].
      split; [apply Forall_app_2; assumption|].
      split.
      * intros i Hi. destruct i as [|i]; [rewrite Nat.add_0_r; exact Hev|].
        replace (length (sent w) + S i)%nat
          with (length (sent w) + 1 + i)%nat by lia.
        apply Hbefore. lia.
      * replace (length (sent w) + (S n - 1))%nat
          with (length (sent w) + 1 + (n - 1))%nat by lia.
        destruct (put_final (srv (length (sent w) + 1 + (n - 1))%nat
                                 (Put path payload))); [exact Hlast|].
        destruct Hlast as [-> Hres]. split; [reflexivity|].
        rewrite Hres, answers_S. reflexivity.
Qed.

(** X2: a PUT ends with the first answer 200, 201 or 204, and its result is
    then read off the body of that answer alone; otherwise it makes three
    attempts and reports the error of the last attempt that was not
    rate-limited, and no error text at all when all three were. *)
Theorem cin7_put_outcome (path : string) (data : json) (w : world) :
  let rq := Put path (put_payload data) in
  exists n : nat,
    (1 <= n <= 3)%nat
    /\ sent (cin7_put srv path data w).2 = sent w ++ replicate n rq
    /\ (forall i : nat, (i < n - 1)%nat ->
          put_final (srv (length (sent w) + i)%nat rq) = None)
    /\ match put_final (srv (length (sent w) + (n - 1))%nat rq) with
       | Some content => (cin7_put srv path data w).1 = put_verdict content
       | None =>
           n = 3%nat
           /\ (cin7_put srv path data w).1
              = Ok (PutFailure
                      (last_some None
                         (map put_error (answers srv (length (sent w)) rq 3))))
       end.
Proof.
  intros rq. unfold cin7_put.
  destruct (cin7_put_loop_run path (put_payload data) (range API_MAX_RETRIES)
              None w)
    as (n & ds & Hn & Hsent & _ & _ & _ & Hbefore & Hlast).
  - discriminate.
  - repeat constructor; lia.
  - exists n. split; [exact Hn|]. split; [exact Hsent|].
    split; [exact Hbefore|].
    fold rq in Hlast.
    destruct (put_final (srv (length (sent w) + (n - 1))%nat rq));
      [exact Hlast|].
    destruct Hlast as [Hn3 Hres]. split; [exact Hn3|].
    rewrite Hres, Hn3. reflexivity.
Qed.

(** X3: the waiting of one call is bounded: a GET and a PUT sleep at most
    once per request they send, so at most three times, and never longer
    than six seconds at a time. *)
Theorem retry_sleep_budget (path : string) (params : gmap string json)
    (data : json) (w : world) :
  (exists ds : list spec_float,
      slept (cin7_get srv path params w).2 = slept w ++ ds
      /\ (length ds + length (sent w)
          <= length (sent (cin7_get srv path params w).2))%nat
      /\ (length ds <= 3)%nat
      /\ Forall (fun d => SFleb d SIX_SECONDS = true) ds)
  /\ (exists ds : list spec_float,
        slept (cin7_put srv path data w).2 = slept w ++ ds
        /\ (length ds + length (sent w)
            <= length (sent (cin7_put srv path data w).2))%nat
        /\ (length ds <= 3)%nat
        /\ Forall (fun d => SFleb d SIX_SECONDS = true) ds).
Proof.
  split.
  - unfold cin7_get.
    destruct (cin7_get_loop_run path params (range API_MAX_RETRIES) None w)
      as (n & ds & Hn & Hsent & Hslept & Hlen & Hsmall & _);
      [discriminate | repeat constructor; lia |].
    exists ds. split; [exact Hslept|].
    rewrite Hsent, length_app, length_replicate.
    simpl in Hn. repeat split; [lia | lia | exact Hsmall].
  - unfold cin7_put.
    destruct (cin7_put_loop_run path (put_payload data)
                (range API_MAX_RETRIES) None w)
      as (n & ds & Hn & Hsent & Hslept & Hlen & Hsmall & _);
      [discriminate | repeat constructor; lia |].
    exists ds. split; [exact Hslept|].
    rewrite Hsent, length_app, length_replicate.
    simpl in Hn. repeat split; [lia | lia | exact Hsmall].
Qed.

End FetcherRuns.

(* ===================================================================== *)
(** * The stage endpoint                                                 *)
(* ===================================================================== *)

Section StageEndpointFacts.

Variable py_str : json -> string.
Variable srv : server.

Lemma valid_move_None_dict (d : gmap string json) (s : string) :
  valid_move (JDict d) = None ->
  d !! "stage" = Some (JStr s) ->
  s ∉ KICKPLATE_STAGES.
Proof.
  unfold valid_move. intros H Hs. rewrite Hs in H.
  destruct (bool_decide (s ∈ KICKPLATE_STAGES)) eqn:Hd; [discriminate H|].
  apply bool_decide_eq_false in Hd. exact Hd.
Qed.

Lemma api_update_stage_invalid (order_id : Z) (data : json) (w : world) :
  valid_move data = None ->
  (api_update_stage py_str srv order_id data w).2 = w
  /\ stage_status (api_update_stage py_str srv order_id data w).1 <> Some 200.
Proof.
  intros Hv. unfold api_update_stage.
  destruct (negb (truthy data)); [split; [reflexivity | discriminate]|].
  destruct (stage_in data) as [[|]|e]; try (split; [reflexivity | discriminate]).
  destruct data as [| | | | | |d]; try (split; [reflexivity | discriminate]).
  unfold dict_get, update_order_stage_value.
  destruct (d !! "stage") as [v|] eqn:Hs; simpl;
    [|split; [reflexivity | discriminate]].
  destruct v as [| | | |s| |]; try (split; [reflexivity | discriminate]).
  pose proof (valid_move_None_dict d s Hv Hs) as Hnin.
  unfold update_order_stage.
  rewrite bool_decide_eq_false_2 by exact Hnin.
  split; [reflexivity | discriminate].
Qed.

(** X4: a body that does not name one of the four stages under the key
    [stage] never reaches the remote system: no request is sent, nothing
    is slept, and the answer is not a 200. *)
Theorem api_update_stage_rejects_offline (order_id : Z) (data : json)
    (w : world) :
  valid_move data = None ->
  (api_update_stage py_str srv order_id data w).2 = w
  /\ stage_status (api_update_stage py_str srv order_id data w).1 <> Some 200.
Proof. exact (api_update_stage_invalid order_id data w). Qed.


Lemma valid_move_Some (data : json) (s : string) :
  valid_move data = Some s ->
  exists d, data = JDict d /\ d !! "stage" = Some (JStr s)
            /\ s ∈ KICKPLATE_STAGES.
Proof.
  destruct data as [| | | | | |d]; try discriminate. simpl.
  destruct (d !! "stage") as [[| | | |s'| |]|] eqn:Hs; try discriminate.
  destruct (bool_decide (s' ∈ KICKPLATE_STAGES)) eqn:Hd; [|discriminate].
  intros H. injection H as ->. apply bool_decide_eq_true in Hd.
  exists d. split; [reflexivity|]. split; [exact Hs | exact Hd].
Qed.

(** The endpoint on a body that asks for a move to a known stage: the
    PUT of the one-element list, and the answer read off its result. *)
Lemma api_update_stage_valid (order_id : Z) (data : json) (w : world)
    (s : string) :
  valid_move data = Some s ->
  api_update_stage py_str srv order_id data w
  = let '(result, w1) :=
      cin7_put_loop srv "/SalesOrders"
        (JList [JDict (<["id" := JInt order_id]> (<["stage" := JStr s]> ∅))])
        (range API_MAX_RETRIES) None w in
    match result with
    | Ok PutSuccess =>
        (StageAnswer 200
           (<["success" := JBool true]>
              (<["orderId" := JInt order_id]>
                 (<["newStage" := JStr s]> ∅))), w1)
    | Ok (PutFailure error) =>
        (StageAnswer 500
           (<["success" := JBool false]>
              (<["error" := match error with
                            | Some msg => JStr msg
                            | None => JNull
                            end]>
                 (<["orderId" := JInt order_id]> ∅))), w1)
    | Raise e => (StageCrash e, w1)
    end.
Proof.
  intros Hv. apply valid_move_Some in Hv as (d & -> & Hs & Hin).
  unfold api_update_stage.
  assert (Ht : truthy (JDict d) = true).
  { simpl. apply negb_true_iff, bool_decide_eq_false. intros ->.
    rewrite lookup_empty in Hs. discriminate Hs. }
  rewrite Ht. simpl negb. cbv iota.
  unfold stage_in. rewrite bool_decide_eq_true_2 by (rewrite Hs; eauto).
  unfold dict_get. rewrite Hs. simpl default.
  unfold update_order_stage_value, update_order_stage.
  rewrite bool_decide_eq_true_2 by exact Hin.
  reflexivity.
Qed.

(** X5: the endpoint answers 200 only after the remote system has accepted
    the change: the body named one of the four stages, the PUT of
    [[{id, stage}]] was sent between one and three times, and the answer
    to the last sending was a 200, 201 or 204 whose body reports no
    failure.  The 200 repeats the order and the stage. *)
Theorem api_update_stage_success_accepted (order_id : Z) (data : json)
    (w w' : world) (answer : gmap string json) :
  api_update_stage py_str srv order_id data w = (StageAnswer 200 answer, w') ->
  exists s : string,
    valid_move data = Some s
    /\ answer = <["success" := JBool true]>
                  (<["orderId" := JInt order_id]>
                     (<["newStage" := JStr s]> ∅))
    /\ exists (n : nat) (content : body),
         (1 <= n <= 3)%nat
         /\ sent w' = sent w ++ replicate n (stage_request order_id s)
         /\ put_final (srv (length (sent w) + (n - 1))%nat
                           (stage_request order_id s)) = Some content
         /\ put_verdict content = Ok PutSuccess.
Proof.
  intros H.
  destruct (valid_move data) as [s|] eqn:Hv.
  - exists s. split; [reflexivity|].
    rewrite (api_update_stage_valid order_id data w s Hv) in H.
    destruct (cin7_put_loop_run srv "/SalesOrders"
                (JList [JDict (<["id" := JInt order_id]>
                                 (<["stage" := JStr s]> ∅))])
                (range API_MAX_RETRIES) None w)
      as (n & ds & Hn & Hsent & _ & _ & _ & _ & Hlast);
      [discriminate | repeat constructor; lia |].
    destruct (cin7_put_loop srv "/SalesOrders" _ (range API_MAX_RETRIES) None w)
      as [result w1].
    destruct result as [[|error]|e]; try discriminate H.
    injection H as <- <-. split; [reflexivity|].
    simpl in Hsent, Hlast, Hn.
    fold (stage_request order_id s) in Hsent, Hlast.
    destruct (put_final (srv (length (sent w) + (n - 1))%nat
                             (stage_request order_id s))) as [content|] eqn:Hpf.
    + exists n, content. split; [lia|]. split; [exact Hsent|].
      split; [exact Hpf | symmetry; exact Hlast].
    + destruct Hlast as [_ Hres]. discriminate Hres.
  - destruct (api_update_stage_invalid order_id data w Hv) as [_ Hst].
    rewrite H in Hst. contradiction Hst. reflexivity.
Qed.

(** X6: a move to a known stage that gets no 200, 201 or 204 in three
    attempts is answered with a 500 whose [error] is the text of the last
    attempt that was not rate-limited; when all three answers were 429
    the entry is [null] (the key is there, so the fallback text
    [Unknown error] of line 386 is not used). *)
Theorem api_update_stage_failure_error (order_id : Z) (data : json)
    (w : world) (s : string) :
  valid_move data = Some s ->
  (forall i : nat, (i < 3)%nat ->
     put_final (srv (length (sent w) + i)%nat (stage_request order_id s))
     = None) ->
  let error :=
    last_some None
      (map put_error
         (answers srv (length (sent w)) (stage_request order_id s) 3)) in
  (api_update_stage py_str srv order_id data w).1
  = StageAnswer 500
      (<["success" := JBool false]>
         (<["error" := match error with
                       | Some msg => JStr msg
                       | None => JNull
                       end]>
            (<["orderId" := JInt order_id]> ∅)))
  /\ sent (api_update_stage py_str srv order_id data w).2
     = sent w ++ replicate 3 (stage_request order_id s)
  /\ ((forall i : nat, (i < 3)%nat ->
         status_of (srv (length (sent w) + i)%nat (stage_request order_id s))
         = Some 429) ->
      error = None).
Proof.
  intros Hv Hfail error.
  rewrite (api_update_stage_valid order_id data w s Hv).
  destruct (cin7_put_loop_run srv "/SalesOrders"
              (JList [JDict (<["id" := JInt order_id]>
                               (<["stage" := JStr s]> ∅))])
              (range API_MAX_RETRIES) None w)
    as (n & ds & Hn & Hsent & _ & _ & _ & _ & Hlast);
    [discriminate | repeat constructor; lia |].
  simpl in Hn. fold (stage_request order_id s) in Hsent, Hlast.
  rewrite (Hfail (n - 1)%nat) in Hlast by lia.
  destruct Hlast as [Hn3 Hres]. simpl in Hn3. subst n.
  destruct (cin7_put_loop srv "/SalesOrders" _ (range API_MAX_RETRIES) None w)
    as [result w1].
  simpl in Hres, Hsent. subst result.
  split; [reflexivity|]. split; [exact Hsent|].
  intros H429. unfold error, answers. simpl.
  assert (He : forall i : nat, (i < 3)%nat ->
            put_error (srv (length (sent w) + i)%nat (stage_request order_id s))
            = None).
  { intros i Hi. specialize (H429 i Hi).
    destruct (srv (length (sent w) + i)%nat (stage_request order_id s));
      try discriminate H429.
    injection H429 as ->. reflexivity. }
  rewrite !He by lia. reflexivity.
Qed.

End StageEndpointFacts.

Lemma api_update_stage_rejects_offline_witness :
  (api_update_stage no_str srv_list_of_number 7 move_to_unknown world0).2
  = world0.
Proof.
  apply (api_update_stage_rejects_offline no_str srv_list_of_number 7
           move_to_unknown world0).
  vm_compute. reflexivity.
Defined.

Lemma api_update_stage_success_accepted_witness :
  valid_move move_to_processing = Some "Kickplate - Processing"
  /\ sent (api_update_stage no_str (srv_const ok_empty_list) 7
             move_to_processing world0).2
     = [stage_request 7 "Kickplate - Processing"].
Proof.
  destruct (api_update_stage_success_accepted no_str (srv_const ok_empty_list)
              7 move_to_processing world0
              (api_update_stage no_str (srv_const ok_empty_list) 7
                 move_to_processing world0).2
              (<["success" := JBool true]>
                 (<["orderId" := JInt 7]>
                    (<["newStage" := JStr "Kickplate - Processing"]> ∅))))
    as (s & Hv & _ & _).
  - vm_compute. reflexivity.
  - split; [vm_compute; reflexivity | vm_compute; reflexivity].
Defined.

Lemma api_update_stage_failure_error_witness :
  (api_update_stage no_str srv_three_429 7 move_to_processing world0).1
  = StageAnswer 500
      (<["success" := JBool false]>
         (<["error" := JNull]> (<["orderId" := JInt 7]> ∅))).
Proof.
  destruct (api_update_stage_failure_error no_str srv_three_429 7
              move_to_processing world0 "Kickplate - Processing")
    as (Hanswer & _ & Hnull).
  - vm_compute. reflexivity.
  - intros i Hi.
    destruct i as [|[|[|i]]]; [reflexivity | reflexivity | reflexivity | lia].
  - rewrite Hanswer, Hnull; [reflexivity|].
    intros i Hi.
    destruct i as [|[|[|i]]]; [reflexivity | reflexivity | reflexivity | lia].
Defined.

(* ===================================================================== *)
(** * More on the board                                                  *)
(* ===================================================================== *)

Section BoardRuns.

Variable float_of_str : string -> option spec_float.
Variable srv : server.
Variable today : date.

(** X7: [daysOverdue] is never negative, and it is positive exactly for the
    overdue orders. *)
Theorem days_overdue_sign (order : json) (p : processed) :
  process_order float_of_str today order = Ok (Some p) ->
  0 <= daysOverdue p /\ (isOverdue p = true <-> 0 < daysOverdue p).
Proof.
  intros H.
  apply process_order_Some in H as (o & _ & _ & _ & _ & Hf & _).
  unfold flags in Hf.
  destruct (parse_date (field o "EstimatedDeliveryDate")) as [dt|].
  - unfold classify in Hf.
    destruct (Z.ltb_spec (days_between (date_of dt) today) 0) as [Hneg|Hpos].
    + injection Hf as -> _ _ ->. split; [lia|]. split; [lia | reflexivity].
    + destruct (days_between (date_of dt) today <=? DUE_SOON_DAYS);
        injection Hf as -> _ _ ->; (split; [lia|]); split;
        (discriminate || lia).
  - injection Hf as -> _ _ ->. split; [lia|]. split; (discriminate || lia).
Qed.


Lemma sum_line_items_not_object (items : list json) (item : json) :
  item ∈ items -> (forall d, item <> JDict d) ->
  forall qty_total, exists e,
    sum_line_items float_of_str items qty_total = Raise e.
Proof.
  intros Hin Hno. induction items as [|x items IH]; [inversion Hin|].
  intros qty_total. apply elem_of_cons in Hin as [<-|Hin].
  - destruct item as [| | | | | |d]; try (eexists; reflexivity).
    exfalso. apply (Hno d). reflexivity.
  - cbn [sum_line_items]. destruct x as [| | | | | |d]; try (eexists; reflexivity).
    destruct (f ← py_float float_of_str (line_qty d); add_float qty_total f)
      as [total|[]]; try apply (IH Hin); eexists; reflexivity.
Qed.

Lemma process_order_bad_item (o : gmap string json) (s : string) (item : json) :
  is_void (JDict o) = false ->
  py_or (field o "Stage") (JStr "") = JStr s ->
  String.prefix KICKPLATE_STAGE_PREFIX s = true ->
  item ∈ line_items o -> (forall d, item <> JDict d) ->
  exists e, process_order float_of_str today (JDict o) = Raise e.
Proof.
  intros Hvoid Hstage Hprefix Hin Hno.
  destruct (process_order float_of_str today (JDict o)) as [r|e] eqn:H;
    [|eexists; reflexivity].
  exfalso.
  destruct (process_order_kept float_of_str today o s r H Hvoid Hstage Hprefix)
    as (p & -> & _).
  apply process_order_Some in H as (o' & Ho & _ & _ & _ & _ & _ & n & Hsum & _).
  injection Ho as <-.
  destruct (sum_line_items_not_object (line_items o) item Hin Hno (NInt 0))
    as [e He].
  rewrite He in Hsum. discriminate Hsum.
Qed.

(** What [process_all] raises is what the first record that cannot be
    normalised raises; the records after it are not looked at. *)
Lemma process_all_Raise (raws : list json) (e : exn) :
  forall acc,
    process_all float_of_str today raws acc = Raise e
    <-> exists l1 raw l2,
          raws = l1 ++ raw :: l2
          /\ Forall (fun r => exists x,
                       process_order float_of_str today r = Ok x) l1
          /\ process_order float_of_str today raw = Raise e.
Proof.
  induction raws as [|raw raws IH]; intros acc.
  - split; [discriminate|].
    intros (l1 & r & l2 & Hl & _). destruct l1; discriminate Hl.
  - cbn [process_all].
    destruct (process_order float_of_str today raw) as [x|e'] eqn:Hp.
    + assert (Hrest : forall acc',
                process_all float_of_str today raws acc' = Raise e
                <-> exists l1 raw0 l2,
                      raw :: raws = l1 ++ raw0 :: l2
                      /\ Forall (fun r => exists x,
                                   process_order float_of_str today r = Ok x) l1
                      /\ process_order float_of_str today raw0 = Raise e).
      { intros acc'. rewrite IH. split.
        - intros (l1 & r & l2 & -> & Hall & Hr).
          exists (raw :: l1), r, l2. split; [reflexivity|].
          split; [constructor; eauto | exact Hr].
        - intros (l1 & r & l2 & Hl & Hall & Hr).
          destruct l1 as [|y l1].
          + injection Hl as <- _. congruence.
          + injection Hl as <- ->. inversion Hall; subst.
            exists l1, r, l2. split; [reflexivity|]. split; assumption. }
      simpl. destruct x as [p|]; apply Hrest.
    + simpl. split.
      * intros H. injection H as ->. exists [], raw, raws.
        split; [reflexivity|]. split; [constructor | exact Hp].
      * intros (l1 & r & l2 & Hl & Hall & Hr).
        destruct l1 as [|y l1].
        -- injection Hl as <- _. congruence.
        -- injection Hl as <- _. inversion Hall as [|? ? [x Hx] ?]; subst.
           congruence.
Qed.

Lemma api_jobs_fst (w : world) :
  (api_jobs float_of_str srv today w).1
  = match process_all float_of_str today (fetch_all srv w).1 [] with
    | Ok orders => Jobs (group_orders orders) (Z.of_nat (length orders))
    | Raise e => ServerError e
    end.
Proof.
  unfold api_jobs, fetch_kickplate_orders.
  destruct (fetch_all srv w) as [all_orders w1]. simpl.
  destruct (process_all float_of_str today all_orders []); reflexivity.
Qed.

Lemma api_jobs_snd (w : world) :
  (api_jobs float_of_str srv today w).2 = (fetch_all srv w).2.
Proof.
  unfold api_jobs, fetch_kickplate_orders.
  destruct (fetch_all srv w) as [all_orders w1]. simpl.
  destruct (process_all float_of_str today all_orders []); reflexivity.
Qed.

(** X9: the board is all or nothing: [api_jobs] answers with the error [e]
    exactly when some fetched record raises [e] while the records before
    it are normalised or skipped; one such record hides every order. *)
Theorem api_jobs_first_failure (w : world) (e : exn) :
  (api_jobs float_of_str srv today w).1 = ServerError e
  <-> exists l1 raw l2,
        (fetch_all srv w).1 = l1 ++ raw :: l2
        /\ Forall (fun r => exists x,
                     process_order float_of_str today r = Ok x) l1
        /\ process_order float_of_str today raw = Raise e.
Proof.
  rewrite api_jobs_fst, <- (process_all_Raise _ e []).
  destruct (process_all float_of_str today (fetch_all srv w).1 []) as [x|e'].
  - split; discriminate.
  - split; intros H; injection H as ->; reflexivity.
Qed.

(** X10: a line item that is not an object, in a record that is not void and
    has a kickplate stage, makes [api_jobs] fail as a whole. *)
Theorem non_object_line_item_fails_board (w : world) (o : gmap string json)
    (s : string) (item : json) :
  JDict o ∈ (fetch_all srv w).1 ->
  is_void (JDict o) = false ->
  py_or (field o "Stage") (JStr "") = JStr s ->
  String.prefix KICKPLATE_STAGE_PREFIX s = true ->
  item ∈ line_items o ->
  (forall d, item <> JDict d) ->
  exists e, (api_jobs float_of_str srv today w).1 = ServerError e.
Proof.
  intros Hraw Hvoid Hstage Hprefix Hin Hno.
  rewrite api_jobs_fst.
  destruct (process_all float_of_str today (fetch_all srv w).1 [])
    as [orders|e] eqn:Hp; [|eexists; reflexivity].
  exfalso. apply process_all_spec in Hp as [_ Hall].
  destruct (Hall _ Hraw) as [r Hr].
  destruct (process_order_bad_item o s item Hvoid Hstage Hprefix Hin Hno)
    as [e He].
  rewrite He in Hr. discriminate Hr.
Qed.

(** X11: every answer of [api_jobs] has the four columns, an empty one
    included, and a column holds the normalised orders of its stage in
    the order in which they were fetched. *)
Theorem board_columns_in_fetch_order (w w' : world)
    (jobs : gmap string (list processed)) (total : Z) :
  api_jobs float_of_str srv today w = (Jobs jobs total, w') ->
  let orders := omap (normalised float_of_str today) (fetch_all srv w).1 in
  dom jobs = list_to_set KICKPLATE_STAGES
  /\ forall st, st ∈ KICKPLATE_STAGES ->
       exists l, jobs !! st = Some l
                 /\ l = filter (fun p => stage p = st) orders
                 /\ sublist l orders.
Proof.
  intros H orders. apply api_jobs_Jobs in H as (Hjobs & _ & _).
  cbv zeta in Hjobs. fold orders in Hjobs. subst jobs. split.
  - apply set_eq. intros st. rewrite elem_of_dom, elem_of_list_to_set.
    rewrite group_orders_lookup.
    destruct (decide (st ∈ KICKPLATE_STAGES)) as [Hin|Hnin].
    + split; [intros _; exact Hin | intros _; eauto].
    + split; [intros [x Hx]; discriminate Hx | contradiction].
  - intros st Hin. exists (filter (fun p => stage p = st) orders).
    rewrite group_orders_lookup.
    destruct (decide (st ∈ KICKPLATE_STAGES)); [|contradiction].
    split; [reflexivity|]. split; [reflexivity|]. apply sublist_filter.
Qed.

Lemma fetch_all_outage (w : world) :
  (forall i : nat, (i < 3)%nat ->
     json_body (srv (length (sent w) + i)%nat
                    (Get "/SalesOrders" (page_params 1))) = None) ->
  (fetch_all srv w).1 = []
  /\ sent (fetch_all srv w).2
     = sent w ++ replicate 3 (Get "/SalesOrders" (page_params 1)).
Proof.
  intros Hdown.
  destruct (cin7_get_loop_run srv "/SalesOrders" (page_params 1)
              (range API_MAX_RETRIES) None w)
    as (n & ds & Hn & Hsent & _ & _ & _ & _ & Hlast);
    [discriminate | repeat constructor; lia |].
  change (length (range API_MAX_RETRIES)) with 3%nat in Hn, Hlast.
  rewrite (Hdown (n - 1)%nat) in Hlast by lia.
  destruct Hlast as [Hn3 Hres]. subst n.
  fold (cin7_get srv "/SalesOrders" (page_params 1) w) in Hsent, Hres.
  assert (Hfetch : fetch_all srv w
                   = ([], (cin7_get srv "/SalesOrders" (page_params 1) w).2)).
  { unfold fetch_all.
    rewrite (fetch_pages_step srv 99 1 [] w
               (cin7_get srv "/SalesOrders" (page_params 1) w).2 JNull);
      [reflexivity | lia |].
    rewrite <- Hres. apply surjective_pairing. }
  rewrite Hfetch. split; [reflexivity | exact Hsent].
Qed.

(** X12: when none of the three requests for page 1 is answered by a 200
    that decodes, [api_jobs] does not report an error: it answers with
    four empty columns and the count 0, after exactly these three
    requests. *)
Theorem outage_gives_empty_board (w : world) :
  (forall i : nat, (i < 3)%nat ->
     json_body (srv (length (sent w) + i)%nat
                    (Get "/SalesOrders" (page_params 1))) = None) ->
  (api_jobs float_of_str srv today w).1 = Jobs empty_groups 0
  /\ sent (api_jobs float_of_str srv today w).2
     = sent w ++ replicate 3 (Get "/SalesOrders" (page_params 1)).
Proof.
  intros Hdown.
  destruct (fetch_all_outage w Hdown) as [Hnone Hsent].
  rewrite api_jobs_fst, api_jobs_snd, Hnone.
  cbn [process_all].
  split; [reflexivity | exact Hsent].
Qed.

Lemma get_pages_sent (pages : list Z) :
  forall w : world,
    exists rqs : list request,
      sent (get_pages srv pages w).2 = sent w ++ rqs
      /\ (length rqs <= 3 * length pages)%nat
      /\ Forall (fun rq => exists page,
                   page ∈ pages
                   /\ rq = Get "/SalesOrders" (page_params page)) rqs.
Proof.
  induction pages as [|page pages IH]; intros w.
  - exists []. cbn [get_pages snd length]. rewrite app_nil_r.
    split; [reflexivity|]. split; [lia | constructor].
  - cbn [get_pages].
    destruct (cin7_get_loop_run srv "/SalesOrders" (page_params page)
                (range API_MAX_RETRIES) None w)
      as (n & ds & Hn & Hsent & _);
      [discriminate | repeat constructor; lia |].
    change (length (range API_MAX_RETRIES)) with 3%nat in Hn.
    fold (cin7_get srv "/SalesOrders" (page_params page) w) in Hsent.
    destruct (cin7_get srv "/SalesOrders" (page_params page) w) as [r w1].
    cbn [snd] in Hsent.
    destruct (IH w1) as (rqs & Hrqs & Hlen & Hall).
    destruct (get_pages srv pages w1) as [rs w2]. cbn [snd length] in Hrqs |- *.
    exists (replicate n (Get "/SalesOrders" (page_params page)) ++ rqs).
    split; [rewrite Hrqs, Hsent, <- app_assoc; reflexivity|].
    split; [rewrite length_app, length_replicate; lia|].
    apply Forall_app_2.
    + apply Forall_forall. intros rq Hrq.
      apply elem_of_replicate in Hrq as [-> _].
      exists page. split; [apply list_elem_of_here | reflexivity].
    + eapply Forall_impl; [exact Hall|].
      intros rq (pg & Hpg & ->). exists pg.
      split; [apply list_elem_of_further; exact Hpg | reflexivity].
Qed.

Lemma elem_of_pages_from (n : nat) :
  forall page p, p ∈ pages_from page n -> page <= p < page + Z.of_nat n.
Proof.
  induction n as [|n IH]; intros page p Hin; [inversion Hin|].
  cbn [pages_from] in Hin. apply elem_of_cons in Hin as [->|Hin]; [lia|].
  apply IH in Hin. lia.
Qed.

Lemma pages_from_length (n : nat) :
  forall page, length (pages_from page n) = n.
Proof.
  induction n as [|n IH]; intros page; [reflexivity|].
  cbn [pages_from length]. rewrite IH. reflexivity.
Qed.

(** X13: reading the board never writes: what [api_jobs] puts on the
    wire is at most 300 requests, each a GET of [/SalesOrders] for a page
    from 1 to 100, and no PUT. *)
Theorem fetch_cycle_requests (w : world) :
  exists rqs : list request,
    sent (api_jobs float_of_str srv today w).2 = sent w ++ rqs
    /\ (length rqs <= 300)%nat
    /\ Forall (fun rq => exists page,
                 1 <= page <= 100
                 /\ rq = Get "/SalesOrders" (page_params page)) rqs.
Proof.
  rewrite api_jobs_snd. unfold fetch_all.
  destruct (fetch_pages_run srv 100 1 [] w)
    as (n & rs & Hn & _ & Hrun & _); [lia | lia |].
  destruct (get_pages_sent (pages_from 1 n) w) as (rqs & Hsent & Hlen & Hall).
  rewrite Hrun in Hsent. rewrite pages_from_length in Hlen.
  destruct (fetch_pages srv 100 1 [] w) as [all_orders w1].
  cbn [snd] in Hsent |- *.
  exists rqs. split; [exact Hsent|]. split; [lia|].
  eapply Forall_impl; [exact Hall|].
  intros rq (pg & Hpg & ->). exists pg. split; [|reflexivity].
  apply elem_of_pages_from in Hpg. lia.
Qed.

End BoardRuns.

Lemma days_overdue_sign_witness :
  0 <= daysOverdue p_new /\ (isOverdue p_new = true <-> 0 < daysOverdue p_new).
Proof.
  apply (days_overdue_sign no_float_text today_sample raw_new p_new).
  vm_compute. reflexivity.
Defined.


Lemma non_object_line_item_fails_board_witness :
  exists e,
    (api_jobs no_float_text srv_bad_item today_sample world0).1 = ServerError e.
Proof.
  apply (non_object_line_item_fails_board no_float_text srv_bad_item
           today_sample world0
           (<["Id" := JInt 9]>
              (<["Stage" := JStr "Kickplate - New"]>
                 (<["LineItems" := JList [JInt 5]]> ∅)))
           "Kickplate - New" (JInt 5)).
  - change ((fetch_all srv_bad_item world0).1) with [raw_new; raw_bad_item].
    apply list_elem_of_further, list_elem_of_here.
  - vm_compute. reflexivity.
  - vm_compute. reflexivity.
  - vm_compute. reflexivity.
  - change (line_items _) with [JInt 5]. apply list_elem_of_here.
  - intros d. discriminate.
Defined.

Lemma board_columns_in_fetch_order_witness :
  exists l,
    group_orders [p_new; p_archived] !! "Kickplate - New" = Some l
    /\ l = filter (fun p => stage p = "Kickplate - New")
             (omap (normalised no_float_text today_sample)
                (fetch_all srv_board world0).1)
    /\ sublist l (omap (normalised no_float_text today_sample)
                    (fetch_all srv_board world0).1).
Proof.
  destruct (board_columns_in_fetch_order no_float_text srv_board today_sample
              world0 _ _ _ api_jobs_sample) as [_ H].
  apply H. list_mem.
Defined.

Lemma outage_gives_empty_board_witness :
  (api_jobs no_float_text (srv_const service_unavailable) today_sample
     world0).1 = Jobs empty_groups 0.
Proof.
  destruct (outage_gives_empty_board no_float_text
              (srv_const service_unavailable) today_sample world0) as [H _].
  - intros i Hi. reflexivity.
  - exact H.
Defined.

(* ===================================================================== *)
(** * More on [parse_date]                                               *)
(* ===================================================================== *)




Lemma parse_date_cleaned (s : string) :
  parse_date (JStr s)
  = first_some (strptime (cleaned s))
      (map list_ascii_of_string
         [FMT_SECONDS; FMT_FRACTION; FMT_SECONDS; FMT_FRACTION; FMT_DATE;
          FMT_DAY_FIRST; FMT_MONTH_FIRST]).
Proof.
  unfold parse_date, cleaned.
  rewrite (first_some_map
             (strptime (rstrip "Z" (remove_all (list_ascii_of_string "+00:00")
                                      0 (list_ascii_of_string s))))
             (fun fmt => rstrip "Z" (list_ascii_of_string fmt))).
  reflexivity.
Qed.

(** X15: the two formats that end in [Z] add nothing: the [Z] is stripped
    from the text and from the format alike, so they repeat the first
    two, and [parse_date] gives the same result without them. *)
Theorem z_formats_are_redundant (s : string) :
  parse_date (JStr s)
  = first_some (fun fmt => strptime (cleaned s) (list_ascii_of_string fmt))
      date_formats_without_Z.
Proof.
  rewrite parse_date_cleaned. unfold date_formats_without_Z.
  cbn [first_some map].
  destruct (strptime (cleaned s) (list_ascii_of_string FMT_SECONDS));
    [reflexivity|].
  destruct (strptime (cleaned s) (list_ascii_of_string FMT_FRACTION));
    reflexivity.
Qed.

Lemma list_ascii_of_string_app (s t : string) :
  list_ascii_of_string (s +:+ t)
  = list_ascii_of_string s ++ list_ascii_of_string t.
Proof.
  induction s as [|c s IH]; [reflexivity|].
  change (String c s +:+ t) with (String c (s +:+ t)).
  cbn [list_ascii_of_string app]. rewrite IH. reflexivity.
Qed.

Lemma take_offset_app_Z (s : list ascii) :
  bool_decide (take 6 (s ++ ["Z"%char]) = list_ascii_of_string "+00:00")
  = bool_decide (take 6 s = list_ascii_of_string "+00:00").
Proof.
  destruct s as [|c1 [|c2 [|c3 [|c4 [|c5 [|c6 s]]]]]];
    try reflexivity;
    cbn [take app]; apply bool_decide_ext; split; intros H;
    try (injection H as _ _ _ _ _ H; discriminate H);
    try (injection H as _ _ _ _ H; discriminate H);
    try (injection H as _ _ _ H; discriminate H);
    try (injection H as _ _ H; discriminate H);
    try (injection H as _ H; discriminate H);
    try discriminate H.
Qed.

Lemma remove_all_app_Z (s : list ascii) :
  forall skip : nat,
    (skip <= length s)%nat ->
    remove_all (list_ascii_of_string "+00:00") skip (s ++ ["Z"%char])
    = remove_all (list_ascii_of_string "+00:00") skip s ++ ["Z"%char].
Proof.
  induction s as [|c s IH]; intros skip Hskip.
  - destruct skip; [reflexivity | simpl in Hskip; lia].
  - destruct skip as [|k].
    + cbn [remove_all app].
      change (length (list_ascii_of_string "+00:00")) with 6%nat.
      change (c :: s ++ ["Z"%char]) with ((c :: s) ++ ["Z"%char]) at 1.
      rewrite take_offset_app_Z.
      destruct (bool_decide (take 6 (c :: s) = list_ascii_of_string "+00:00"))
        eqn:Hd.
      * apply bool_decide_eq_true in Hd.
        apply IH. apply (f_equal length) in Hd.
        rewrite length_take in Hd.
        change (length (list_ascii_of_string "+00:00")) with 6%nat in Hd.
        cbn [length] in Hd. lia.
      * cbn [app]. rewrite IH by lia. reflexivity.
    + cbn [remove_all app]. apply IH. simpl in Hskip. lia.
Qed.

(** X16: a [Z] at the end of the text changes nothing, however many there
    are: [parse_date] gives the text with one more [Z] the result of the
    text without it. *)
Theorem parse_date_ignores_trailing_Z (s : string) :
  parse_date (JStr (s +:+ "Z")) = parse_date (JStr s).
Proof.
  rewrite !parse_date_cleaned. unfold cleaned.
  rewrite list_ascii_of_string_app.
  change (list_ascii_of_string "Z") with ["Z"%char].
  rewrite remove_all_app_Z by lia.
  rewrite rstrip_app_Z. reflexivity.
Qed.

Lemma remove_all_plain_app (s t : list ascii) :
  Forall (fun c => c <> "+"%char) s ->
  remove_all (list_ascii_of_string "+00:00") 0 (s ++ t)
  = s ++ remove_all (list_ascii_of_string "+00:00") 0 t.
Proof.
  induction 1 as [|c s Hc Hs IH]; [reflexivity|].
  cbn [remove_all app]. rewrite bool_decide_eq_false_2.
  - rewrite IH. reflexivity.
  - simpl. intros E. injection E as E _. contradiction.
Qed.

(** X17: the offset [+00:00] is cut out of the text before the formats are
    tried: after a text without [+], it changes nothing. *)
Theorem parse_date_ignores_utc_offset (s : string) :
  Forall (fun c => c <> "+"%char) (list_ascii_of_string s) ->
  parse_date (JStr (s +:+ "+00:00")) = parse_date (JStr s).
Proof.
  intros Hs. rewrite !parse_date_cleaned. unfold cleaned.
  rewrite list_ascii_of_string_app.
  rewrite remove_all_plain_app by exact Hs.
  rewrite (remove_all_no_plus _ Hs).
  change (remove_all _ 0 (list_ascii_of_string "+00:00")) with (@nil ascii).
  rewrite app_nil_r. reflexivity.
Qed.


Lemma parse_date_ignores_utc_offset_witness :
  parse_date (JStr "2024-03-05T00:00:00+00:00")
  = parse_date (JStr "2024-03-05T00:00:00").
Proof.
  apply (parse_date_ignores_utc_offset "2024-03-05T00:00:00").
  repeat (apply Forall_cons_2; [discriminate|]). apply List.Forall_nil.
Defined.

(* ===================================================================== *)
(** * The board in the browser                                           *)
(* ===================================================================== *)

Lemma find_unique {A : Type} (P : A -> bool) (l : list A) (x : A) :
  x ∈ l -> P x = true -> (forall y, y ∈ l -> P y = true -> y = x) ->
  List.find P l = Some x.
Proof.
  induction l as [|a l IH]; intros Hin HP Huniq; [inversion Hin|].
  cbn [List.find]. destruct (P a) eqn:Ha.
  - f_equal. apply Huniq; [apply list_elem_of_here | exact Ha].
  - apply elem_of_cons in Hin as [->|Hin]; [congruence|].
    apply IH; [exact Hin | exact HP |].
    intros y Hy. apply Huniq. apply list_elem_of_further, Hy.
Qed.

Lemma remove_child_middle (el : nat) (a c : list nat) :
  el ∉ a -> remove_child el (a ++ el :: c) = a ++ c.
Proof.
  induction a as [|x a IH]; intros Hnin.
  - cbn [app remove_child]. destruct (decide (el = el)); [reflexivity|congruence].
  - cbn [app remove_child]. destruct (decide (x = el)) as [->|_].
    + exfalso. apply Hnin, list_elem_of_here.
    + rewrite IH; [reflexivity|]. intros H. apply Hnin, list_elem_of_further, H.
Qed.

Lemma insert_before_middle (el ref : nat) (a c : list nat) :
  ref ∉ a -> insert_before el ref (a ++ ref :: c) = a ++ el :: ref :: c.
Proof.
  induction a as [|x a IH]; intros Hnin.
  - cbn [app insert_before].
    destruct (decide (ref = ref)); [reflexivity|congruence].
  - cbn [app insert_before]. destruct (decide (x = ref)) as [->|_].
    + exfalso. apply Hnin, list_elem_of_here.
    + rewrite IH; [reflexivity|]. intros H. apply Hnin, list_elem_of_further, H.
Qed.

(** Putting [el] back at index [i] of the list it was taken from. *)
Lemma reinsert_at (el : nat) (l : list nat) (i : nat) :
  l !! i = Some el -> NoDup l ->
  match delete i l !! i with
  | Some refNode => insert_before el refNode (delete i l)
  | None => delete i l ++ [el]
  end = l.
Proof.
  intros Hi Hnd.
  pose proof (take_drop_middle l i el Hi) as Hl.
  rewrite delete_take_drop.
  assert (Hlen : length (take i l) = i).
  { apply length_take_le. apply lookup_lt_Some in Hi. lia. }
  set (a := take i l) in *. set (c := drop (S i) l) in *.
  rewrite <- Hl in Hnd.
  replace ((a ++ c) !! i) with (c !! 0%nat)
    by (rewrite lookup_app_r by lia; f_equal; lia).
  destruct c as [|refNode c']; cbn [lookup list_lookup].
  - rewrite app_nil_r. exact Hl.
  - rewrite insert_before_middle; [exact Hl|].
    intros Hin. apply NoDup_app in Hnd as (_ & Hdisj & _).
    apply (Hdisj refNode Hin).
    apply list_elem_of_further, list_elem_of_here.
Qed.

Lemma revertCard_drop_card (b : board) (from to : card_list) (i j : nat)
    (el : nat) :
  from <> to ->
  b from !! i = Some el ->
  NoDup (b from) ->
  (forall k, k <> from -> el ∉ b k) ->
  forall k, revertCard el from i (drop_card el from i to j b) k = b k.
Proof.
  intros Hft Hi Hnd Helse k.
  assert (Hgone : el ∉ delete i (b from)).
  { pose proof (take_drop_middle (b from) i el Hi) as Hl.
    rewrite <- Hl in Hnd. rewrite delete_take_drop.
    apply NoDup_app in Hnd as (_ & Hdisj & Hnd2).
    apply NoDup_cons in Hnd2 as [Hhd _].
    intros Hin. apply elem_of_app in Hin as [Hin|Hin].
    - apply (Hdisj el Hin), list_elem_of_here.
    - exact (Hhd Hin). }
  assert (Hto : el ∉ b to) by (apply Helse; congruence).
  assert (Hparent : parent_node (drop_card el from i to j b) el = Some to).
  { unfold parent_node. apply find_unique.
    - destruct to; unfold CARD_LISTS; list_mem.
    - apply bool_decide_eq_true. unfold drop_card, set_children.
      destruct (decide (to = to)); [|congruence].
      apply elem_of_app. right. apply list_elem_of_here.
    - intros y _ Hy. apply bool_decide_eq_true in Hy.
      unfold drop_card, set_children in Hy.
      destruct (decide (y = to)) as [->|Hyt]; [reflexivity|].
      destruct (decide (y = from)) as [->|Hyf]; [contradiction|].
      exfalso. exact (Helse y Hyf Hy). }
  unfold revertCard. rewrite Hparent.
  assert (Hb1 : forall k',
            set_children to
              (remove_child el (drop_card el from i to j b to))
              (drop_card el from i to j b) k'
            = if decide (k' = from) then delete i (b from) else b k').
  { intros k'. unfold drop_card, set_children.
    destruct (decide (to = to)); [|congruence].
    destruct (decide (k' = to)) as [->|Hkt].
    - destruct (decide (to = from)); [congruence|].
      rewrite remove_child_middle.
      + apply take_drop.
      + intros Hin. apply Hto. exact (subseteq_take j (b to) el Hin).
    - reflexivity. }
  cbv zeta. unfold set_children at 1.
  destruct (decide (k = from)) as [->|Hkf].
  - rewrite Hb1. destruct (decide (from = from)); [|congruence].
    apply reinsert_at; assumption.
  - rewrite Hb1. destruct (decide (k = from)); [contradiction|reflexivity].
Qed.

(** X18: the revert contract: after a card has been dragged from index [i] of
    one list to any place in another list, [revertCard] puts it back at
    index [i] of the first list, and every list of the board is as it was
    before the drag. *)
Theorem revert_restores_position (b : board) (from to : card_list) (i j : nat)
    (el : nat) :
  from <> to ->
  b from !! i = Some el ->
  NoDup (b from) ->
  (forall k, k <> from -> el ∉ b k) ->
  forall k, revertCard el from i (drop_card el from i to j b) k = b k.
Proof. exact (revertCard_drop_card b from to i j el). Qed.

Section DragFacts.

Variable py_str : json -> string.
Variable srv : server.

(** Every JSON answer of [api_update_stage] says in [success] whether
    its status is 200. *)
Lemma api_update_stage_success_flag (order_id : Z) (data : json) (w : world) :
  match (api_update_stage py_str srv order_id data w).1 with
  | StageAnswer status answer =>
      answer !! "success" = Some (JBool (status =? 200))
  | StageCrash _ => True
  end.
Proof.
  unfold api_update_stage.
  destruct (negb (truthy data)); [reflexivity|].
  destruct (stage_in data) as [[|]|e]; try reflexivity; try exact I.
  destruct data as [| | | | | |d]; try exact I.
  destruct (update_order_stage_value py_str srv order_id (dict_get d "stage") w)
    as [[[|error]|e] w1]; first [reflexivity | exact I].
Qed.

Lemma onEnd_settle (order_id : Z) (from to : card_list) (el i : nat)
    (p : page) (w : world) :
  from <> to ->
  (onEnd py_str srv order_id from to el i p w).1
  = settle
      (reply_of (api_update_stage py_str srv order_id
                   (client_request (list_stage to)) w).1)
      (list_stage to) el from i p.
Proof.
  intros Hft. unfold onEnd.
  destruct (decide (from = to)); [contradiction|].
  destruct (api_update_stage py_str srv order_id
              (client_request (list_stage to)) w) as [r w1].
  reflexivity.
Qed.

(** X19: the contract between the board and the server for one drag to
    another list: when the server answers 200 the card stays where it was
    dropped and takes the stage of its new list; on any other answer,
    and when the view fails, every list is as it was before the drag and
    the attributes are untouched. *)
Theorem drag_contract (order_id : Z) (b : board) (stages : gmap nat string)
    (from to : card_list) (i j : nat) (el : nat) (w : world) :
  0 <= order_id ->
  from <> to ->
  b from !! i = Some el ->
  NoDup (b from) ->
  (forall k, k <> from -> el ∉ b k) ->
  let dropped := mk_page (drop_card el from i to j b) stages in
  let answer :=
    (api_update_stage py_str srv order_id (client_request (list_stage to)) w).1 in
  let after := (onEnd py_str srv order_id from to el i dropped w).1 in
  (stage_status answer = Some 200 ->
   (forall k, lists after k = lists dropped k)
   /\ data_stage after = <[el := list_stage to]> stages)
  /\ (stage_status answer <> Some 200 ->
      (forall k, lists after k = b k) /\ data_stage after = stages).
Proof.
  intros _ Hft Hi Hnd Helse dropped answer after.
  pose proof (revertCard_drop_card b from to i j el Hft Hi Hnd Helse) as Hrev.
  pose proof (api_update_stage_success_flag order_id
                (client_request (list_stage to)) w) as Hflag.
  fold answer in Hflag.
  unfold after. rewrite (onEnd_settle order_id from to el i dropped w Hft).
  fold answer.
  destruct answer as [status body|e]; cbn [reply_of settle js_prop stage_status].
  - rewrite Hflag. cbn [default from_option Datatypes.id js_truthy].
    destruct (Z.eqb_spec status 200) as [->|Hne]; split.
    + intros _. split; [intros k|]; reflexivity.
    + intros H. contradiction H. reflexivity.
    + intros H. injection H as H. contradiction.
    + intros _. split; [exact Hrev | reflexivity].
  - split; [discriminate|]. intros _. split; [exact Hrev | reflexivity].
Qed.

End DragFacts.

Lemma revert_restores_position_witness :
  revertCard 2 ListNew 1 (drop_card 2 ListNew 1 ListComplete 0 board_sample)
    ListNew = [1; 2; 3]%nat.
Proof.
  apply (revert_restores_position board_sample ListNew ListComplete 1 0 2).
  - discriminate.
  - reflexivity.
  - apply (bool_decide_unpack _). vm_compute. exact I.
  - intros k Hk. destruct k; [contradiction | | |]; apply not_elem_of_nil.
Defined.

Lemma drag_contract_witness :
  lists (onEnd no_str srv_three_429 7 ListNew ListComplete 2 1
           (mk_page (drop_card 2 ListNew 1 ListComplete 0 board_sample) ∅)
           world0).1 ListNew
  = [1; 2; 3]%nat.
Proof.
  destruct (drag_contract no_str srv_three_429 7 board_sample ∅
              ListNew ListComplete 1 0 2 world0) as [_ Hback].
  - lia.
  - discriminate.
  - reflexivity.
  - apply (bool_decide_unpack _). vm_compute. exact I.
  - intros k Hk. destruct k; [contradiction | | |]; apply not_elem_of_nil.
  - destruct Hback as [H _]; [|exact (H ListNew)].
    vm_compute. discriminate.
Defined.

(* ===================================================================== *)
(** * What the board shows                                               *)
(* ===================================================================== *)

Lemma list_stage_known (k : card_list) : list_stage k ∈ KICKPLATE_STAGES.
Proof. destruct k; unfold KICKPLATE_STAGES; list_mem. Qed.

Section Refresh.

Variable float_of_str : string -> option spec_float.
Variable srv : server.
Variable today : date.

(** X20: the colour of a card follows the due date of its order: the
    class is [no-date] when the date is absent or does not parse,
    [overdue] when it lies before today, [due-soon] up to seven days
    ahead and [on-track] later. *)
Theorem card_class_follows_due_date (o : gmap string json) (p : processed) :
  process_order float_of_str today (JDict o) = Ok (Some p) ->
  status_class (createCardHTML p)
  = match parse_date (field o "EstimatedDeliveryDate") with
    | None => "no-date"
    | Some dt =>
        if days_between (date_of dt) today <? 0 then "overdue"
        else if days_between (date_of dt) today <=? 7 then "due-soon"
        else "on-track"
    end.
Proof.
  intros H.
  apply process_order_Some in H as (o' & Ho & _ & _ & _ & Hf & _).
  injection Ho as <-. unfold flags in Hf.
  unfold createCardHTML. cbn [status_class].
  destruct (parse_date (field o "EstimatedDeliveryDate")) as [dt|].
  - unfold classify, DUE_SOON_DAYS in Hf.
    destruct (days_between (date_of dt) today <? 0).
    + injection Hf as H1 _ _ _. rewrite H1. reflexivity.
    + destruct (days_between (date_of dt) today <=? 7);
        injection Hf as H1 H2 H3 _; rewrite H1, H2, ?H3; reflexivity.
  - injection Hf as H1 H2 H3 _. rewrite H1, H2, H3. reflexivity.
Qed.

(** X21: what a refresh shows.  After an answer 200 each list holds the
    cards of the normalised orders of its stage, in the order in which
    they were fetched, the counter of the column is their number and the
    error banner is hidden; after an answer 500 the banner is shown and
    the lists and the counters are what they were. *)
Theorem refresh_contract (w : world) (s : screen) :
  let shown := loadJobs (api_jobs float_of_str srv today w).1 s in
  let orders := omap (normalised float_of_str today) (fetch_all srv w).1 in
  match (api_jobs float_of_str srv today w).1 with
  | Jobs _ _ =>
      (forall k,
          columns shown k
          = map createCardHTML (filter (fun p => stage p = list_stage k) orders)
          /\ counts shown k = Z.of_nat (length (columns shown k)))
      /\ error_banner shown = None
  | ServerError _ =>
      (forall k, columns shown k = columns s k /\ counts shown k = counts s k)
      /\ error_banner shown = Some "Failed to load jobs. Will retry..."
  end.
Proof.
  intros shown orders. subst shown.
  destruct (api_jobs float_of_str srv today w) as [r w'] eqn:Hapi.
  cbn [fst]. destruct r as [jobs total|e].
  - apply api_jobs_Jobs in Hapi as (Hjobs & _ & _).
    cbv zeta in Hjobs. fold orders in Hjobs. subst jobs.
    cbn [loadJobs columns counts error_banner].
    split; [|reflexivity]. intros k.
    rewrite group_orders_lookup.
    destruct (decide (list_stage k ∈ KICKPLATE_STAGES)) as [_|Hn];
      [|contradiction Hn; apply list_stage_known].
    cbn [default from_option Datatypes.id].
    split; [reflexivity|]. rewrite length_map. reflexivity.
  - cbn [loadJobs columns counts error_banner].
    split; [|reflexivity]. intros k. split; reflexivity.
Qed.

(** X22: an outage blanks the board.  When none of the three requests
    for page 1 is answered by a 200 that decodes, the next refresh
    empties every list, sets every counter to 0 and hides the error
    banner, whatever the board showed before. *)
Theorem outage_blanks_the_board (w : world) (s : screen) :
  (forall i : nat, (i < 3)%nat ->
     json_body (srv (length (sent w) + i)%nat
                    (Get "/SalesOrders" (page_params 1))) = None) ->
  let shown := loadJobs (api_jobs float_of_str srv today w).1 s in
  (forall k, columns shown k = [] /\ counts shown k = 0)
  /\ error_banner shown = None.
Proof.
  intros Hdown shown. subst shown.
  destruct (fetch_all_outage srv w Hdown) as [Hnone _].
  rewrite api_jobs_fst, Hnone. cbn [process_all length Z.of_nat].
  cbn [loadJobs columns counts error_banner].
  split; [|reflexivity]. intros k.
  change (group_orders []) with empty_groups.
  rewrite empty_groups_lookup.
  destruct (decide (list_stage k ∈ KICKPLATE_STAGES)) as [_|Hn];
    [|contradiction Hn; apply list_stage_known].
  split; reflexivity.
Qed.

End Refresh.

Lemma card_class_follows_due_date_witness :
  status_class (createCardHTML p_new) = "overdue".
Proof.
  rewrite (card_class_follows_due_date no_float_text today_sample order_new
             p_new); vm_compute; reflexivity.
Defined.

Lemma outage_blanks_the_board_witness :
  columns (loadJobs (api_jobs no_float_text (srv_const service_unavailable)
                       today_sample world0).1 screen_sample) ListNew = [].
Proof.
  destruct (outage_blanks_the_board no_float_text
              (srv_const service_unavailable) today_sample world0
              screen_sample) as [H _].
  - intros i Hi. reflexivity.
  - exact (proj1 (H ListNew)).
Defined.
